(* ===== verification/_CoqProject ===== *)
-Q . S2P
Prelude.v
PyStr.v
PyNum.v
Binary64.v
PyFloat.v
Repr.v
Json.v
Calendar.v
Os.v
Host.v
Cpu.v
Memory.v
Disk.v
Boots.v
Temps.v
Gpu.v
Metrics.v
Http.v
Server.v
