(* ===== verification/Prelude.v ===== *)
(** * Verification of the fleet metrics agent

    This development models [src/plugins/fleet-metrics/fleet_metrics.py], a
    single-file Python HTTP agent that, on every [GET /metrics], samples the
    host (hostname, uptime, temperatures, memory, load, CPU and GPU
    utilisation, reboot history, disk) and answers with one JSON object.

    ** The program and how its parts interact

    - The source readers ([get_hostname], [get_uptime], [get_boot_time],
      [get_temperatures], [get_memory], [get_load_avg], [get_gpu_percent],
      [get_recent_boots], [get_reboot_causes], [get_disk]) each read an OS
      file, run an external tool ([nvidia-smi], [last]) or call [os.statvfs].
      Each has its own [try]/[except] policy: some exceptions are swallowed
      and turned into an empty or [None] value, the others escape.
    - The CPU sampler [get_cpu_percent] reads [/proc/stat], sleeps 100 ms,
      reads it again and computes a percentage from the two deltas.
    - [collect_metrics] calls every reader once, in the order of its dict
      literal, and builds the snapshot dict; an exception escaping a reader
      aborts the snapshot.
    - [MetricsHandler.do_GET] answers [/metrics] with the JSON encoding of
      the snapshot ([json.dumps], whose floats are printed by
      [float.__repr__]) and [404] otherwise.
    - At start-up the module reads [PORT] from the environment, binds an
      [HTTPServer] on all interfaces, prints one line and serves
      connections one at a time with [serve_forever]; an exception that
      escapes a handler closes that connection only.

    ** How the code is modelled

    - Python execution: values of a Python exception are the constructors of
      [exn] (below); a computation that can raise and that performs I/O is a
      value of the monad [PyM] (state: the number of I/O events done so far,
      so that two reads of the same file at different times may differ;
      result: a value or a raised exception).  [try]/[except C] is
      [try_except] with the class test [isinstance].
    - [Os.v]: the machine is a record [world] of oracles (file contents per
      read, glob results, outcomes of [subprocess.run], [statvfs], the
      clock), indexed by the event counter.  Each oracle returns either a
      value or a typed failure ([io_error]: an [OSError] or a decoding
      error, which is a [ValueError]; [run_error]: an [OSError], the
      timeout or a decoding error), which the primitive turns into the
      exception CPython raises.  Every Python I/O call of the source is one
      primitive of [Os.v].
    - [PyStr.v]: the [str] methods the code uses ([strip], [split()],
      [split(sep)], [rstrip(chars)], [startswith], [join], slices) on ASCII
      strings, with Python's whitespace set.
    - [PyNum.v]: [int(str)] (sign, digits, single underscores), round half
      to even at one decimal ([round(x, 1)]) on exact rationals, and the
      interface [FloatModel] of binary floating point: every float
      operation of the source is [frnd] of its exact result, where [frnd]
      is monotone and exact on small dyadic rationals.  The theorems hold for
      every instance; [exact_float] is the instance without rounding.
    - [PyFloat.v]: [float(str)] as CPython parses it (whitespace,
      underscores between digits, sign, digits with a point, exponent,
      [inf]/[infinity]/[nan] in any case) into [pyfloat] ([PFin], [PInf],
      [PNaN]), rounding the decimal once by [frnd].
    - [Calendar.v]: [time.gmtime] on a float (CPython's floor and
      [time_t] range check, glibc's date computation and its [EOVERFLOW])
      and [time.strftime("%Y-%m-%dT%H:%M:%SZ")] (glibc's digit loop),
      with the plain count of days from 1970-01-01 as specification.
    - [Host.v]: [get_hostname], [get_uptime], [get_boot_time] and
      [get_load_avg].
    - One file per other reader: [Cpu.v] ([get_cpu_percent]), [Memory.v]
      ([get_memory]), [Disk.v] ([get_disk]), [Boots.v] ([get_recent_boots],
      [get_reboot_causes]), [Temps.v] ([get_temperatures]) and [Gpu.v]
      ([get_gpu_percent]).  Each holds the reader as a [PyM] computation
      written like the source (a Section over the [world] and the
      [FloatModel]), its pure core and the theorems.  A Python dict is a
      stdpp [gmap] where only lookups matter ([/proc/meminfo]) and an
      association list with Python's assignment ([dict_set]) where the
      insertion order is part of the JSON output (temperatures, causes).
    - [Binary64.v]: [b64], the [FloatModel] of IEEE binary64
      round-to-nearest-even (53-bit significand, subnormals, no overflow
      threshold), with its three laws proved: the float theorems, stated
      for every [FloatModel], are not vacuous for CPython's floats.
    - [Repr.v]: [float.__repr__] ([_Py_dg_dtoa] mode 0 and
      [format_float_short]); [Json.v]: [json.dumps] with the default
      options.  Both model library code the program calls at line 211
      and carry no theorem of their own beyond [json.dumps] writing only
      printable ASCII.
    - [Metrics.v]: [collect_metrics], the eleven readers in dict order and
      the JSON values of their results.  [Http.v]: [do_GET] in a monad
      that records what is sent ([send_response], [send_header],
      [end_headers], [wfile.write]), with the library's logging calls and
      the override of [log_message] that drops them.  [Server.v]: [PORT],
      the bind, the banner, the method dispatch of [http.server] and
      [serve_forever] as a step relation on an [Idle]/[Handling] server
      with its reachable states.

    ** Theorems (grouped)

    - CPU: the sampler never raises; it yields [None] when the total delta is
      zero or a line is malformed; with monotone counters the result is in
      [0, 100]; the spec scenario gives [75.0]; with a decreasing idle
      counter the result leaves [0, 100] (a divergence from the spec).
    - Memory: the dict built from [/proc/meminfo] keeps the last value of a
      key; absent keys count as zero; the five fields are the rounded exact
      quotients; [used_mb] is within 0.1 of [total_mb - available_mb]; the
      spec scenario; a malformed number raises [ValueError].
    - Disk: the three fields are rounded exact quotients; [used_gb] is within
      0.1 of [total_gb - free_gb]; the spec scenario.
    - Boots: at most ten boots; the exact list returned; the reboot cause is
      always ["unknown"] with the first reboot line as detail; the two
      readers agree when the two runs of [last] agree; a missing or slow
      [last] gives empty values, any other [OSError] escapes; in every
      snapshot the boots and the causes come from two runs of [last] at
      consecutive events (a divergence from the spec).
    - Temperatures: a zone holding [n] millidegrees is recorded as
      [n / 1000]; an unreadable or malformed zone is skipped; on the usual
      [thermal_zone<N>] directories the [nvidia-smi] fallback always runs
      (the gpu test looks at directory names); a non-float [nvidia-smi]
      line raises [ValueError] out of the reader; without the tool no key
      names a GPU.
    - Host: the fatal readers propagate a failing read; [load_avg] is the
      first three fields in order, [IndexError] when fewer; [boot_time]
      refines POSIX: its text reads back as a valid UTC time whose seconds
      since the Epoch are the floor of [now - uptime]; a NaN or infinite
      uptime raises.  Calendar (lemmas for the [boot_time] theorem): the
      closed-form date conversion gives a valid date with the given day
      count (by 400-year eras and [lia] on the era), and the format reads
      back.
    - GPU: the first [nvidia-smi] line is the result; a non-float one
      raises [ValueError] without trying the Jetson file; otherwise the
      Jetson load divided by 10, in [0, 100] for a load in [0, 1000]; the
      spec's no-GPU scenario.
    - Snapshot: a collected snapshot has the eleven keys in order; a
      non-float [nvidia-smi] line aborts it; [recent_boots] and
      [reboot_causes] come from two separate runs of [last].
    - HTTP and server: a collected snapshot is answered with [200], the
      JSON content type and a [Content-Length] equal to the bytes written
      ([json.dumps] writes printable ASCII); a failing snapshot closes the
      connection before any byte; in every reachable state of the server
      every logged reply is complete (invariant by rule induction) and no
      reply holds a log line (the override of [log_message]); a [PORT]
      out of range stops the process with [OverflowError].

    ** Bounds

    Integer inputs are unbounded [Z] as in Python.  Float arithmetic is exact
    in the theorems only where IEEE binary64 is exact: integers and quotients
    by powers of two whose numerator is below [2^53]; the theorems on memory
    and disk carry that bound as a hypothesis.  The model has no fuel: every
    loop of the source runs over a finite list (lines of a file or of an
    output, glob results) and is a structural [Fixpoint].  The digit loop
    of [strftime] has fuel 20, enough for every [time_t] (below [10^20]);
    the [boot_time] theorem assumes that the floor of the float
    [now - uptime] lies in [[0, 2^53)] seconds, which keeps the year inside
    an [int] and the value inside [time_t].  [repr]'s digit search tries
    1 to 17 digits and falls back on the 17-digit rounding, and its digit
    loops take the bit length as fuel; no theorem depends on these
    bounds, which concern the library model only.

    ** Tactics and automation

    This file holds the monad's rewrite database [pym] and the tactic
    [zcase], which decides every integer comparison of a goal and drops
    the branches [lia] refutes; stdpp makes [Z.add] and [Z.mul]
    [simpl never], so the calendar's case analyses use [zcase] rather than
    [cbn].

    ** Not modelled

    The socket layer and [http.server]'s request parsing (request line,
    headers, the [Server] and [Date] headers [send_response] adds, the HTML
    page of [send_error]) are the library's: a request is modelled by its
    command and path and [send_error] by one event.  Also left out: the
    sign of a negative zero read from text, float overflow to infinity,
    non-ASCII text, and the 100 ms sleep of the CPU sampler (time passes
    as events).  The library's logging is modelled down to the call of
    [log_message] (the request line it would format is left out, the
    override drops it).  The library models ([float.__repr__],
    [json.dumps], [time.gmtime], [http.server]'s dispatch and
    [serve_forever]) are used to state what the program does; their own
    correctness is not a claim of the development.
*)

From Stdlib Require Export ZArith Lia Ascii String.
From stdpp Require Export base list strings gmap.

(** ** Python exceptions *)

(** The [OSError] subclasses the code distinguishes: [FileNotFoundError]
    (caught around [subprocess.run]), [PermissionError], the [EOVERFLOW]
    of [time.gmtime], the [EADDRINUSE] of a [bind] and any other. *)
Inductive os_error := ENOENT | EACCES | EIO | EOVERFLOW | EADDRINUSE.

Inductive exn :=
| ValueError
| IndexError
| ZeroDivisionError
| OverflowError
| OSError (e : os_error)
| TimeoutExpired.

(** The classes named in the [except] clauses of the source. *)
Inductive exn_class :=
| CValueError | CIndexError | COSError | CFileNotFoundError
| CTimeoutExpired | CException.

Definition isinstance (e : exn) (c : exn_class) : bool :=
  match c, e with
  | CException, _ => true
  | CValueError, ValueError => true
  | CIndexError, IndexError => true
  | COSError, OSError _ => true
  | CFileNotFoundError, OSError ENOENT => true
  | CTimeoutExpired, TimeoutExpired => true
  | _, _ => false
  end.

Definition caught_by (cs : list exn_class) (e : exn) : bool :=
  existsb (isinstance e) cs.

#[export] Instance os_error_eq_dec : EqDecision os_error.
Proof. solve_decision. Defined.
#[export] Instance exn_eq_dec : EqDecision exn.
Proof. solve_decision. Defined.

(** ** The execution monad *)

Inductive result (A : Type) := Ok (a : A) | Raise (e : exn).
Arguments Ok {A} a.
Arguments Raise {A} e.

(** A computation runs from an event counter and returns its outcome with
    the counter after it. *)
Definition PyM (A : Type) := nat -> result A * nat.

Definition ret {A} (a : A) : PyM A := fun t => (Ok a, t).
Definition raise {A} (e : exn) : PyM A := fun t => (Raise e, t).
Definition bind {A B} (m : PyM A) (k : A -> PyM B) : PyM B :=
  fun t => match m t with
           | (Ok a, t') => k a t'
           | (Raise e, t') => (Raise e, t')
           end.

(** [try: m except cs: h] *)
Definition try_except {A} (m : PyM A) (cs : list exn_class) (h : PyM A) : PyM A :=
  fun t => match m t with
           | (Raise e, t') => if caught_by cs e then h t' else (Raise e, t')
           | r => r
           end.

(** Sequencing of pure fallible steps. *)
Definition rbind {A B} (r : result A) (k : A -> result B) : result B :=
  match r with Ok a => k a | Raise e => Raise e end.

(** [l[i]] on a Python list, [IndexError] out of range. *)
Definition py_index {A} (l : list A) (i : nat) : result A :=
  match l !! i with Some x => Ok x | None => Raise IndexError end.

(** A Python dict whose insertion order matters (it is serialised):
    [d[k] = v] replaces the value in place or appends the key. *)
Fixpoint dict_set {V} (d : list (string * V)) (k : string) (v : V) : list (string * V) :=
  match d with
  | [] => [(k, v)]
  | (k', v') :: d' => if String.eqb k k' then (k, v) :: d' else (k', v') :: dict_set d' k v
  end.

Lemma dict_set_Forall {V} (P : string -> Prop) (d : list (string * V)) k v :
  Forall (fun kv => P kv.1) d -> P k -> Forall (fun kv => P kv.1) (dict_set d k v).
Proof.
  intros Hd Hk. induction Hd as [|[k' v'] d' H1 H2 IH]; simpl; [by constructor|].
  destruct (String.eqb k k'); by constructor.
Qed.

(** Lift a pure fallible step (a parse that may raise). *)
Definition lift {A} (r : result A) : PyM A := fun t => (r, t).

Declare Scope py_scope.
Delimit Scope py_scope with py.
Notation "x <- m ;; k" := (bind m (fun x => k))
  (at level 100, m at next level, right associativity) : py_scope.
Notation "m ;; k" := (bind m (fun _ => k))
  (at level 100, right associativity) : py_scope.
Notation "'let?' x ':=' r 'in' k" := (rbind r (fun x => k))
  (at level 10, x name, r at level 100, k at level 200) : py_scope.
Open Scope py_scope.

(** ** Generic lemmas *)

Create Rewrite HintDb pym.

Lemma bind_ret {A B} (a : A) (k : A -> PyM B) t : bind (ret a) k t = k a t.
Proof. reflexivity. Qed.

Lemma bind_raise {A B} e (k : A -> PyM B) t : bind (raise e) k t = (Raise e, t).
Proof. reflexivity. Qed.

Lemma bind_lift_ok {A B} (a : A) (k : A -> PyM B) t : bind (lift (Ok a)) k t = k a t.
Proof. reflexivity. Qed.

Lemma bind_step {A B} (m : PyM A) (k : A -> PyM B) t a t' :
  m t = (Ok a, t') -> bind m k t = k a t'.
Proof. unfold bind. by intros ->. Qed.

Lemma bind_step_raise {A B} (m : PyM A) (k : A -> PyM B) t e t' :
  m t = (Raise e, t') -> bind m k t = (Raise e, t').
Proof. unfold bind. by intros ->. Qed.

(** A sequence that succeeded ran its first part to a value. *)
Lemma bind_ok_inv {A B} (m : PyM A) (k : A -> PyM B) t b t' :
  bind m k t = (Ok b, t') -> exists a t1, m t = (Ok a, t1) /\ k a t1 = (Ok b, t').
Proof. unfold bind. destruct (m t) as [[a|e] t1]; [eauto|by intros [=]]. Qed.

Lemma try_except_ok {A} (m : PyM A) cs h t a t' :
  m t = (Ok a, t') -> try_except m cs h t = (Ok a, t').
Proof. unfold try_except. by intros ->. Qed.

Lemma try_except_caught {A} (m : PyM A) cs h t e t' :
  m t = (Raise e, t') -> caught_by cs e = true -> try_except m cs h t = h t'.
Proof. unfold try_except. by intros -> ->. Qed.

Lemma try_except_uncaught {A} (m : PyM A) cs h t e t' :
  m t = (Raise e, t') -> caught_by cs e = false -> try_except m cs h t = (Raise e, t').
Proof. unfold try_except. by intros -> ->. Qed.

(** [except Exception] catches every exception of the model. *)
Lemma caught_by_Exception cs e : In CException cs -> caught_by cs e = true.
Proof.
  intros Hin. apply existsb_exists. exists CException. split; [done | by destruct e].
Qed.

Lemma py_index_lt {A} (l : list A) i : i < length l -> exists x, py_index l i = Ok x /\ l !! i = Some x.
Proof.
  intros Hi. unfold py_index. destruct (lookup_lt_is_Some_2 l i Hi) as [x ->]. eauto.
Qed.

Lemma py_index_ge {A} (l : list A) i : length l <= i -> py_index l i = Raise IndexError.
Proof. intros Hi. unfold py_index. by rewrite lookup_ge_None_2. Qed.

#[export] Hint Rewrite @bind_ret @bind_raise @bind_lift_ok : pym.

(** Run a computation, forgetting the final event counter. *)
Definition outcome {A} (m : PyM A) (t : nat) : result A := fst (m t).

(** Python slicing [l[:n]] never fails and keeps at most [n] elements. *)
Lemma length_take_le {A} n (l : list A) : length (take n l) <= n.
Proof. rewrite length_take. lia. Qed.


(** ** Tactics *)

(** Decide every comparison of integers in the goal, dropping at once the
    branches that contradict the hypotheses. *)
Ltac zcase :=
  repeat match goal with
  | |- context [Z.ltb ?a ?b] => destruct (Z.ltb_spec a b); try (exfalso; lia)
  | |- context [Z.leb ?a ?b] => destruct (Z.leb_spec a b); try (exfalso; lia)
  | |- context [Z.eqb ?a ?b] => destruct (Z.eqb_spec a b); try (exfalso; lia)
  end; cbv beta iota delta [orb andb negb].
