(* ===== verification/PyStr.v ===== *)
(** * Python [str] methods used by the agent

    Strings are Rocq [string]s of ASCII characters.  Python's whitespace
    ([str.isspace], used by [strip()] and [split()]) is, on ASCII, the
    characters 9 to 13 and 28 to 32.  Each definition follows CPython's
    documented behaviour of the method of the same name. *)

From S2P Require Import Prelude.

Module PyStr.

Local Open Scope string_scope.

Definition is_space (c : ascii) : bool :=
  let n := Ascii.nat_of_ascii c in
  ((9 <=? n) && (n <=? 13) || (28 <=? n) && (n <=? 32))%nat.

(** [s.lstrip()] *)
Fixpoint lstrip (s : string) : string :=
  match s with
  | EmptyString => EmptyString
  | String c r => if is_space c then lstrip r else s
  end.

(** [s.rstrip()] *)
Fixpoint rstrip (s : string) : string :=
  match s with
  | EmptyString => EmptyString
  | String c r =>
      let r' := rstrip r in
      if is_space c && String.eqb r' "" then "" else String c r'
  end.

(** [s.strip()] *)
Definition strip (s : string) : string := rstrip (lstrip s).

(** [s.rstrip(chars)] for a one-character [chars]. *)
Fixpoint rstrip_char (d : ascii) (s : string) : string :=
  match s with
  | EmptyString => EmptyString
  | String c r =>
      let r' := rstrip_char d r in
      if Ascii.eqb c d && String.eqb r' "" then "" else String c r'
  end.

(** [s.split()]: maximal runs of non-whitespace, in order.  [cur] is the
    token being read. *)
Fixpoint split_ws_go (s cur : string) : list string :=
  match s with
  | EmptyString => if String.eqb cur "" then [] else [cur]
  | String c r =>
      if is_space c then
        (if String.eqb cur "" then split_ws_go r "" else cur :: split_ws_go r "")
      else split_ws_go r (cur ++ String c "")
  end.

Definition split_ws (s : string) : list string := split_ws_go s "".

(** [s.split(sep)] for a one-character separator: every occurrence cuts,
    empty pieces are kept, and [""] gives [[""]]. *)
Fixpoint split_on (sep : ascii) (s : string) : list string :=
  match s with
  | EmptyString => [""]
  | String c r =>
      let parts := split_on sep r in
      if Ascii.eqb c sep then "" :: parts
      else match parts with
           | p :: ps => String c p :: ps
           | [] => [String c ""]
           end
  end.

(** [sep.join(l)] *)
Fixpoint join (sep : string) (l : list string) : string :=
  match l with
  | [] => ""
  | [x] => x
  | x :: xs => x ++ sep ++ join sep xs
  end.

(** [s.startswith(p)] *)
Definition startswith (s p : string) : bool := String.prefix p s.

(** The lines of a text file as [for line in f] yields them: each line keeps
    its terminating newline, the last one may lack it, and there is no
    empty last line. *)
Fixpoint file_lines (s : string) : list string :=
  match s with
  | EmptyString => []
  | String c r =>
      if Ascii.eqb c "010"%char then String c "" :: file_lines r
      else match file_lines r with
           | [] => [String c ""]
           | l :: ls => String c l :: ls
           end
  end.

(** [f.readline()]: the first line, [""] at end of file. *)
Definition readline (s : string) : string :=
  match file_lines s with
  | [] => ""
  | l :: _ => l
  end.

(** [s.lower()] on ASCII. *)
Definition lower_char (c : ascii) : ascii :=
  let n := Ascii.nat_of_ascii c in
  if ((65 <=? n) && (n <=? 90))%nat then Ascii.ascii_of_nat (n + 32) else c.

Fixpoint lower (s : string) : string :=
  match s with
  | EmptyString => EmptyString
  | String c r => String (lower_char c) (lower r)
  end.

(** [sub in s] *)
Fixpoint contains (sub s : string) : bool :=
  String.prefix sub s ||
  match s with
  | EmptyString => false
  | String _ r => contains sub r
  end.

(** [sorted(l)] on strings: code point order, as [String.compare] on
    ASCII. *)
Fixpoint insert_str (x : string) (l : list string) : list string :=
  match l with
  | [] => [x]
  | y :: ys => if String.leb x y then x :: y :: ys else y :: insert_str x ys
  end.

Fixpoint sort_str (l : list string) : list string :=
  match l with
  | [] => []
  | x :: xs => insert_str x (sort_str xs)
  end.

(** [l[-k]] for [k > 0]: [IndexError] when [len(l) < k]. *)
Definition py_index_neg {A} (l : list A) (k : nat) : result A :=
  if (k <=? length l)%nat then py_index l (length l - k)%nat else Raise IndexError.

(** [c not in s] *)
Fixpoint no_char (c : ascii) (s : string) : bool :=
  match s with
  | EmptyString => true
  | String x r => negb (Ascii.eqb x c) && no_char c r
  end.

(** [s.isdigit()] on ASCII. *)
Fixpoint all_digits (s : string) : bool :=
  match s with
  | EmptyString => true
  | String c r =>
      let n := Ascii.nat_of_ascii c in ((48 <=? n) && (n <=? 57))%nat && all_digits r
  end.

(** ** Lemmas *)

Lemma split_on_sep c r : split_on c (String c r) = "" :: split_on c r.
Proof. simpl. by rewrite Ascii.eqb_refl. Qed.

(** A piece without the separator followed by the separator is one field. *)
Lemma split_on_field c a r :
  no_char c a = true -> split_on c (a ++ String c r) = a :: split_on c r.
Proof.
  induction a as [|x a IH]; simpl; [by rewrite Ascii.eqb_refl|].
  intros [Hx Ha]%andb_prop. apply negb_true_iff in Hx. rewrite Hx, IH by done. done.
Qed.

Lemma contains_no_char c sub s : no_char c s = true -> contains (String c sub) s = false.
Proof.
  induction s as [|x r IH]; simpl; [done|].
  intros [Hx Hr]%andb_prop. apply negb_true_iff in Hx. rewrite IH by done.
  destruct (Ascii.ascii_dec c x) as [->|]; [by rewrite Ascii.eqb_refl in Hx|done].
Qed.

(** [s.encode()]: the UTF-8 bytes of code points below 256. *)
Fixpoint utf8 (s : string) : list Z :=
  match s with
  | EmptyString => []
  | String c r =>
      let n := Z.of_nat (nat_of_ascii c) in
      ((if (n <? 128)%Z then [n] else [(192 + n / 64)%Z; (128 + n mod 64)%Z]) ++ utf8 r)%list
  end.

(** Every character is printable ASCII (a space to a tilde). *)
Fixpoint printable (s : string) : bool :=
  match s with
  | EmptyString => true
  | String c r => ((32 <=? nat_of_ascii c)%nat && (nat_of_ascii c <=? 126)%nat && printable r)%bool
  end.

Lemma str_app_assoc a b c : ((a ++ b) ++ c)%string = (a ++ (b ++ c))%string.
Proof. induction a as [|x a IH]; [reflexivity|]. exact (f_equal (String x) IH). Qed.

Lemma str_app_nil_r a : (a ++ "")%string = a.
Proof. induction a as [|x a IH]; [reflexivity|]. exact (f_equal (String x) IH). Qed.

Lemma str_app_cons x a b : (String x a ++ b)%string = String x (a ++ b).
Proof. reflexivity. Qed.

Lemma printable_app a b : printable (a ++ b) = (printable a && printable b)%bool.
Proof. induction a as [|c a IH]; [done|]. cbn [printable]. rewrite str_app_cons. cbn [printable].
  rewrite IH. by destruct (_ <=? _)%nat, (_ <=? _)%nat, (printable a). Qed.

(** An ASCII text is its own UTF-8 encoding, one byte a character. *)
Lemma utf8_printable s : printable s = true -> length (utf8 s) = String.length s.
Proof.
  induction s as [|c r IH]; [done|]. cbn [printable utf8].
  intros [[L U]%andb_true_iff R]%andb_true_iff. apply Nat.leb_le in U.
  replace (Z.of_nat (nat_of_ascii c) <? 128)%Z with true by (symmetry; apply Z.ltb_lt; lia).
  cbn. by rewrite IH.
Qed.

Lemma lower_app a b : lower (a ++ b) = lower a ++ lower b.
Proof. induction a as [|x a IH]; simpl; [done|]. by rewrite IH. Qed.

Lemma no_char_app c a b : no_char c (a ++ b) = no_char c a && no_char c b.
Proof. induction a as [|x a IH]; simpl; [done|]. by rewrite IH, andb_assoc. Qed.

(** Digits contain neither [/] nor, lowered, [g]. *)
Lemma all_digits_no_slash d : all_digits d = true -> no_char "/" d = true.
Proof.
  induction d as [|x r IH]; simpl; [done|]. intros [Hx Hr]%andb_prop.
  rewrite IH by done. destruct x as [[] [] [] [] [] [] [] []]; simpl in *; done.
Qed.

Lemma all_digits_lower_no_g d : all_digits d = true -> no_char "g" (lower d) = true.
Proof.
  induction d as [|x r IH]; simpl; [done|]. intros [Hx Hr]%andb_prop.
  rewrite IH by done. destruct x as [[] [] [] [] [] [] [] []]; simpl in *; done.
Qed.

Lemma insert_str_perm x l : insert_str x l ≡ₚ x :: l.
Proof.
  induction l as [|y ys IH]; simpl; [done|].
  destruct (String.leb x y); [done|]. rewrite IH. constructor.
Qed.

Lemma sort_str_perm l : sort_str l ≡ₚ l.
Proof.
  induction l as [|x xs IH]; simpl; [done|]. by rewrite insert_str_perm, IH.
Qed.


Lemma split_ws_go_spaces r cur :
  rstrip r = "" -> split_ws_go r cur = if String.eqb cur "" then [] else [cur].
Proof.
  revert cur. induction r as [|c r IH]; intros cur; simpl; [done|].
  destruct (is_space c) eqn:Hc; simpl.
  - destruct (String.eqb (rstrip r) "") eqn:Hr; simpl; [|done].
    apply String.eqb_eq in Hr. intros _. rewrite IH by done.
    by destruct (String.eqb cur "").
  - done.
Qed.

(** Trailing whitespace does not change the tokens. *)
Lemma split_ws_go_rstrip s cur : split_ws_go (rstrip s) cur = split_ws_go s cur.
Proof.
  revert cur. induction s as [|c r IH]; intros cur; simpl; [done|].
  destruct (is_space c) eqn:Hc; simpl.
  - destruct (String.eqb (rstrip r) "") eqn:Hr; simpl.
    + apply String.eqb_eq in Hr. rewrite (split_ws_go_spaces r "") by done. simpl.
      by destruct (String.eqb cur "").
    + rewrite Hc. by rewrite !IH.
  - rewrite Hc. apply IH.
Qed.

(** Leading whitespace does not change the tokens. *)
Lemma split_ws_lstrip s : split_ws (lstrip s) = split_ws s.
Proof.
  unfold split_ws. induction s as [|c r IH]; simpl; [done|].
  destruct (is_space c) eqn:Hc; [done|]. simpl. by rewrite Hc.
Qed.

Lemma split_ws_strip s : split_ws (strip s) = split_ws s.
Proof. unfold strip, split_ws. rewrite split_ws_go_rstrip. apply split_ws_lstrip. Qed.

Lemma str_length_app a b : String.length (a ++ b) = (String.length a + String.length b)%nat.
Proof. induction a; [done|]. rewrite str_app_cons. cbn. by rewrite IHa. Qed.

Lemma substring_app_l a b : substring 0 (String.length a) (a ++ b) = a.
Proof. induction a; [by destruct b|]. rewrite str_app_cons. cbn. by rewrite IHa. Qed.

Lemma substring_all b : substring 0 (String.length b) b = b.
Proof. induction b; cbn; [done|]. by rewrite IHb. Qed.

Lemma substring_app_r a b : substring (String.length a) (String.length b) (a ++ b) = b.
Proof. induction a; [apply substring_all|]. rewrite str_app_cons. exact IHa. Qed.

End PyStr.
