(* ===== verification/PyNum.v ===== *)
(** * Python numbers: [int(str)], [round(x, 1)] and the float interface

    - [py_int] is [int(s)] in base 10: surrounding whitespace, an optional
      sign, decimal digits with single underscores between them; anything
      else raises [ValueError].
    - Python floats are modelled by the exact rational they denote.  Every
      float operation of the source ([a / b] on ints, [x - y], [x * y]) is
      [frnd] of its exact result, where [frnd] comes from the interface
      [FloatModel]: a monotone rounding that is exact on dyadic rationals
      [z / 2^e] with [|z| < 2^53] and [e <= 1074], which IEEE binary64
      round-to-nearest is.  [exact_float] is its identity instance.
    - [round(x, 1)] on a float is CPython's correctly rounded
      round-half-to-even of the exact value at one decimal; [round1] returns
      the number of tenths, [py_round1] also the sign bit of the float
      result ([round(-0.01, 1)] is [-0.0]). *)

From S2P Require Import Prelude PyStr.
From Stdlib Require Import QArith Qabs Lqa DecimalString DecimalZ.
Import PyStr.
Local Close Scope Q_scope.

Module PyNum.

(** ** [int(s)] *)

Definition digit_val (c : ascii) : option Z :=
  let n := Ascii.nat_of_ascii c in
  if (48 <=? n)%nat && (n <=? 57)%nat then Some (Z.of_nat n - 48)%Z else None.

(** Digits with single underscores between them; [seen]: a digit was
    read; [us]: the last character was an underscore. *)
Fixpoint parse_digits (s : string) (acc : Z) (seen us : bool) : option Z :=
  match s with
  | EmptyString => if seen && negb us then Some acc else None
  | String c r =>
      if Ascii.eqb c "_"%char then
        if seen && negb us then parse_digits r acc seen true else None
      else match digit_val c with
           | Some d => parse_digits r (10 * acc + d)%Z true false
           | None => None
           end
  end.

Definition parse_int (s : string) : option Z :=
  match strip s with
  | String c r =>
      if Ascii.eqb c "-"%char then option_map Z.opp (parse_digits r 0 false false)
      else if Ascii.eqb c "+"%char then parse_digits r 0 false false
      else parse_digits (String c r) 0 false false
  | EmptyString => None
  end.

Definition py_int (s : string) : result Z :=
  match parse_int s with
  | Some z => Ok z
  | None => Raise ValueError
  end.

(** [str(n)] for an int. *)
Definition str_of_Z (z : Z) : string := NilZero.string_of_int (Z.to_int z).

Definition str_of_nat (n : nat) : string := str_of_Z (Z.of_nat n).

(** [int(s)] raises nothing but [ValueError]. *)
Lemma py_int_raise s e : py_int s = Raise e -> e = ValueError.
Proof. unfold py_int. by destruct (parse_int s); intros [=]. Qed.

(** *** [int(str(n)) == n]

    [str] prints the decimal digits of [Decimal]; [uval d acc] is the
    value of the digits [d] read after [acc], most significant first. *)
Fixpoint uval (d : Decimal.uint) (acc : Z) : Z :=
  match d with
  | Decimal.Nil => acc
  | Decimal.D0 l => uval l (10 * acc) | Decimal.D1 l => uval l (10 * acc + 1)
  | Decimal.D2 l => uval l (10 * acc + 2) | Decimal.D3 l => uval l (10 * acc + 3)
  | Decimal.D4 l => uval l (10 * acc + 4) | Decimal.D5 l => uval l (10 * acc + 5)
  | Decimal.D6 l => uval l (10 * acc + 6) | Decimal.D7 l => uval l (10 * acc + 7)
  | Decimal.D8 l => uval l (10 * acc + 8) | Decimal.D9 l => uval l (10 * acc + 9)
  end%Z.

Lemma uval_of_uint_acc d acc : Zpos (Pos.of_uint_acc d acc) = uval d (Zpos acc).
Proof.
  revert acc. induction d; intros acc; cbn [Pos.of_uint_acc uval]; rewrite ?IHd; f_equal; lia.
Qed.

Lemma uval_of_uint d : Z.of_uint d = uval d 0.
Proof.
  unfold Z.of_uint. induction d; cbn [Pos.of_uint uval Z.of_N];
    [done|rewrite IHd|rewrite uval_of_uint_acc..]; f_equal; lia.
Qed.

Lemma parse_digits_digit c r acc seen us k :
  Ascii.eqb c "_"%char = false -> digit_val c = Some k ->
  parse_digits (String c r) acc seen us = parse_digits r (10 * acc + k)%Z true false.
Proof. intros E D. cbn [parse_digits]. by rewrite E, D. Qed.

Lemma parse_digits_uint d acc :
  parse_digits (NilEmpty.string_of_uint d) acc true false = Some (uval d acc).
Proof.
  revert acc. induction d; intros acc; [done|..]; cbn [NilEmpty.string_of_uint];
    match goal with |- context [parse_digits (String ?c _)] =>
      rewrite (parse_digits_digit c _ _ _ _ _ eq_refl eq_refl), IHd end; cbn [uval]; f_equal; apply (f_equal (uval d));
    match goal with |- context [Z.of_nat (nat_of_ascii ?c)] =>
      let v := eval vm_compute in (Z.of_nat (nat_of_ascii c)) in change (Z.of_nat (nat_of_ascii c)) with v end; lia.
Qed.

Lemma rstrip_uint d : rstrip (NilEmpty.string_of_uint d) = NilEmpty.string_of_uint d.
Proof. induction d; cbn [NilEmpty.string_of_uint rstrip]; rewrite ?IHd; done. Qed.

Lemma parse_digits_uint_first d acc seen us : d <> Decimal.Nil ->
  parse_digits (NilEmpty.string_of_uint d) acc seen us = Some (uval d acc).
Proof.
  intros Hd. rewrite <- parse_digits_uint. destruct d; [done|..]; reflexivity.
Qed.

Lemma strip_uint d : d <> Decimal.Nil ->
  strip (NilEmpty.string_of_uint d) = NilEmpty.string_of_uint d.
Proof. intros Hd. unfold strip. rewrite <- (rstrip_uint d) at 2. f_equal. by destruct d. Qed.

Lemma string_of_uint_nonnil d : d <> Decimal.Nil ->
  NilZero.string_of_uint d = NilEmpty.string_of_uint d.
Proof. by destruct d. Qed.

Lemma parse_int_uint d : d <> Decimal.Nil ->
  parse_int (NilEmpty.string_of_uint d) = Some (Z.of_uint d).
Proof.
  intros Hd. unfold parse_int. rewrite strip_uint, uval_of_uint by done.
  rewrite <- (parse_digits_uint_first d 0 false false Hd). by destruct d.
Qed.

Lemma parse_int_neg_uint d : d <> Decimal.Nil ->
  parse_int (String "-" (NilEmpty.string_of_uint d)) = Some (- Z.of_uint d)%Z.
Proof.
  intros Hd. unfold parse_int, strip.
  change (lstrip (String "-" ?s)) with (String "-" s). cbn [rstrip]. rewrite rstrip_uint.
  replace (is_space "-" && _)%bool with false by done. cbn.
  by rewrite parse_digits_uint_first, uval_of_uint.
Qed.

Lemma parse_int_string_of_int i : parse_int (NilZero.string_of_int i) = Some (Z.of_int i).
Proof.
  destruct i as [d|d]; (destruct d eqn:E; [reflexivity|..]); rewrite <- E;
    assert (Hd : d <> Decimal.Nil) by (by rewrite E); unfold NilZero.string_of_int, Z.of_int;
    rewrite string_of_uint_nonnil by done; auto using parse_int_uint, parse_int_neg_uint.
Qed.

(** [int(str(z))] gives [z] back. *)
Lemma py_int_str_of_Z z : py_int (str_of_Z z) = Ok z.
Proof. unfold py_int, str_of_Z. by rewrite parse_int_string_of_int, DecimalZ.of_to. Qed.

(** [list(map(int, l))]: the first token that is not an int raises. *)
Fixpoint map_int (l : list string) : result (list Z) :=
  match l with
  | [] => Ok []
  | s :: r => let? z := py_int s in let? zs := map_int r in Ok (z :: zs)
  end.

(** [sum(l)] on ints (the order of the additions does not matter). *)
Definition py_sum (l : list Z) : Z := foldr Z.add 0%Z l.

Lemma map_int_length l zs : map_int l = Ok zs -> length zs = length l.
Proof.
  revert zs. induction l as [|s r IH]; intros zs; simpl; [by intros [= <-]|].
  destruct (py_int s); simpl; [|done].
  destruct (map_int r) eqn:E; simpl; [|done]. intros [= <-]. simpl. by rewrite (IH _ eq_refl).
Qed.

(** With pointwise larger counters, the growth of one counter is at most
    the growth of the sum. *)
Lemma py_sum_delta_ge (v1 v2 : list Z) i :
  Forall2 Z.le v1 v2 ->
  (0 <= nth i v2 0 - nth i v1 0 <= py_sum v2 - py_sum v1)%Z.
Proof.
  intros HF. revert i. induction HF as [|x y l1 l2 Hxy HF IH]; intros i; simpl; [lia|].
  assert (0 <= py_sum l2 - py_sum l1)%Z by (specialize (IH 0); destruct l1, l2; simpl in *; lia).
  destruct i; [lia|]. specialize (IH i). lia.
Qed.

(** ** Round half to even *)

Local Open Scope Z_scope.

(** The integer nearest to [n / d], ties to the even one. *)
Definition rhe (n : Z) (d : positive) : Z :=
  let q := n / Zpos d in
  let r := n mod Zpos d in
  match Z.compare (2 * r) (Zpos d) with
  | Lt => q
  | Gt => q + 1
  | Eq => if Z.even q then q else q + 1
  end.

(** The characterisation of [rhe]: [k] is within one half of [n / d], and
    even on a tie. *)
Definition rhe_spec (n : Z) (d : positive) (k : Z) : Prop :=
  Zpos d * (2 * k - 1) <= 2 * n <= Zpos d * (2 * k + 1) /\
  (2 * n = Zpos d * (2 * k - 1) \/ 2 * n = Zpos d * (2 * k + 1) -> Z.even k = true).

Lemma rhe_correct n d : rhe_spec n d (rhe n d).
Proof.
  unfold rhe, rhe_spec.
  pose proof (Z.div_mod n (Zpos d) ltac:(lia)) as Hdm.
  pose proof (Z.mod_pos_bound n (Zpos d) ltac:(lia)) as Hb.
  set (q := n / Zpos d) in *. set (r := n mod Zpos d) in *.
  destruct (Z.compare_spec (2 * r) (Zpos d)) as [E|E|E].
  - destruct (Z.even q) eqn:Ev.
    + split; [nia|]. intros _. exact Ev.
    + split; [nia|]. intros _. rewrite Z.even_add, Ev. done.
  - split; [nia|]. intros [H|H]; nia.
  - split; [nia|]. intros [H|H]; nia.
Qed.

(** Two integers meeting the characterisation are equal. *)
Lemma rhe_spec_unique n d k1 k2 : rhe_spec n d k1 -> rhe_spec n d k2 -> k1 = k2.
Proof.
  intros [[H1 H2] E1] [[H3 H4] E2].
  assert (k1 - 1 <= k2 <= k1 + 1) by nia.
  destruct (Z.eq_dec k1 k2) as [|Hne]; [done|].
  assert (k2 = k1 + 1 \/ k2 = k1 - 1) as [Hk|Hk] by lia; subst k2.
  - assert (T1 : 2 * n = Zpos d * (2 * k1 + 1)) by nia.
    assert (T2 : 2 * n = Zpos d * (2 * (k1 + 1) - 1)) by nia.
    specialize (E1 (or_intror T1)). specialize (E2 (or_introl T2)).
    rewrite Z.even_add, E1 in E2. done.
  - assert (T1 : 2 * n = Zpos d * (2 * k1 - 1)) by nia.
    assert (T2 : 2 * n = Zpos d * (2 * (k1 - 1) + 1)) by nia.
    specialize (E1 (or_introl T1)). specialize (E2 (or_intror T2)).
    rewrite Z.even_sub, E1 in E2. done.
Qed.

Lemma rhe_unique n d k : rhe_spec n d k -> rhe n d = k.
Proof. intros H. eapply rhe_spec_unique; [apply rhe_correct | exact H]. Qed.

(** Scaling the fraction does not change the result. *)
Lemma rhe_scale n d m : rhe (n * Zpos m) (d * m) = rhe n d.
Proof.
  apply rhe_unique. destruct (rhe_correct n d) as [[H1 H2] E].
  split; [split; rewrite Pos2Z.inj_mul; nia|].
  intros HH. apply E. rewrite Pos2Z.inj_mul in HH.
  destruct HH; [left|right]; nia.
Qed.

Lemma rhe_mono n1 d1 n2 d2 :
  n1 * Zpos d2 <= n2 * Zpos d1 -> rhe n1 d1 <= rhe n2 d2.
Proof.
  intros Hle.
  rewrite <- (rhe_scale n1 d1 d2), <- (rhe_scale n2 d2 d1).
  rewrite (Pos.mul_comm d2 d1).
  destruct (rhe_correct (n1 * Zpos d2) (d1 * d2)) as [[A1 A2] EA].
  destruct (rhe_correct (n2 * Zpos d1) (d1 * d2)) as [[B1 B2] EB].
  set (ka := rhe (n1 * Zpos d2) (d1 * d2)) in *.
  set (kb := rhe (n2 * Zpos d1) (d1 * d2)) in *.
  rewrite Pos2Z.inj_mul in *.
  destruct (Z.le_gt_cases ka kb) as [|Hgt]; [done|].
  assert (kb + 1 <= ka) by lia.
  assert (M : Zpos d1 * Zpos d2 * (2 * kb + 1) <= Zpos d1 * Zpos d2 * (2 * ka - 1))
    by (apply Z.mul_le_mono_nonneg_l; lia).
  assert (TA : 2 * (n1 * Zpos d2) = Zpos d1 * Zpos d2 * (2 * ka - 1)) by lia.
  assert (TB : 2 * (n2 * Zpos d1) = Zpos d1 * Zpos d2 * (2 * kb + 1)) by lia.
  assert (Hk : ka = kb + 1) by nia. rewrite Hk in EA.
  assert (TA' : 2 * (n1 * Zpos d2) = Zpos d1 * Zpos d2 * (2 * (kb + 1) - 1)) by lia.
  specialize (EA (or_introl TA')). specialize (EB (or_intror TB)).
  rewrite Z.even_add, EB in EA. done.
Qed.

(** ** [round(x, 1)] *)

Local Open Scope Q_scope.

(** The number of tenths of [round(x, 1)]. *)
Definition round1 (x : Q) : Z := rhe (10 * Qnum x) (Qden x).

(** The float [round(x, 1)] as the number of tenths and the sign bit. *)
Record rounded := mk_rounded { r_tenths : Z; r_neg : bool }.

Definition py_round1 (x : Q) : rounded := mk_rounded (round1 x) (Qnum x <? 0)%Z.

#[export] Instance round1_proper : Proper (Qeq ==> eq) round1.
Proof.
  intros [n1 d1] [n2 d2] E. unfold Qeq in E. simpl in E. unfold round1. simpl.
  apply Z.le_antisymm; apply rhe_mono; nia.
Qed.

#[export] Instance py_round1_proper : Proper (Qeq ==> eq) py_round1.
Proof.
  intros x y E. unfold py_round1. f_equal; [by apply round1_proper|].
  destruct x as [n1 d1], y as [n2 d2]. unfold Qeq in E. simpl in *.
  destruct (Z.ltb_spec n1 0), (Z.ltb_spec n2 0); nia.
Qed.

Lemma round1_mono x y : x <= y -> (round1 x <= round1 y)%Z.
Proof.
  destruct x as [n1 d1], y as [n2 d2]. unfold Qle, round1. simpl.
  intros H. apply rhe_mono. nia.
Qed.

(** [round(x, 1)] is within half a tenth of [x]. *)
Lemma round1_close x : Qabs (inject_Z (round1 x) - 10 * x) <= 1 # 2.
Proof.
  destruct x as [n d]. unfold round1. cbn [Qnum Qden].
  destruct (rhe_correct (10 * n) d) as [[H1 H2] _].
  apply Qabs_Qle_condition. split; unfold Qle; simpl; nia.
Qed.

Lemma inject_Z_sub (x y : Z) : inject_Z (x - y) = inject_Z x - inject_Z y.
Proof. unfold Z.sub. by rewrite inject_Z_plus, inject_Z_opp. Qed.

Lemma round1_sub_frac a b d : round1 ((a - b) # d) = round1 ((a # d) - (b # d)).
Proof. apply round1_proper. unfold Qeq, Qminus, Qplus, Qopp; simpl. nia. Qed.

(** Rounding an integer number of tenths gives it back. *)
Lemma round1_tenths (k : Z) : round1 (k # 10) = k.
Proof. apply rhe_unique. red. simpl. split; [lia|]. intros [H|H]; lia. Qed.

(** The rounded difference is within one tenth of the difference of the
    rounded values. *)
Lemma round1_sub_close x y :
  (Z.abs (round1 (x - y) - (round1 x - round1 y)) <= 1)%Z.
Proof.
  pose proof (round1_close (x - y)) as A.
  pose proof (round1_close x) as B. pose proof (round1_close y) as C.
  apply Qabs_Qle_condition in A, B, C.
  set (a := round1 (x - y)) in *. set (b := round1 x) in *. set (c := round1 y) in *.
  assert (U : inject_Z (a - (b - c)) <= 3 # 2) by (rewrite !inject_Z_sub; lra).
  assert (L : -(3 # 2) <= inject_Z (a - (b - c))) by (rewrite !inject_Z_sub; lra).
  unfold Qle in U, L. simpl in U, L. lia.
Qed.

(** ** Floats *)

(** [z / 2^e] *)
Definition dyadic (z : Z) (e : nat) : Q := z # Z.to_pos (2 ^ Z.of_nat e).

(** What the theorems need of binary floating point: results are rounded
    monotonically, and the values below [2^53] with at most 1074 binary
    places (the integers and dyadic fractions of binary64) are exact. *)
Class FloatModel := {
  frnd : Q -> Q;
  frnd_proper :: Proper (Qeq ==> Qeq) frnd;
  frnd_mono : forall x y, x <= y -> frnd x <= frnd y;
  frnd_dyadic : forall z e, (Z.abs z < 2 ^ 53)%Z -> (e <= 1074)%nat ->
    frnd (dyadic z e) == dyadic z e
}.

Section FloatOps.
Context `{FloatModel}.

(** [x / y] on floats, or on two ints (Python divides ints exactly and
    rounds once). *)
Definition fdiv (x y : Q) : result Q :=
  if Qeq_bool y 0 then Raise ZeroDivisionError else Ok (frnd (x / y)).

Definition fsub (x y : Q) : Q := frnd (x - y).
Definition fmul (x y : Q) : Q := frnd (x * y).

(** [float(n)] for an int [n], as Python converts an int operand. *)
Definition fint (n : Z) : Q := frnd (inject_Z n).

Lemma frnd_int z : (Z.abs z < 2 ^ 53)%Z -> frnd (inject_Z z) == inject_Z z.
Proof.
  intros Hz. pose proof (frnd_dyadic z 0 Hz ltac:(lia)) as E.
  unfold dyadic in E. simpl in E. exact E.
Qed.

(** A rounded value stays between two small integers bounding the exact
    one. *)
Lemma frnd_between (a b : Z) x :
  (Z.abs a < 2 ^ 53)%Z -> (Z.abs b < 2 ^ 53)%Z ->
  inject_Z a <= x <= inject_Z b -> inject_Z a <= frnd x <= inject_Z b.
Proof.
  intros Ha Hb [L U]. split.
  - rewrite <- (frnd_int a Ha). by apply frnd_mono.
  - rewrite <- (frnd_int b Hb). by apply frnd_mono.
Qed.

Lemma Qdiv_int_pos (n : Z) (d : positive) : inject_Z n / inject_Z (Zpos d) == n # d.
Proof. unfold Qeq, Qdiv, Qmult, Qinv. simpl. lia. Qed.

(** A value that is a small dyadic rational is not changed by rounding. *)
Lemma frnd_exact_at x z e :
  x == dyadic z e -> (Z.abs z < 2 ^ 53)%Z -> (e <= 1074)%nat -> frnd x == x.
Proof. intros E Hz He. rewrite E. by apply frnd_dyadic. Qed.

#[export] Instance fsub_proper : Proper (Qeq ==> Qeq ==> Qeq) fsub.
Proof. intros x1 x2 E1 y1 y2 E2. unfold fsub. by rewrite E1, E2. Qed.

#[export] Instance fmul_proper : Proper (Qeq ==> Qeq ==> Qeq) fmul.
Proof. intros x1 x2 E1 y1 y2 E2. unfold fmul. by rewrite E1, E2. Qed.

Lemma fdiv_nonzero x y : ~ y == 0 -> fdiv x y = Ok (frnd (x / y)).
Proof.
  intros Hy. unfold fdiv. destruct (Qeq_bool y 0) eqn:E; [|done].
  apply Qeq_bool_eq in E. contradiction.
Qed.

Lemma fdiv_zero x y : y == 0 -> fdiv x y = Raise ZeroDivisionError.
Proof. intros Hy. unfold fdiv. by rewrite (Qeq_eq_bool _ _ Hy). Qed.

(** An int divided by a power of two below the binary64 precision is
    computed exactly. *)
Lemma fdiv_pow2 (n : Z) (d : positive) (e : nat) :
  Zpos d = (2 ^ Z.of_nat e)%Z -> (Z.abs n < 2 ^ 53)%Z -> (e <= 1074)%nat ->
  exists q, fdiv (inject_Z n) (inject_Z (Zpos d)) = Ok q /\ q == n # d.
Proof.
  intros Hd Hn He. rewrite fdiv_nonzero by (unfold Qeq; simpl; lia).
  eexists; split; [done|].
  assert (Ed : n # d == dyadic n e) by (unfold dyadic; rewrite <- Hd; reflexivity).
  rewrite (frnd_exact_at _ n e); [apply Qdiv_int_pos|rewrite Qdiv_int_pos; exact Ed|done|done].
Qed.

(** The difference of two such quotients is exact too. *)
Lemma fsub_pow2 (a b : Z) (d : positive) (e : nat) qa qb :
  Zpos d = (2 ^ Z.of_nat e)%Z -> (Z.abs (a - b) < 2 ^ 53)%Z -> (e <= 1074)%nat ->
  qa == a # d -> qb == b # d -> fsub qa qb == (a - b) # d.
Proof.
  intros Hd Hab He Ea Eb. rewrite Ea, Eb. unfold fsub.
  assert (E : (a # d) - (b # d) == (a - b) # d) by (unfold Qeq; simpl; nia).
  rewrite E. rewrite (frnd_exact_at _ (a - b) e); [reflexivity| |done|done].
  unfold dyadic. rewrite <- Hd. reflexivity.
Qed.

End FloatOps.

(** Exact arithmetic: the instance in which no operation rounds. *)
Lemma exact_proper : Proper (Qeq ==> Qeq) (fun x : Q => x).
Proof. by intros x y E. Qed.

#[export] Instance exact_float : FloatModel := {|
  frnd x := x;
  frnd_proper := exact_proper;
  frnd_mono x y H := H;
  frnd_dyadic z e _ _ := Qeq_refl _ |}.

End PyNum.
