(* ===== verification/Binary64.v ===== *)
(** * IEEE 754 binary64 rounding, the [FloatModel] of CPython's floats

    A finite binary64 number is [m * 2^e] with [|m| < 2^53] and
    [e >= -1074].  Round-to-nearest-even of a rational [x <> 0] keeps the
    multiple of [2^(ulp_exp |x|)] nearest to [x], ties to the even
    multiple, where [ulp_exp a = max (floor(log2 a) - 52) (-1074)] is the
    weight of the last of the 53 bits of [a] (or the subnormal spacing).
    [b64_round] is that rounding on [Q]; it has no overflow threshold:
    the results the program computes are far below [2^1024], and the
    class [FloatModel] has no infinity to round to.

    [b64] is the instance: [b64_round] respects [Qeq] (it reads the value,
    not the fraction), is monotone (inside one binade by the monotonicity
    of round-half-even, across binades because the power of two between
    them is exact), and is exact on the dyadic numbers of the class.

    Every theorem of the development about floats is stated for any
    [FloatModel]; [b64] shows that the laws they assume hold for the
    floats CPython computes with, so none of them is vacuous. *)

From S2P Require Import Prelude PyNum.
From Stdlib Require Import QArith Qpower Qabs Lqa Psatz.
Import PyNum.

Module Binary64.

Local Open Scope Q_scope.

(** ** Definitions *)

(** The integer nearest to [x], ties to the even one. *)
Definition rq (x : Q) : Z := rhe (Qnum x) (Qden x).

(** [floor(log2 a)] for [a > 0]: the estimate from the bit lengths of the
    numerator and the denominator is exact or one too large. *)
Definition lg2 (a : Q) : Z :=
  let k := (Z.log2 (Qnum a) - Z.log2 (Zpos (Qden a)))%Z in
  if Qle_bool (2 ^ k) a then k else (k - 1)%Z.

(** The exponent of the last bit of [a > 0] in binary64. *)
Definition ulp_exp (a : Q) : Z := Z.max (lg2 a - 52) (-1074).

(** The multiple of [2^e] nearest to [a], ties to the even multiple. *)
Definition round_at (e : Z) (a : Q) : Q := inject_Z (rq (a * 2 ^ (- e))) * 2 ^ e.

Definition b64_round (x : Q) : Q :=
  if Qeq_bool x 0 then 0 else round_at (ulp_exp (Qabs x)) x.

(** ** Powers of two *)

Lemma pow2_pos e : 0 < 2 ^ e.
Proof. apply Qpower_0_lt. lra. Qed.

Lemma pow2_add a b : 2 ^ (a + b) == 2 ^ a * 2 ^ b.
Proof. apply Qpower_plus. lra. Qed.

Lemma pow2_le a b : (a <= b)%Z -> 2 ^ a <= 2 ^ b.
Proof. intros H. apply Qpower_le_compat_l; [done|lra]. Qed.

Lemma pow2_lt a b : (a < b)%Z -> 2 ^ a < 2 ^ b.
Proof. intros H. apply Qpower_lt_compat_l; [done|lra]. Qed.

Lemma pow2_le_inv a b : 2 ^ a <= 2 ^ b -> (a <= b)%Z.
Proof. intros H. eapply Qpower_le_compat_l_inv; [exact H|lra]. Qed.

Lemma pow2_Z e : (0 <= e)%Z -> 2 ^ e == inject_Z (2 ^ e).
Proof. intros H. symmetry. apply (Zpower_Qpower 2 e H). Qed.

Lemma pow2_opp e : 2 ^ (- e) * 2 ^ e == 1.
Proof. rewrite <- pow2_add. by replace (- e + e)%Z with 0%Z by lia. Qed.

(** ** Rounding to the nearest integer *)

Lemma rq_mono x y : x <= y -> (rq x <= rq y)%Z.
Proof. intros H. unfold rq. apply rhe_mono. exact H. Qed.

Lemma rq_proper x y : x == y -> rq x = rq y.
Proof. intros H. apply Z.le_antisymm; apply rq_mono; rewrite H; apply Qle_refl. Qed.

Lemma rq_int_eq x k : x == inject_Z k -> rq x = k.
Proof.
  intros H. rewrite (rq_proper _ _ H). unfold rq. cbn [Qnum Qden inject_Z].
  apply rhe_unique. split; [lia|]. intros [E|E]; lia.
Qed.

Lemma rq_opp x : rq (- x) = (- rq x)%Z.
Proof.
  unfold rq. destruct x as [n d]. cbn [Qopp Qnum Qden].
  apply rhe_unique. destruct (rhe_correct n d) as [[H1 H2] E]. split; [lia|].
  intros HH. rewrite Z.even_opp. apply E. lia.
Qed.

(** ** [floor(log2 a)] *)

Lemma log2_bounds (p : positive) : inject_Z (2 ^ Z.log2 (Zpos p)) <= inject_Z (Zpos p) < inject_Z (2 ^ (Z.log2 (Zpos p) + 1)).
Proof.
  pose proof (Z.log2_spec (Zpos p) ltac:(lia)) as [A B]. unfold Z.succ in B.
  split; [rewrite <- Zle_Qle|rewrite <- Zlt_Qlt]; lia.
Qed.

(** The rational [n # d] with [n > 0] lies between [2^(k-1)] and [2^(k+1)],
    [k] the difference of the bit lengths. *)
Lemma lg2_estimate (n d : positive) :
  let k := (Z.log2 (Zpos n) - Z.log2 (Zpos d))%Z in
  2 ^ (k - 1) < Zpos n # d < 2 ^ (k + 1).
Proof.
  intros k. pose proof (log2_bounds n) as [N1 N2]. pose proof (log2_bounds d) as [D1 D2].
  set (ln := Z.log2 (Zpos n)) in *. set (ld := Z.log2 (Zpos d)) in *.
  assert (Hln : (0 <= ln)%Z) by apply Z.log2_nonneg. assert (Hld : (0 <= ld)%Z) by apply Z.log2_nonneg.
  rewrite <- !pow2_Z in N1, N2, D1, D2 by lia.
  assert (Ea : (Zpos n # d) * inject_Z (Zpos d) == inject_Z (Zpos n)).
  { unfold Qeq. cbn. lia. }
  assert (Pd : 0 < inject_Z (Zpos d)) by (unfold Qlt; cbn; lia).
  assert (K1 : 2 ^ (k - 1) * 2 ^ (ld + 1) == 2 ^ ln) by (rewrite <- pow2_add; f_equiv; unfold k; lia).
  assert (K2 : 2 ^ (k + 1) * 2 ^ ld == 2 ^ (ln + 1)) by (rewrite <- pow2_add; f_equiv; unfold k; lia).
  pose proof (pow2_pos (k - 1)). pose proof (pow2_pos (k + 1)).
  split; nra.
Qed.

Lemma lg2_spec a : 0 < a -> 2 ^ lg2 a <= a < 2 ^ (lg2 a + 1).
Proof.
  destruct a as [[|n|n] d]; intros Ha; [by unfold Qlt in Ha; cbn in Ha|..|by unfold Qlt in Ha; cbn in Ha; lia].
  pose proof (lg2_estimate n d) as [L U]. unfold lg2. cbn [Qnum Qden].
  set (k := (Z.log2 (Zpos n) - Z.log2 (Zpos d))%Z) in *.
  destruct (Qle_bool (2 ^ k) (Zpos n # d)) eqn:E.
  - apply Qle_bool_iff in E. by split.
  - assert (E' : ~ 2 ^ k <= Zpos n # d) by (by rewrite <- Qle_bool_iff, E).
    replace (k - 1 + 1)%Z with k by lia. split; [lra|]. apply Qnot_le_lt, E'.
Qed.

Lemma lg2_unique a j : 2 ^ j <= a < 2 ^ (j + 1) -> lg2 a = j.
Proof.
  intros [A B]. pose proof (pow2_pos j) as Pj.
  destruct (lg2_spec a ltac:(lra)) as [C D].
  destruct (Z.lt_total (lg2 a) j) as [Hl|[Hl|Hl]]; [|done|].
  - pose proof (pow2_le (lg2 a + 1) j ltac:(lia)). lra.
  - pose proof (pow2_le (j + 1) (lg2 a) ltac:(lia)). lra.
Qed.

Lemma lg2_mono a b : 0 < a -> a <= b -> (lg2 a <= lg2 b)%Z.
Proof.
  intros Ha Hab. destruct (lg2_spec a Ha) as [A _]. destruct (lg2_spec b ltac:(lra)) as [_ B].
  destruct (Z.le_gt_cases (lg2 a) (lg2 b)) as [|H]; [done|].
  pose proof (pow2_le (lg2 b + 1) (lg2 a) ltac:(lia)). lra.
Qed.

Lemma lg2_proper a b : 0 < a -> a == b -> lg2 a = lg2 b.
Proof. intros Ha E. apply Z.le_antisymm; apply lg2_mono; rewrite ?E in *; try lra. Qed.

(** ** Rounding at a fixed exponent *)

Lemma round_at_mono e a b : a <= b -> round_at e a <= round_at e b.
Proof.
  intros H. unfold round_at. pose proof (pow2_pos e). pose proof (pow2_pos (- e)).
  apply Qmult_le_compat_r; [|lra]. rewrite <- Zle_Qle. apply rq_mono. nra.
Qed.

Lemma round_at_exact e k : round_at e (inject_Z k * 2 ^ e) == inject_Z k * 2 ^ e.
Proof.
  unfold round_at. rewrite (rq_int_eq _ k); [reflexivity|].
  rewrite <- Qmult_assoc, (Qmult_comm (2 ^ e)), pow2_opp. ring.
Qed.

#[export] Instance round_at_proper e : Proper (Qeq ==> Qeq) (round_at e).
Proof. intros a b E. unfold round_at. by rewrite (rq_proper _ (b * 2 ^ (- e))) by (by rewrite E). Qed.

Lemma round_at_opp e a : round_at e (- a) == - round_at e a.
Proof.
  unfold round_at. rewrite (rq_proper _ (- (a * 2 ^ (- e)))) by ring.
  rewrite rq_opp, inject_Z_opp. ring.
Qed.

Lemma round_at_nonneg e a : 0 <= a -> 0 <= round_at e a.
Proof.
  intros H. unfold round_at. pose proof (pow2_pos e). pose proof (pow2_pos (- e)).
  assert (R : (0 <= rq (a * 2 ^ (- e)))%Z).
  { rewrite <- (rq_int_eq 0 0) by reflexivity. apply rq_mono. nra. }
  apply Qmult_le_0_compat; [|lra]. change 0 with (inject_Z 0). by rewrite <- Zle_Qle.
Qed.

(** ** The exponent of the last place *)

Lemma ulp_exp_mono a b : 0 < a -> a <= b -> (ulp_exp a <= ulp_exp b)%Z.
Proof. intros Ha Hab. unfold ulp_exp. pose proof (lg2_mono a b Ha Hab). lia. Qed.

(** [a] is below the power of two [2^53] units of its last place. *)
Lemma below_binade a : 0 < a -> a < 2 ^ (ulp_exp a + 53).
Proof.
  intros Ha. destruct (lg2_spec a Ha) as [_ U].
  pose proof (pow2_le (lg2 a + 1) (ulp_exp a + 53) ltac:(unfold ulp_exp; lia)). lra.
Qed.

(** A power of two at or above [2^e] is a multiple of [2^e]. *)
Lemma pow2_multiple e j : (e <= j)%Z -> 2 ^ j == inject_Z (2 ^ (j - e)) * 2 ^ e.
Proof. intros H. rewrite <- pow2_Z, <- pow2_add by lia. f_equiv. lia. Qed.

Lemma round_at_pow2 e j : (e <= j)%Z -> round_at e (2 ^ j) == 2 ^ j.
Proof. intros H. rewrite (round_at_proper e _ _ (pow2_multiple e j H)), round_at_exact. by rewrite <- pow2_multiple. Qed.

Lemma round_at_pos_mono x y : 0 < x -> x <= y ->
  round_at (ulp_exp x) x <= round_at (ulp_exp y) y.
Proof.
  intros Hx Hxy. pose proof (ulp_exp_mono x y Hx Hxy) as He.
  destruct (Z.eq_dec (ulp_exp x) (ulp_exp y)) as [E|Hne]; [rewrite E; by apply round_at_mono|].
  set (j := (ulp_exp x + 53)%Z).
  assert (Ly : (j <= lg2 y)%Z) by (unfold j, ulp_exp in *; lia).
  destruct (lg2_spec y ltac:(lra)) as [Y _].
  apply Qle_trans with (2 ^ j).
  - rewrite <- (round_at_pow2 (ulp_exp x) j) by lia.
    apply round_at_mono. apply Qlt_le_weak, below_binade, Hx.
  - apply Qle_trans with (2 ^ lg2 y); [by apply pow2_le|].
    rewrite <- (round_at_pow2 (ulp_exp y) (lg2 y)) by (unfold ulp_exp in *; lia).
    by apply round_at_mono.
Qed.

(** ** The laws of [FloatModel] *)

Lemma ulp_exp_proper a b : 0 < a -> a == b -> ulp_exp a = ulp_exp b.
Proof. intros Ha E. unfold ulp_exp. by rewrite (lg2_proper a b Ha E). Qed.

Lemma Qabs_pos_nonzero x : ~ x == 0 -> 0 < Qabs x.
Proof. intros H. apply Qabs_case; intros; lra. Qed.

Lemma Qeq_bool_false x : ~ x == 0 -> Qeq_bool x 0 = false.
Proof. intros H. destruct (Qeq_bool x 0) eqn:E; [|done]. by apply Qeq_bool_iff in E. Qed.

Lemma b64_round_nonzero x : ~ x == 0 -> b64_round x = round_at (ulp_exp (Qabs x)) x.
Proof. intros H. unfold b64_round. by rewrite Qeq_bool_false. Qed.

Lemma b64_round_zero x : x == 0 -> b64_round x = 0.
Proof. intros H. unfold b64_round. by rewrite (proj2 (Qeq_bool_iff x 0) H). Qed.

Lemma b64_round_opp x : b64_round (- x) == - b64_round x.
Proof.
  destruct (Qeq_dec x 0) as [H|H].
  - rewrite !b64_round_zero by (rewrite ?H; reflexivity). reflexivity.
  - rewrite !b64_round_nonzero by lra.
    rewrite (ulp_exp_proper (Qabs (- x)) (Qabs x)) by (apply Qabs_pos_nonzero in H; rewrite ?Qabs_opp; lra).
    apply round_at_opp.
Qed.

Lemma b64_round_pos x : 0 < x -> b64_round x == round_at (ulp_exp x) x.
Proof.
  intros H. rewrite b64_round_nonzero by lra.
  by rewrite (ulp_exp_proper (Qabs x) x) by (rewrite Qabs_pos; lra).
Qed.

Lemma b64_round_nonneg x : 0 <= x -> 0 <= b64_round x.
Proof.
  intros H. destruct (Qeq_dec x 0) as [E|E].
  - rewrite b64_round_zero by done. lra.
  - rewrite b64_round_nonzero by done. by apply round_at_nonneg.
Qed.

#[export] Instance b64_round_proper : Proper (Qeq ==> Qeq) b64_round.
Proof.
  intros x y E. destruct (Qeq_dec x 0) as [H|H].
  - rewrite !b64_round_zero by lra. reflexivity.
  - rewrite !b64_round_nonzero by lra.
    rewrite (ulp_exp_proper (Qabs x) (Qabs y)) by first [by apply Qabs_pos_nonzero | by rewrite E].
    by apply round_at_proper.
Qed.

Lemma b64_round_mono x y : x <= y -> b64_round x <= b64_round y.
Proof.
  intros Hxy. destruct (Qlt_le_dec 0 x) as [Hx|Hx].
  - rewrite !b64_round_pos by lra. by apply round_at_pos_mono.
  - destruct (Qlt_le_dec y 0) as [Hy|Hy].
    + pose proof (round_at_pos_mono (- y) (- x) ltac:(lra) ltac:(lra)) as M.
      rewrite <- !b64_round_pos in M by lra. rewrite !b64_round_opp in M. lra.
    + pose proof (b64_round_nonneg y Hy). pose proof (b64_round_nonneg (- x) ltac:(lra)).
      rewrite b64_round_opp in *. lra.
Qed.

Lemma dyadic_pow2 z e : dyadic z e == inject_Z z * 2 ^ (- Z.of_nat e).
Proof.
  unfold dyadic. rewrite Qpower_opp, pow2_Z by lia.
  pose proof (Z.pow_pos_nonneg 2 (Z.of_nat e) ltac:(lia) ltac:(lia)) as P.
  rewrite <- (Z2Pos.id (2 ^ Z.of_nat e)) at 2 by lia.
  unfold Qeq. cbn. lia.
Qed.

Lemma b64_round_dyadic z e : (Z.abs z < 2 ^ 53)%Z -> (e <= 1074)%nat ->
  b64_round (dyadic z e) == dyadic z e.
Proof.
  intros Hz He. rewrite dyadic_pow2. set (q := inject_Z z * 2 ^ (- Z.of_nat e)).
  destruct (Z.eq_dec z 0) as [->|Hnz]; [rewrite b64_round_zero; unfold q; [ring|ring]|].
  pose proof (pow2_pos (- Z.of_nat e)) as P.
  assert (Aq : Qabs q == inject_Z (Z.abs z) * 2 ^ (- Z.of_nat e)).
  { unfold q. rewrite Qabs_Qmult, (Qabs_pos (2 ^ _)) by lra. reflexivity. }
  assert (Apos : 0 < Qabs q).
  { rewrite Aq. apply Qmult_lt_0_compat; [|done]. change 0 with (inject_Z 0). rewrite <- Zlt_Qlt. lia. }
  assert (Hlt : Qabs q < 2 ^ (53 - Z.of_nat e)).
  { rewrite Aq, (pow2_add 53 (- Z.of_nat e)). apply Qmult_lt_compat_r; [done|].
    rewrite pow2_Z, <- Zlt_Qlt by lia. lia. }
  destruct (lg2_spec _ Apos) as [L _].
  assert (Hl : (lg2 (Qabs q) < 53 - Z.of_nat e)%Z).
  { destruct (Z.lt_ge_cases (lg2 (Qabs q)) (53 - Z.of_nat e)) as [|G]; [done|].
    pose proof (pow2_le _ _ G). lra. }
  assert (Hu : (ulp_exp (Qabs q) <= - Z.of_nat e)%Z) by (unfold ulp_exp; lia).
  rewrite b64_round_nonzero by (intros E; rewrite E in Apos; unfold Qlt in Apos; cbn in Apos; lia).
  set (u := ulp_exp (Qabs q)) in *. unfold q.
  rewrite (pow2_multiple _ _ Hu), Qmult_assoc, <- inject_Z_mult. apply round_at_exact.
Qed.

(** ** The instance *)

(** Not declared as an instance: a file that computes with binary64
    selects it with [Existing Instance], the others stay generic. *)
Definition b64 : FloatModel := {|
  frnd := b64_round;
  frnd_proper := b64_round_proper;
  frnd_mono := b64_round_mono;
  frnd_dyadic := b64_round_dyadic |}.

End Binary64.
