(* ===== verification/PyFloat.v ===== *)
(** * Python [float(str)] and the float values of the agent

    A Python float is [PFin q] (a finite value [q], one of [frnd]'s
    results), [PInf neg] or [PNaN].  [py_float] is [float(s)] as CPython
    does it: strip whitespace; when the text has an underscore, check that
    every underscore sits between two digits and drop them; then read a
    decimal ([_Py_dg_strtod]: sign, digits with an optional point, an
    optional exponent whose [e] is only taken when digits follow) or else
    an infinity or NaN ([_Py_parse_inf_or_nan]: [inf], [infinity], [nan]
    in any case, with a sign); the whole text must be used, otherwise
    [ValueError].  The decimal is rounded once by [frnd].

    Not modelled: the sign of a zero read from text ([float("-0")] is
    [-0.0] in Python and [PFin 0] here) and the overflow of a huge
    decimal exponent to infinity ([frnd] has no overflow). *)

From S2P Require Import Prelude PyStr PyNum.
From Stdlib Require Import QArith.
Import PyStr PyNum.
Local Close Scope Q_scope.
Local Open Scope Z_scope.

Module PyFloat.

Inductive pyfloat := PFin (q : Q) | PInf (neg : bool) | PNaN.

Definition is_digit (c : ascii) : bool :=
  match digit_val c with Some _ => true | None => false end.

(** [_Py_string_to_number_with_underscores]: [prev] is the previous
    character. *)
Fixpoint drop_underscores (prev : option ascii) (s : string) : option string :=
  match s with
  | EmptyString =>
      match prev with Some p => if Ascii.eqb p "_"%char then None else Some "" | None => Some "" end
  | String c r =>
      let prev_digit := match prev with Some p => is_digit p | None => false end in
      let prev_us := match prev with Some p => Ascii.eqb p "_"%char | None => false end in
      if Ascii.eqb c "_"%char then
        if prev_digit then drop_underscores (Some c) r else None
      else if prev_us && negb (is_digit c) then None
      else option_map (String c) (drop_underscores (Some c) r)
  end%string.

(** The longest prefix of digits, accumulated onto [acc]: its value, its
    length and the rest. *)
Fixpoint span_digits (s : string) (acc : Z) (n : nat) : Z * nat * string :=
  match s with
  | String c r =>
      match digit_val c with
      | Some d => span_digits r (10 * acc + d) (S n)
      | None => (acc, n, s)
      end
  | EmptyString => (acc, n, EmptyString)
  end.

(** An optional sign: [true] for [-]. *)
Definition take_sign (s : string) : bool * string :=
  match s with
  | String c r =>
      if Ascii.eqb c "-"%char then (true, r)
      else if Ascii.eqb c "+"%char then (false, r)
      else (false, s)
  | EmptyString => (false, s)
  end.

(** The exponent part: after [e] or [E], a sign and at least one digit;
    otherwise nothing is taken. *)
Definition take_exponent (s : string) : Z * string :=
  match s with
  | String c r =>
      if Ascii.eqb c "e"%char || Ascii.eqb c "E"%char then
        let '(neg, r1) := take_sign r in
        let '(v, n, r2) := span_digits r1 0 0 in
        if (n =? 0)%nat then (0, s) else ((if neg then - v else v), r2)
      else (0, s)
  | EmptyString => (0, s)
  end.

Definition pow10 (k : Z) : Q :=
  if (0 <=? k) then inject_Z (10 ^ k) else 1 # Z.to_pos (10 ^ (- k)).

(** The decimal read by [_Py_dg_strtod] if it uses the whole text. *)
Definition parse_decimal (s : string) : option Q :=
  let '(neg, b) := take_sign s in
  let '(ip, ni, r1) := span_digits b 0 0 in
  let '(m, nf, r2) :=
    match r1 with
    | String c r => if Ascii.eqb c "."%char then span_digits r ip 0 else (ip, 0%nat, r1)
    | EmptyString => (ip, 0%nat, r1)
    end in
  if ((ni + nf) =? 0)%nat then None
  else
    let '(e, r3) := take_exponent r2 in
    match r3 with
    | EmptyString =>
        Some (inject_Z (if neg then - m else m) * pow10 (e - Z.of_nat nf))%Q
    | _ => None
    end.

(** [_Py_parse_inf_or_nan] on the whole text. *)
Definition parse_inf_nan (s : string) : option pyfloat :=
  let '(neg, b) := take_sign s in
  let l := lower b in
  if String.eqb l "inf" || String.eqb l "infinity" then Some (PInf neg)
  else if String.eqb l "nan" then Some PNaN
  else None.

(** ** Decimal text *)

Definition digit_char (n : Z) : ascii := ascii_of_nat (48 + Z.to_nat n).

(** The decimal digits of [n >= 0] before [acc], written as C libraries
    write them (glibc's [do_number], [_Py_dg_dtoa]'s output): the last
    digit first, until the quotient is 0; [fuel] bounds the number of
    digits. *)
Fixpoint udigits (fuel : nat) (n : Z) (acc : string) : string :=
  match fuel with
  | O => acc
  | S f =>
      let acc' := String (digit_char (n mod 10)) acc in
      if Z.eqb (n / 10) 0 then acc' else udigits f (n / 10) acc'
  end.

Fixpoint zeros (k : nat) : string :=
  match k with O => EmptyString | S k' => String "0"%char (zeros k') end.


Lemma digit_val_char n : 0 <= n <= 9 -> digit_val (digit_char n) = Some n.
Proof.
  intros H. unfold digit_val, digit_char. rewrite nat_ascii_embedding by lia.
  replace (48 <=? 48 + Z.to_nat n)%nat with true by (symmetry; apply Nat.leb_le; lia).
  replace (48 + Z.to_nat n <=? 57)%nat with true by (symmetry; apply Nat.leb_le; lia).
  cbn [andb]. f_equal. lia.
Qed.

Lemma udigits_acc f n acc : udigits f n acc = (udigits f n "" ++ acc)%string.
Proof.
  revert n acc. induction f as [|f IH]; intros n acc; [done|]. cbn [udigits].
  destruct (Z.eqb _ 0); [done|]. rewrite IH, (IH _ (String _ "")).
  by rewrite str_app_assoc.
Qed.

Lemma span_zeros j r a k :
  span_digits (zeros j ++ r) a k = span_digits r (a * 10 ^ Z.of_nat j) (k + j).
Proof.
  revert a k. induction j as [|j IH]; intros a k; cbn [zeros].
  - by rewrite Z.mul_1_r, Nat.add_0_r.
  - rewrite str_app_cons. cbn [span_digits].
    change (digit_val "0") with (Some 0). cbv beta iota. rewrite IH.
    replace (k + S j)%nat with (S k + j)%nat by lia.
    rewrite Nat2Z.inj_succ, Z.pow_succ_r by lia. f_equal. lia.
Qed.

(** The digit loop writes [n] in decimal: reading its output back gives
    [n], after at least one digit. *)
Lemma udigits_span f n r a k :
  (0 < f)%nat -> 0 <= n < 10 ^ Z.of_nat f ->
  exists j, (1 <= j)%nat /\
    span_digits (udigits f n r) a k = span_digits r (a * 10 ^ Z.of_nat j + n) (k + j).
Proof.
  revert n r a k. induction f as [|f IH]; intros n r a k Hf Hn; [lia|].
  rewrite Nat2Z.inj_succ, Z.pow_succ_r in Hn by lia. cbn [udigits].
  pose proof (Z.div_mod n 10 ltac:(lia)) as Dm. pose proof (Z.mod_pos_bound n 10 ltac:(lia)) as Mb.
  destruct (Z.eqb_spec (n / 10) 0) as [E|E].
  - exists 1%nat. split; [lia|]. cbn [span_digits].
    rewrite digit_val_char by lia. cbv beta iota.
    change (Z.of_nat 1) with 1. rewrite Z.pow_1_r. f_equal; lia.
  - destruct (IH (n / 10) (String (digit_char (n mod 10)) r) a k) as (j & Hj & Hs).
    { destruct f; [|lia]. assert (n / 10 < 1) by (apply Z.div_lt_upper_bound; simpl in *; lia).
      pose proof (Z.div_pos n 10). lia. }
    { split; [apply Z.div_pos; lia|]. apply Z.div_lt_upper_bound; lia. }
    exists (S j). split; [lia|]. rewrite Hs. cbn [span_digits].
    rewrite digit_val_char by lia. cbv beta iota.
    replace (k + S j)%nat with (S (k + j)) by lia.
    rewrite Nat2Z.inj_succ, Z.pow_succ_r by lia. f_equal. nia.
Qed.


Section FloatParse.
Context `{FloatModel}.

Definition py_float (s : string) : result pyfloat :=
  let t := strip s in
  let u := if contains "_" t then drop_underscores None t else Some t in
  match u with
  | None => Raise ValueError
  | Some u =>
      match parse_decimal u with
      | Some q => Ok (PFin (frnd q))
      | None => match parse_inf_nan u with Some f => Ok f | None => Raise ValueError end
      end
  end.

(** [float(s)] raises nothing but [ValueError]. *)
Lemma py_float_raise s e : py_float s = Raise e -> e = ValueError.
Proof.
  unfold py_float. destruct (if contains _ _ then _ else _) as [u|]; [|by intros [=]].
  destruct (parse_decimal u); [done|]. destruct (parse_inf_nan u); by intros [=].
Qed.

(** [x / y] for a float [x] and a nonzero float constant [y]. *)
Definition fdiv_const (x : pyfloat) (y : Q) : pyfloat :=
  match x with
  | PFin q => PFin (frnd (q / y))
  | PInf neg => PInf neg
  | PNaN => PNaN
  end.

(** [x - y] for a finite float [x]: IEEE's rules on an infinite or NaN
    [y]. *)
Definition pf_sub (x : Q) (y : pyfloat) : pyfloat :=
  match y with
  | PFin q => PFin (fsub x q)
  | PInf neg => PInf (negb neg)
  | PNaN => PNaN
  end.

End FloatParse.

End PyFloat.
