(* ===== verification/Repr.v ===== *)
(** * Python's [repr] of a float, as [json.dumps] prints it

    CPython ([float_repr_style = 'short']) prints a finite float with the
    digits of [_Py_dg_dtoa] in mode 0: the shortest decimal that rounds
    back to the same float, and among those of that length the closest
    to it.  For [k] digits, the [k]-digit decimals nearest the value are
    the floor and the ceiling of the value at that precision; since
    rounding is monotone, the decimals that round back form an interval
    around the value, so one of these two is the closest if any [k]-digit
    decimal rounds back.  [repr_digits] tries [k = 1 .. 17] and otherwise
    keeps the 17-digit rounding (17 digits suffice for every binary64 value,
    a known property of the format, so with [b64] that branch is not taken).

    [format_float_short] with type ['r'] then places the decimal point:
    positional notation when [-4 < decpt <= 16] ([decpt] is the exponent
    of the first digit plus one), with [.0] added to an integral value,
    and [d.ddde+XX] otherwise (at least two exponent digits).  Zero is
    [0.0] or [-0.0].

    The search is written for any [FloatModel]; with binary64 rounding
    it is CPython's [repr].  This is a model of the library [json.dumps]
    calls at line 211, used to state what [do_GET] sends; the file
    proves nothing about it. *)

From S2P Require Import Prelude PyStr PyNum PyFloat.
From Stdlib Require Import QArith Qround Qabs.
Import PyStr PyNum PyFloat.
Local Close Scope Q_scope.
Local Open Scope Z_scope.

Module Repr.

Definition Qltb (a b : Q) : bool := negb (Qle_bool b a).

(** The number of decimal digits of [n > 0]. *)
Fixpoint dlen_go (fuel : nat) (n : Z) : Z :=
  match fuel with
  | O => 0
  | S f => if n <? 10 then 1 else 1 + dlen_go f (n / 10)
  end.

Definition dlen (n : Z) : Z := dlen_go (Pos.size_nat (Z.to_pos n)) n.

(** [floor(log10 a)] for [a > 0]. *)
Definition log10_floor (a : Q) : Z :=
  let e0 := dlen (Qnum a) - dlen (Zpos (Qden a)) in
  if Qle_bool (pow10 e0) a then e0 else e0 - 1.

(** The digits of [n > 0] without the zeros that end them, and how many
    were removed. *)
Fixpoint strip_zeros (fuel : nat) (n : Z) : Z * Z :=
  match fuel with
  | O => (n, 0)
  | S f =>
      if (n mod 10 =? 0) && negb (n =? 0) then
        let '(m, z) := strip_zeros f (n / 10) in (m, z + 1)
      else (n, 0)
  end.

Definition digits_of (n : Z) : string := udigits (Pos.size_nat (Z.to_pos n)) n EmptyString.

Section ReprOps.
Context `{FloatModel}.

(** The [k]-digit decimal that rounds back to [x] and is closest to it,
    as the integer [c] and the scale [s] of [c * 10^-s], if any;
    [a = |x|], [e] its decimal exponent, [sg] its sign. *)
Definition try_digits (x a : Q) (sg e k : Z) : option (Z * Z) :=
  let s := k - 1 - e in
  let y := (a * pow10 s)%Q in
  let lo := Qfloor y in
  let hi := Qceiling y in
  let back c := Qeq_bool (frnd (inject_Z (sg * c) * pow10 (- s))) x in
  match back lo, back hi with
  | true, true =>
      Some (if Qltb (y - inject_Z lo) (inject_Z hi - y) then lo
            else if Qltb (inject_Z hi - y) (y - inject_Z lo) then hi
            else if Z.even lo then lo else hi, s)
  | true, false => Some (lo, s)
  | false, true => Some (hi, s)
  | false, false => None
  end.

Fixpoint search (x a : Q) (sg e : Z) (k : Z) (fuel : nat) : option (Z * Z) :=
  match fuel with
  | O => None
  | S f =>
      match try_digits x a sg e k with
      | Some r => Some r
      | None => search x a sg e (k + 1) f
      end
  end.

(** The shortest digits of [x <> 0] and the position [decpt] of the
    decimal point. *)
Definition repr_digits (x : Q) : string * Z :=
  let a := Qabs x in
  let sg := if Qltb x 0 then -1 else 1 in
  let e := log10_floor a in
  let '(c, s) :=
    match search x a sg e 1 17 with
    | Some r => r
    | None => (rhe (Qnum (a * pow10 (16 - e))) (Qden (a * pow10 (16 - e))), 16 - e)
    end in
  let '(m, z) := strip_zeros (Pos.size_nat (Z.to_pos c)) c in
  let ds := digits_of m in
  (ds, Z.of_nat (String.length ds) - (s - z)).

(** [format_float_short(x, 'r', 0, Py_DTSF_ADD_DOT_0)]. *)
Definition place_point (ds : string) (decpt : Z) : string :=
  let n := Z.of_nat (String.length ds) in
  if (decpt <=? -4) || (16 <? decpt) then
    let exp := decpt - 1 in
    let mant := match ds with
                | String d EmptyString => String d EmptyString
                | String d r => String d (String "." r)
                | EmptyString => EmptyString
                end in
    (mant ++ "e" ++ (if (exp <? 0)%Z then "-" else "+") ++
     zeros (2 - String.length (digits_of (Z.abs exp))) ++ digits_of (Z.abs exp))%string
  else if decpt <=? 0 then ("0." ++ zeros (Z.to_nat (- decpt)) ++ ds)%string
  else if n <=? decpt then (ds ++ zeros (Z.to_nat (decpt - n)) ++ ".0")%string
  else (substring 0 (Z.to_nat decpt) ds ++ "." ++
        substring (Z.to_nat decpt) (Z.to_nat (n - decpt)) ds)%string.

(** [repr(x)] for a float; [neg0] is the sign bit of a zero. *)
Definition float_repr (neg0 : bool) (x : pyfloat) : string :=
  match x with
  | PNaN => "nan"
  | PInf neg => if neg then "-inf" else "inf"
  | PFin q =>
      if Qeq_bool q 0 then (if neg0 then "-0.0" else "0.0")
      else
        let '(ds, decpt) := repr_digits q in
        ((if Qltb q 0 then "-" else "") ++ place_point ds decpt)%string
  end.

End ReprOps.

End Repr.
