(* ===== verification/Json.v ===== *)
(** * [json.dumps] on the snapshot (line 211)

    The default encoder of CPython's [json] module: [separators] are a
    comma and a colon each followed by a space, [ensure_ascii] and
    [allow_nan] are true.  A dict is printed in its insertion order, a
    list in its order, [None] as [null], a float by [float.__repr__]
    ([Repr.v]) or as [NaN], [Infinity], [-Infinity], and a string between
    double quotes as [py_encode_basestring_ascii] writes it: a backslash
    before a double quote or a backslash, the short escapes [n], [r], [t],
    [b], [f] for those controls, the printable ASCII characters as
    themselves and every other code point below 256 as [u00xx] after a
    backslash (lower-case hex).

    This is a model of the library call at line 211; the lemma proved
    here, that its output is printable ASCII, is what makes the
    [Content-Length] of [do_GET] count bytes. *)

From S2P Require Import Prelude PyStr PyNum PyFloat Repr.
From Stdlib Require Import QArith.
Import PyStr PyNum PyFloat Repr.
Local Close Scope Q_scope.

Module Json.

#[local] Set Warnings "-register-all".

(** The values the snapshot holds: [None], floats (with the sign bit of a
    zero), strings, lists and dicts with string keys. *)
Inductive jvalue :=
| JNull
| JFloat (neg0 : bool) (f : pyfloat)
| JStr (s : string)
| JList (l : list jvalue)
| JObj (kvs : list (string * jvalue)).

Definition dquote : ascii := "034"%char.
Definition bslash : ascii := "092"%char.

Definition hex_digit (n : nat) : ascii :=
  ascii_of_nat (if (n <? 10)%nat then 48 + n else 87 + n).

(** One character as [py_encode_basestring_ascii] writes it. *)
Definition escape_char (c : ascii) : string :=
  let n := nat_of_ascii c in
  if (n =? 34)%nat then String bslash (String dquote EmptyString)
  else if (n =? 92)%nat then String bslash (String bslash EmptyString)
  else if (n =? 10)%nat then String bslash "n"
  else if (n =? 13)%nat then String bslash "r"
  else if (n =? 9)%nat then String bslash "t"
  else if (n =? 8)%nat then String bslash "b"
  else if (n =? 12)%nat then String bslash "f"
  else if (32 <=? n)%nat && (n <=? 126)%nat then String c EmptyString
  else String bslash ("u00" ++ String (hex_digit (n / 16)) (String (hex_digit (n mod 16)) EmptyString)).

Fixpoint escape (s : string) : string :=
  match s with
  | EmptyString => EmptyString
  | String c r => escape_char c ++ escape r
  end.

Definition json_str (s : string) : string := String dquote (escape s ++ String dquote EmptyString).

Section Dumps.
Context `{FloatModel}.

Definition json_float (neg0 : bool) (f : pyfloat) : string :=
  match f with
  | PNaN => "NaN"
  | PInf neg => if neg then "-Infinity" else "Infinity"
  | PFin _ => float_repr neg0 f
  end.

Fixpoint dumps (v : jvalue) : string :=
  match v with
  | JNull => "null"
  | JFloat neg0 f => json_float neg0 f
  | JStr s => json_str s
  | JList l => "[" ++ join ", " (map dumps l) ++ "]"
  | JObj kvs =>
      "{" ++ join ", " (map (fun kv : string * jvalue => json_str kv.1 ++ ": " ++ dumps kv.2) kvs)
      ++ "}"
  end%string.

End Dumps.

(** ** Induction on values *)

Section JInd.
Variable P : jvalue -> Prop.
Hypothesis Hnull : P JNull.
Hypothesis Hfloat : forall neg0 f, P (JFloat neg0 f).
Hypothesis Hstr : forall s, P (JStr s).
Hypothesis Hlist : forall l, Forall P l -> P (JList l).
Hypothesis Hobj : forall kvs, Forall (fun kv => P kv.2) kvs -> P (JObj kvs).

Fixpoint jvalue_ind' (v : jvalue) : P v :=
  match v with
  | JNull => Hnull
  | JFloat neg0 f => Hfloat neg0 f
  | JStr s => Hstr s
  | JList l =>
      Hlist l ((fix go (l : list jvalue) : Forall P l :=
                  match l return Forall P l with
                  | [] => @List.Forall_nil _ P
                  | x :: xs => @List.Forall_cons _ P x xs (jvalue_ind' x) (go xs)
                  end) l)
  | JObj kvs =>
      Hobj kvs ((fix go (kvs : list (string * jvalue)) : Forall (fun kv => P kv.2) kvs :=
                   match kvs return Forall (fun kv => P kv.2) kvs with
                   | [] => @List.Forall_nil _ (fun kv => P kv.2)
                   | (k, x) :: xs => @List.Forall_cons _ (fun kv => P kv.2) (k, x) xs (jvalue_ind' x) (go xs)
                   end) kvs)
  end.
End JInd.

(** ** The output is printable ASCII *)

Lemma digit_char_printable d : (0 <= d <= 9)%Z -> printable (String (digit_char d) EmptyString) = true.
Proof.
  intros Hd. unfold digit_char. cbn [printable]. rewrite nat_ascii_embedding by lia.
  apply andb_true_iff; split; [apply andb_true_iff; split; apply Nat.leb_le; lia|done].
Qed.

Lemma udigits_printable f n acc : printable acc = true -> printable (udigits f n acc) = true.
Proof.
  revert n acc. induction f as [|f IH]; intros n acc Ha; [done|]. cbn [udigits].
  assert (P : printable (String (digit_char (n mod 10)) acc) = true).
  { change (String (digit_char (n mod 10)) acc) with (String (digit_char (n mod 10)) "" ++ acc)%string.
    rewrite printable_app, digit_char_printable, Ha; [done|].
    pose proof (Z.mod_pos_bound n 10). lia. }
  destruct (Z.eqb _ 0); [done|]. by apply IH.
Qed.

Lemma zeros_printable k : printable (zeros k) = true.
Proof. induction k; [done|]. exact IHk. Qed.

Lemma substring_printable n m s : printable s = true -> printable (substring n m s) = true.
Proof.
  revert n m. induction s as [|c r IH]; intros n m Hs; [by destruct n, m|].
  cbn [printable] in Hs. apply andb_true_iff in Hs as [Hc Hr].
  destruct n as [|n], m as [|m]; cbn [substring]; try done; try (by apply IH).
  cbn [printable]. rewrite Hc. by apply IH.
Qed.

Lemma digits_of_printable n : printable (digits_of n) = true.
Proof. by apply udigits_printable. Qed.

Lemma repr_digits_printable `{FloatModel} q : printable (repr_digits q).1 = true.
Proof.
  unfold repr_digits. destruct (search _ _ _ _ 1 17) as [[c s]|];
    destruct (strip_zeros _ _); apply digits_of_printable.
Qed.

Lemma place_point_printable ds decpt : printable ds = true -> printable (place_point ds decpt) = true.
Proof.
  intros Hd. unfold place_point. cbv zeta.
  destruct (_ || _)%bool.
  - destruct ds as [|d [|d' r]]; rewrite !printable_app, zeros_printable, digits_of_printable;
      destruct (_ <? 0)%Z; simpl in *; rewrite ?andb_true_r, ?andb_true_iff in *; intuition.
  - destruct (decpt <=? 0)%Z; [|destruct (_ <=? decpt)%Z];
      rewrite !printable_app, ?zeros_printable, ?Hd, ?substring_printable by done; reflexivity.
Qed.

Lemma float_repr_printable `{FloatModel} neg0 x : printable (float_repr neg0 x) = true.
Proof.
  destruct x as [q|[]|]; try reflexivity. unfold float_repr.
  destruct (Qeq_bool q 0); [by destruct neg0|].
  pose proof (repr_digits_printable q) as P. destruct (repr_digits q) as [ds decpt].
  rewrite printable_app, place_point_printable by done. by destruct (Qltb q 0).
Qed.

Lemma escape_char_printable c : printable (escape_char c) = true.
Proof. destruct c as [[] [] [] [] [] [] [] []]; reflexivity. Qed.

Lemma escape_printable s : printable (escape s) = true.
Proof.
  induction s as [|c r IH]; [done|]. cbn [escape].
  by rewrite printable_app, escape_char_printable, IH.
Qed.

Lemma json_str_printable s : printable (json_str s) = true.
Proof.
  unfold json_str. change (printable (String dquote (escape s ++ String dquote ""))) with
    (printable (escape s ++ String dquote "")). by rewrite printable_app, escape_printable.
Qed.

Lemma join_printable sep l :
  printable sep = true -> Forall (fun s => printable s = true) l -> printable (join sep l) = true.
Proof.
  intros Hs. induction 1 as [|x l Hx Hl IH]; [done|].
  destruct l as [|y l]; [done|].
  change (join sep (x :: y :: l)) with (x ++ sep ++ join sep (y :: l))%string.
  by rewrite !printable_app, Hx, Hs, IH.
Qed.

Lemma dumps_printable `{FloatModel} v : printable (dumps v) = true.
Proof.
  induction v as [| neg0 f | s | l IH | kvs IH] using jvalue_ind'; cbn [dumps].
  - reflexivity.
  - destruct f as [q|[]|]; try reflexivity. apply float_repr_printable.
  - apply json_str_printable.
  - rewrite !printable_app, join_printable; [reflexivity|reflexivity|].
    induction IH; constructor; auto.
  - rewrite !printable_app, join_printable; [reflexivity|reflexivity|].
    induction IH as [|[k x] kvs Hx _ IH']; constructor; [|exact IH'].
    cbn [fst snd] in *. by rewrite !printable_app, json_str_printable, Hx.
Qed.

End Json.
