(* ===== verification/Calendar.v ===== *)
(** * [time.gmtime] and [time.strftime] as [get_boot_time] uses them (line 32)

    [time.gmtime(x)] for a float [x]: CPython rounds [x] down to an integer
    ([_PyTime_ObjectToTime_t] with [ROUND_FLOOR]), raising [ValueError] on
    a NaN and [OverflowError] outside the range of [time_t]; glibc's
    [gmtime_r] then splits the seconds into days and the time of day and
    the days into a proleptic Gregorian date, failing with [EOVERFLOW]
    (an [OSError] in Python) when [tm_year] does not fit an [int].

    The date is computed in closed form ([civil_from_days]: eras of 400
    years, that is of 146097 days, counted from 0000-03-01).  Its
    specification is the plain count [date_days] of the days from
    1970-01-01 (365 a year, a leap day every fourth year but the
    centuries not divisible by 400, the lengths of the months);
    [civil_from_days_ok] shows that the closed form gives a valid date
    with the given day count, and [gmtime_secs_posix_eq] shows that the
    result satisfies the formula by which POSIX defines "seconds since the Epoch".

    [strftime("%Y-%m-%dT%H:%M:%SZ")] prints each field with glibc's digit
    loop; [%m] to [%S] are padded with zeros to two digits, [%Y] is not
    padded (glibc; other C libraries pad years below 1000 to four digits,
    so the theorems on the text are stated for years from 0). *)

From S2P Require Import Prelude PyStr PyNum PyFloat.
From Stdlib Require Import QArith Qround Bool.
Import PyStr PyNum PyFloat.
Local Close Scope Q_scope.
Local Open Scope Z_scope.

Module Calendar.

(** Python's [struct_time] as far as the format uses it: the full year,
    the month from 1, the day of the month from 1 and the time of day. *)
Record tm := mk_tm {
  tm_year : Z; tm_mon : Z; tm_mday : Z; tm_hour : Z; tm_min : Z; tm_sec : Z }.

(** ** The Gregorian calendar *)

Definition is_leap (y : Z) : bool :=
  ((Z.eqb (y mod 4) 0 && negb (Z.eqb (y mod 100) 0)) || Z.eqb (y mod 400) 0)%bool.

Definition days_in_month (y m : Z) : Z :=
  if Z.eqb m 2 then (if is_leap y then 29 else 28)
  else if (Z.eqb m 4 || Z.eqb m 6 || Z.eqb m 9 || Z.eqb m 11)%bool then 30 else 31.

(** The leap years among [1 .. n]. *)
Definition leaps (n : Z) : Z := n / 4 - n / 100 + n / 400.

(** The days of the months of year [y] before month [m]. *)
Definition days_before_month (y m : Z) : Z :=
  (if 2 <=? m then 31 else 0) + (if 3 <=? m then (if is_leap y then 29 else 28) else 0)
  + (if 4 <=? m then 31 else 0) + (if 5 <=? m then 30 else 0) + (if 6 <=? m then 31 else 0)
  + (if 7 <=? m then 30 else 0) + (if 8 <=? m then 31 else 0) + (if 9 <=? m then 31 else 0)
  + (if 10 <=? m then 30 else 0) + (if 11 <=? m then 31 else 0) + (if 12 <=? m then 30 else 0).

(** The specification: the number of days from 1970-01-01 to [y-m-d]. *)
Definition date_days (y m d : Z) : Z :=
  365 * (y - 1970) + (leaps (y - 1) - leaps 1969) + days_before_month y m + (d - 1).

Definition valid_date (y m d : Z) : Prop := 1 <= m <= 12 /\ 1 <= d <= days_in_month y m.

(** The date of day [doe] of a 400-year era starting on 0000-03-01: the
    year of the era ([yoe], years from March), the day of that year
    ([doy]) and the month from March ([mp]). *)
Definition civil_of_doe (doe : Z) : Z * Z * Z :=
  let yoe := (doe - doe / 1460 + doe / 36524 - doe / 146096) / 365 in
  let doy := doe - (365 * yoe + yoe / 4 - yoe / 100) in
  let mp := (5 * doy + 2) / 153 in
  let d := doy - (153 * mp + 2) / 5 + 1 in
  let m := if mp <? 10 then mp + 3 else mp - 9 in
  (yoe + (if m <=? 2 then 1 else 0), m, d).

(** The date of day [z] from 1970-01-01 (day 719468 from 0000-03-01). *)
Definition civil_from_days (z : Z) : Z * Z * Z :=
  let z' := z + 719468 in
  let '(y, m, d) := civil_of_doe (z' mod 146097) in
  (y + 400 * (z' / 146097), m, d).

(** glibc's [__offtime] on seconds from the Epoch. *)
Definition gmtime_secs (s : Z) : tm :=
  let days := s / 86400 in
  let rem := s mod 86400 in
  let '(y, m, d) := civil_from_days days in
  mk_tm y m d (rem / 3600) (rem mod 3600 / 60) (rem mod 60).

(** POSIX's definition of seconds since the Epoch (Base Definitions,
    4.16), with C's truncating division; [tm_year] there counts from
    1900 and [tm_yday] from 0. *)
Definition posix_seconds (t : tm) : Z :=
  let year := tm_year t - 1900 in
  let yday := days_before_month (tm_year t) (tm_mon t) + tm_mday t - 1 in
  tm_sec t + tm_min t * 60 + tm_hour t * 3600 + yday * 86400 +
  (year - 70) * 31536000 + Z.quot (year - 69) 4 * 86400 -
  Z.quot (year - 1) 100 * 86400 + Z.quot (year + 299) 400 * 86400.

Definition valid_tm (t : tm) : Prop :=
  valid_date (tm_year t) (tm_mon t) (tm_mday t) /\
  0 <= tm_hour t < 24 /\ 0 <= tm_min t < 60 /\ 0 <= tm_sec t < 60.

(** ** [strftime("%Y-%m-%dT%H:%M:%SZ")] *)

(** glibc's [do_number]: a minus sign for a negative value, then its
    digits padded with zeros to [w]; 20 digits hold every [time_t]. *)
Definition fmt_num (w : nat) (n : Z) : string :=
  let ds := udigits 20 (Z.abs n) EmptyString in
  ((if (n <? 0)%Z then "-" else "") ++ zeros (w - String.length ds) ++ ds)%string.

Definition strftime_iso (t : tm) : string :=
  (fmt_num 1 (tm_year t) ++ "-" ++ fmt_num 2 (tm_mon t) ++ "-" ++ fmt_num 2 (tm_mday t) ++ "T" ++
   fmt_num 2 (tm_hour t) ++ ":" ++ fmt_num 2 (tm_min t) ++ ":" ++ fmt_num 2 (tm_sec t) ++ "Z")%string.

(** A reader of the format, for the roundtrip. *)
Definition expect (c : ascii) (s : string) : option string :=
  match s with String c' r => if Ascii.eqb c c' then Some r else None | EmptyString => None end.

Definition read_num (s : string) : option (Z * string) :=
  let '(v, n, r) := span_digits s 0 0 in if (n =? 0)%nat then None else Some (v, r).

Definition parse_iso (s : string) : option tm :=
  '(y, r) ← read_num s; r ← expect "-" r; '(mo, r) ← read_num r; r ← expect "-" r;
  '(d, r) ← read_num r; r ← expect "T" r; '(h, r) ← read_num r; r ← expect ":" r;
  '(mi, r) ← read_num r; r ← expect ":" r; '(se, r) ← read_num r; r ← expect "Z" r;
  match r with EmptyString => Some (mk_tm y mo d h mi se) | _ => None end.

(** ** [time.gmtime] on a Python float *)

Definition time_t_ok (s : Z) : bool := (- 2 ^ 63 <=? s) && (s <? 2 ^ 63).
Definition int_ok (v : Z) : bool := (- 2 ^ 31 <=? v) && (v <? 2 ^ 31).

Definition py_gmtime (x : pyfloat) : result tm :=
  match x with
  | PNaN => Raise ValueError
  | PInf _ => Raise OverflowError
  | PFin q =>
      let s := Qfloor q in
      if time_t_ok s then
        let t := gmtime_secs s in
        if int_ok (tm_year t - 1900) then Ok t else Raise (OSError EOVERFLOW)
      else Raise OverflowError
  end.

(** ** Arithmetic of the calendar *)


Lemma is_leap_spec y : is_leap y = true <-> (y mod 4 = 0 /\ y mod 100 <> 0) \/ y mod 400 = 0.
Proof.
  unfold is_leap. rewrite orb_true_iff, andb_true_iff, negb_true_iff, !Z.eqb_eq, Z.eqb_neq.
  tauto.
Qed.

Lemma is_leap_400 y k : is_leap (y + 400 * k) = is_leap y.
Proof.
  apply eq_true_iff_eq. rewrite !is_leap_spec.
  assert (E4 : (y + 400 * k) mod 4 = y mod 4)
    by (replace (y + 400 * k) with (y + (100 * k) * 4) by lia; apply Z.mod_add; lia).
  assert (E1 : (y + 400 * k) mod 100 = y mod 100)
    by (replace (y + 400 * k) with (y + (4 * k) * 100) by lia; apply Z.mod_add; lia).
  assert (E0 : (y + 400 * k) mod 400 = y mod 400)
    by (replace (y + 400 * k) with (y + k * 400) by lia; apply Z.mod_add; lia).
  rewrite E4, E1, E0. tauto.
Qed.

Lemma leaps_small y : 0 <= y <= 399 -> leaps y = y / 4 - y / 100.
Proof. intros H. unfold leaps. rewrite (Z.div_small y 400) by lia. lia. Qed.

(** One year more adds its leap day. *)
Lemma leaps_step y : leaps (y - 1) + (if is_leap y then 1 else 0) = leaps y.
Proof.
  destruct (is_leap y) eqn:L; [apply is_leap_spec in L|];
  [|assert (L' : ~ ((y mod 4 = 0 /\ y mod 100 <> 0) \/ y mod 400 = 0))
      by (rewrite <- is_leap_spec; congruence)];
  unfold leaps; Z.to_euclidean_division_equations; lia.
Qed.

Lemma leaps_400 y k : leaps (y + 400 * k) = leaps y + 97 * k.
Proof.
  unfold leaps.
  replace (y + 400 * k) with (y + (100 * k) * 4) by lia. rewrite Z.div_add by lia.
  replace (y + 100 * k * 4) with (y + (4 * k) * 100) by lia. rewrite Z.div_add by lia.
  replace (y + 4 * k * 100) with (y + k * 400) by lia. rewrite Z.div_add by lia. lia.
Qed.

Lemma yoe_range doe : 0 <= doe <= 146096 ->
  0 <= (doe - doe / 1460 + doe / 36524 - doe / 146096) / 365 <= 399.
Proof. intros H. Z.to_euclidean_division_equations. lia. Qed.

Lemma doy_range doe : 0 <= doe <= 146096 ->
  let yoe := (doe - doe / 1460 + doe / 36524 - doe / 146096) / 365 in
  0 <= doe - (365 * yoe + yoe / 4 - yoe / 100) <= 365.
Proof. intros H yoe. subst yoe. Z.to_euclidean_division_equations. lia. Qed.

(** Day 365 of a year from March is the 29th of February. *)
Lemma doy_feb doe : 0 <= doe <= 146096 ->
  let yoe := (doe - doe / 1460 + doe / 36524 - doe / 146096) / 365 in
  doe - (365 * yoe + yoe / 4 - yoe / 100) = 365 ->
  (yoe + 1) mod 4 = 0 /\ ((yoe + 1) mod 100 <> 0 \/ (yoe + 1) mod 400 = 0).
Proof. intros H yoe. subst yoe. Z.to_euclidean_division_equations. lia. Qed.

Lemma leaps_1969 : leaps 1969 = 477.
Proof. reflexivity. Qed.

(** Within one era the closed form is right. *)
Lemma civil_of_doe_ok doe : 0 <= doe <= 146096 ->
  let '(y, m, d) := civil_of_doe doe in valid_date y m d /\ date_days y m d = doe - 719468.
Proof.
  intros H. pose proof (yoe_range doe H) as Hy. pose proof (doy_range doe H) as Hd.
  pose proof (doy_feb doe H) as Hf. unfold civil_of_doe. cbv zeta in *.
  set (yoe := (doe - doe / 1460 + doe / 36524 - doe / 146096) / 365) in *.
  set (doy := doe - (365 * yoe + yoe / 4 - yoe / 100)) in *.
  assert (Edoe : doe = 365 * yoe + yoe / 4 - yoe / 100 + doy) by (subst doy; lia).
  clearbody doy. pose proof (leaps_small yoe Hy) as L0.
  pose proof (leaps_step yoe) as S0. pose proof (leaps_step (yoe + 1)) as S1.
  replace (yoe + 1 - 1) with yoe in S1 by lia.
  assert (Hf' : doy = 365 -> is_leap (yoe + 1) = true) by (intros; apply is_leap_spec; tauto).
  clear Hf. clearbody yoe. subst doe.
  set (mp := (5 * doy + 2) / 153).
  assert (Dl : 153 * mp <= 5 * doy + 2 < 153 * mp + 153)
    by (subst mp; Z.to_euclidean_division_equations; lia).
  assert (Hmp : mp = 0 \/ mp = 1 \/ mp = 2 \/ mp = 3 \/ mp = 4 \/ mp = 5 \/ mp = 6 \/ mp = 7 \/
                mp = 8 \/ mp = 9 \/ mp = 10 \/ mp = 11) by lia.
  clearbody mp.
  unfold valid_date, date_days, days_in_month, days_before_month. rewrite leaps_1969.
  destruct Hmp as [E|[E|[E|[E|[E|[E|[E|[E|[E|[E|[E|E]]]]]]]]]]]; subst mp;
    cbv beta iota zeta; zcase; rewrite ?Z.add_0_r; replace (yoe + 1 - 1) with yoe by lia;
    destruct (is_leap yoe), (is_leap (yoe + 1)); try (specialize (Hf' ltac:(lia)); discriminate);
    Z.to_euclidean_division_equations; lia.
Qed.

(** Moving a date by 400 years moves it by one era. *)
Lemma date_days_400 y m d k : date_days (y + 400 * k) m d = date_days y m d + 146097 * k.
Proof.
  unfold date_days, days_before_month.
  replace (y + 400 * k - 1) with (y - 1 + 400 * k) by lia.
  rewrite leaps_400, is_leap_400. lia.
Qed.

Lemma valid_date_400 y m d k : valid_date (y + 400 * k) m d <-> valid_date y m d.
Proof. unfold valid_date, days_in_month. by rewrite is_leap_400. Qed.

(** The first day of year [y] and of year [y + 1] bound the days of [y]. *)
Lemma date_days_year y m d :
  valid_date y m d ->
  date_days y 1 1 <= date_days y m d < date_days (y + 1) 1 1.
Proof.
  unfold valid_date, date_days, days_in_month, days_before_month. intros [Hm Hd].
  pose proof (leaps_step y) as S. replace (y + 1 - 1) with y by lia.
  revert Hd. destruct (is_leap y); zcase; lia.
Qed.

Lemma leaps_mono a b : a <= b -> leaps a <= leaps b.
Proof.
  intros H. assert (E : b = a + Z.of_nat (Z.to_nat (b - a))) by lia. rewrite E. clear E H.
  induction (Z.to_nat (b - a)) as [|n IH]; [rewrite Z.add_0_r; lia|].
  pose proof (leaps_step (a + Z.of_nat (S n))) as St.
  replace (a + Z.of_nat (S n) - 1) with (a + Z.of_nat n) in St by lia.
  destruct (is_leap _); lia.
Qed.

Lemma date_days_year_mono y y' : y < y' -> date_days (y + 1) 1 1 <= date_days y' 1 1.
Proof.
  intros H. unfold date_days, days_before_month. zcase.
  pose proof (leaps_mono (y + 1 - 1) (y' - 1)). lia.
Qed.

(** ** The closed form inverts the day count *)

Lemma civil_from_days_ok z :
  let '(y, m, d) := civil_from_days z in valid_date y m d /\ date_days y m d = z.
Proof.
  unfold civil_from_days.
  pose proof (Z.mod_pos_bound (z + 719468) 146097 ltac:(lia)) as B.
  pose proof (civil_of_doe_ok ((z + 719468) mod 146097) ltac:(lia)) as Hc.
  destruct (civil_of_doe _) as [[y m] d]. destruct Hc as [V E].
  rewrite valid_date_400, date_days_400, E. split; [done|].
  pose proof (Z.div_mod (z + 719468) 146097 ltac:(lia)). lia.
Qed.

Lemma gmtime_secs_valid s : valid_tm (gmtime_secs s).
Proof.
  unfold gmtime_secs. pose proof (civil_from_days_ok (s / 86400)) as H.
  destruct (civil_from_days _) as [[y m] d]. destruct H as [V _].
  split; [done|]. cbn. Z.to_euclidean_division_equations. lia.
Qed.

(** The years of the days from 1970-01-01 on are at least 1970. *)
Lemma date_days_nonneg y m d : valid_date y m d -> 0 <= date_days y m d -> 1970 <= y.
Proof.
  intros V H. destruct (Z_lt_le_dec y 1970) as [L|]; [|done].
  pose proof (date_days_year _ _ _ V). pose proof (date_days_year_mono y 1970 L).
  assert (date_days 1970 1 1 = 0) by reflexivity. lia.
Qed.

(** [gmtime] satisfies POSIX's definition of the seconds since the Epoch. *)
Lemma gmtime_secs_posix_eq s : 0 <= s -> posix_seconds (gmtime_secs s) = s.
Proof.
  intros Hs. unfold gmtime_secs. pose proof (civil_from_days_ok (s / 86400)) as H.
  destruct (civil_from_days _) as [[y m] d]. destruct H as [V E].
  pose proof (date_days_nonneg y m d V ltac:(rewrite E; apply Z.div_pos; lia)) as Hy.
  unfold posix_seconds; cbn [tm_year tm_mon tm_mday tm_hour tm_min tm_sec].
  rewrite !Z.quot_div_nonneg by lia.
  replace (y - 1900 - 69) with ((y - 1) + (-492) * 4) by lia. rewrite Z.div_add by lia.
  replace (y - 1900 - 1) with ((y - 1) + (-19) * 100) by lia. rewrite Z.div_add by lia.
  replace (y - 1900 + 299) with ((y - 1) + (-4) * 400) by lia. rewrite Z.div_add by lia.
  unfold date_days in E. rewrite leaps_1969 in E. unfold leaps in E.
  pose proof (Z.div_mod s 86400 ltac:(lia)).
  assert (s mod 86400 = s mod 86400 / 3600 * 3600 + s mod 86400 mod 3600 / 60 * 60 + s mod 86400 mod 60).
  { Z.to_euclidean_division_equations. lia. }
  lia.
Qed.

(** From the Epoch on, the year is at least 1970 and each year after 1970
    takes at least 365 days. *)
Lemma gmtime_secs_year s :
  0 <= s -> 1970 <= tm_year (gmtime_secs s) /\ 31536000 * (tm_year (gmtime_secs s) - 1970) <= s.
Proof.
  intros Hs. unfold gmtime_secs. pose proof (civil_from_days_ok (s / 86400)) as H.
  destruct (civil_from_days _) as [[y m] d]. destruct H as [V E]. cbn [tm_year].
  assert (D : 0 <= s / 86400 <= s) by (split; [apply Z.div_pos|apply Z.div_le_upper_bound]; lia).
  pose proof (date_days_nonneg y m d V ltac:(lia)) as Hy. split; [done|].
  pose proof (date_days_year _ _ _ V) as [Lo _]. pose proof (leaps_mono 1969 (y - 1) ltac:(lia)).
  assert (365 * (y - 1970) <= date_days y 1 1) by (unfold date_days, days_before_month; zcase; lia).
  pose proof (Z.mul_div_le s 86400 ltac:(lia)). lia.
Qed.

(** ** The format can be read back *)

Lemma fmt_num_span w n r a k :
  0 <= n < 10 ^ 20 ->
  exists j, (1 <= j)%nat /\
    span_digits (fmt_num w n ++ r) a k = span_digits r (a * 10 ^ Z.of_nat j + n) (k + j).
Proof.
  intros Hn. unfold fmt_num. replace (n <? 0) with false by (symmetry; apply Z.ltb_ge; lia).
  rewrite Z.abs_eq by lia. set (p := (w - _)%nat).
  change ("" ++ ?x)%string with x. rewrite str_app_assoc, span_zeros, <- udigits_acc.
  destruct (udigits_span 20 n r (a * 10 ^ Z.of_nat p) (k + p)) as (j & Hj & E); [lia|done|].
  exists (p + j)%nat. split; [lia|]. rewrite E, Nat2Z.inj_add, Z.pow_add_r by lia.
  f_equal; [f_equal; lia|lia].
Qed.

Lemma read_num_fmt w n c r :
  0 <= n < 10 ^ 20 -> digit_val c = None ->
  read_num (fmt_num w n ++ String c r) = Some (n, String c r).
Proof.
  intros Hn Hc. unfold read_num. destruct (fmt_num_span w n (String c r) 0 0 Hn) as (j & Hj & ->).
  cbn [span_digits]. rewrite Hc. destruct j as [|j]; [lia|]. cbn -[Z.pow]. f_equal.
Qed.

(** The text [strftime] prints determines the time it prints. *)
Lemma strftime_iso_parse t :
  valid_tm t -> 0 <= tm_year t < 10 ^ 20 -> parse_iso (strftime_iso t) = Some t.
Proof.
  destruct t as [y mo d h mi se].
  intros ((Hm & Hd & Hd') & Hh & Hmi & Hs) Hy; cbn [tm_year tm_mon tm_mday tm_hour tm_min tm_sec] in *.
  assert (days_in_month y mo <= 31) by (unfold days_in_month; destruct (is_leap y); zcase; lia).
  unfold strftime_iso, parse_iso; cbn [tm_year tm_mon tm_mday tm_hour tm_min tm_sec].
  rewrite !str_app_cons. repeat change ("" ++ ?x)%string with x.
  repeat (rewrite read_num_fmt by (done || lia); cbn [expect mbind option_bind Ascii.eqb Bool.eqb]).
  done.
Qed.

End Calendar.
