(* ===== verification/Os.v ===== *)
(** * The machine the agent observes

    The agent only reads: files under [/etc], [/proc] and [/sys], [glob]
    results, the outcome of [subprocess.run] on [nvidia-smi] and [last],
    [os.statvfs("/")] and the clock.  A [world] gives each of these as a
    function of the event counter of [PyM], so that two reads of the same
    file (the CPU sampler's, or the two runs of [last]) may see different
    data.  Each primitive below is one Python call of the source and one
    event. *)

From S2P Require Import Prelude.
From Stdlib Require Import QArith.

Module Os.

(** [subprocess.CompletedProcess] with [text=True]. *)
Record completed := mk_completed { returncode : Z; stdout : string }.

(** The fields of [os.statvfs_result] the agent reads. *)
Record statvfs_result := mk_statvfs { f_blocks : Z; f_bfree : Z; f_frsize : Z }.

(** What [open(path).read()] can raise: an [OSError], or the
    [UnicodeDecodeError] (a [ValueError]) of a text read. *)
Inductive io_error := IOFail (e : os_error) | IODecode.

Definition io_exn (e : io_error) : exn :=
  match e with IOFail o => OSError o | IODecode => ValueError end.

(** What [subprocess.run(..., text=True, timeout=s)] can raise: an
    [OSError] when the program cannot be started ([FileNotFoundError],
    [PermissionError]), [TimeoutExpired], or a decoding error of the
    output. *)
Inductive run_error := RunFail (e : os_error) | RunTimeout | RunDecode.

Definition run_exn (e : run_error) : exn :=
  match e with RunFail o => OSError o | RunTimeout => TimeoutExpired | RunDecode => ValueError end.

Record world := mk_world {
  (** [open(path)] then [f.read()] *)
  w_read : string -> nat -> io_error + string;
  (** [glob.glob(pattern)]: the matching paths, in directory order *)
  w_glob : string -> nat -> list string;
  (** [subprocess.run(argv, capture_output=True, text=True, timeout=s)] *)
  w_run : list string -> nat -> nat -> run_error + completed;
  (** [os.statvfs(path)] *)
  w_statvfs : string -> nat -> os_error + statvfs_result;
  (** [time.time()] *)
  w_time : nat -> Q
}.

Section Primitives.
Context (w : world).

Definition event {A} (f : nat -> result A) : PyM A := fun t => (f t, S t).

(** One call whose failure is an error of type [E], raised as [conv e]. *)
Definition call {E A} (conv : E -> exn) (f : nat -> E + A) : PyM A :=
  event (fun t => match f t with inl e => Raise (conv e) | inr a => Ok a end).

Definition read_file (path : string) : PyM string := call io_exn (w_read w path).
Definition glob (pattern : string) : PyM (list string) :=
  event (fun t => Ok (w_glob w pattern t)).
Definition run (argv : list string) (timeout : nat) : PyM completed :=
  call run_exn (w_run w argv timeout).
Definition statvfs (path : string) : PyM statvfs_result := call OSError (w_statvfs w path).
Definition time : PyM Q := event (fun t => Ok (w_time w t)).
(** [time.sleep(s)]: time passes, nothing is observed. *)
Definition sleep (s : Q) : PyM unit := event (fun _ => Ok tt).

Lemma event_run {A} (f : nat -> result A) t : event f t = (f t, S t).
Proof. reflexivity. Qed.

End Primitives.

#[export] Hint Rewrite @event_run : pym.

(** A machine with no files, no tools and no filesystem, to be refined
    into the concrete machines of the examples. *)
Definition empty_world : world := {|
  w_read _ _ := inl (IOFail ENOENT);
  w_glob _ _ := [];
  w_run _ _ _ := inl (RunFail ENOENT);
  w_statvfs _ _ := inl ENOENT;
  w_time _ := 0%Q |}.

(** [empty_world] with the given reader of files. *)
Definition with_files (f : string -> nat -> io_error + string) (w : world) : world :=
  {| w_read := f; w_glob := w_glob w; w_run := w_run w;
     w_statvfs := w_statvfs w; w_time := w_time w |}.

End Os.
