(* ===== verification/Host.v ===== *)
(** * SourceReaders [get_hostname], [get_uptime], [get_boot_time] and
      [get_load_avg] (lines 20-32 and 86-89)

    Each reads one file under [/etc] or [/proc] without [try]: a failing
    [open] or [read], a missing field ([IndexError]) or a field that is
    not a float ([ValueError]) escapes to the caller.  [get_boot_time]
    calls [get_uptime], then [time.time()], and formats
    [time.gmtime(now - uptime)] with [strftime("%Y-%m-%dT%H:%M:%SZ")]
    ([Calendar.v]).  [get_load_avg] converts the first three fields in
    order, each index before its [float]. *)

From S2P Require Import Prelude PyStr PyNum PyFloat Calendar Os.
From Stdlib Require Import QArith Qround.
Import PyStr PyNum PyFloat Calendar Os.
Local Close Scope Q_scope.

Module Host.

Section HostOps.
Context `{FloatModel} (w : world).

(** Lines 20-22. *)
Definition get_hostname : PyM string :=
  contents <- read_file w "/etc/hostname" ;;
  ret (strip contents).

(** Lines 25-27. *)
Definition get_uptime : PyM pyfloat :=
  contents <- read_file w "/proc/uptime" ;;
  first <- lift (py_index (split_ws contents) 0) ;;
  lift (py_float first).

(** Lines 30-32. *)
Definition get_boot_time : PyM string :=
  uptime <- get_uptime ;;
  now <- time w ;;
  t <- lift (py_gmtime (pf_sub now uptime)) ;;
  ret (strftime_iso t).

(** Lines 86-89. *)
Definition get_load_avg : PyM (list pyfloat) :=
  contents <- read_file w "/proc/loadavg" ;;
  let parts := split_ws contents in
  p0 <- lift (py_index parts 0) ;; a <- lift (py_float p0) ;;
  p1 <- lift (py_index parts 1) ;; b <- lift (py_float p1) ;;
  p2 <- lift (py_index parts 2) ;; c <- lift (py_float p2) ;;
  ret [a; b; c].

End HostOps.

(** Reading [/proc/uptime] (one event). *)
Lemma get_uptime_run `{FloatModel} w t c :
  w_read w "/proc/uptime" t = inr c ->
  get_uptime w t = ((let? u := py_index (split_ws c) 0 in py_float u), S t).
Proof.
  intros R. unfold get_uptime, bind. cbn [read_file call event lift]. rewrite R.
  by destruct (py_index _ 0).
Qed.

(** Once the uptime is read, [time.time()] is the second event. *)
Lemma get_boot_time_run `{FloatModel} w t c u v :
  w_read w "/proc/uptime" t = inr c -> py_index (split_ws c) 0 = Ok u -> py_float u = Ok v ->
  outcome (get_boot_time w) t =
  (let? tm := py_gmtime (pf_sub (w_time w (S t)) v) in Ok (strftime_iso tm)).
Proof.
  intros R I F. unfold outcome, get_boot_time, bind at 1. rewrite (get_uptime_run w t c R), I.
  cbn. rewrite F. unfold bind, time, event, lift, ret. cbn.
  by destruct (py_gmtime _).
Qed.

(** (C10) [boot_time] is [time.time() - uptime] as ISO-8601 UTC: when the
    uptime is a finite float and the difference lies between the Epoch and
    [2^53] seconds, the text [get_boot_time] returns reads back as a valid
    UTC date and time whose POSIX seconds since the Epoch are the floor of
    the float difference, for every rounding model. *)
Theorem get_boot_time_posix `{FloatModel} w t c u q :
  w_read w "/proc/uptime" t = inr c -> py_index (split_ws c) 0 = Ok u ->
  py_float u = Ok (PFin q) ->
  (0 <= Qfloor (fsub (w_time w (S t)) q) < 2 ^ 53)%Z ->
  exists tm, outcome (get_boot_time w) t = Ok (strftime_iso tm) /\
    parse_iso (strftime_iso tm) = Some tm /\ valid_tm tm /\
    posix_seconds tm = Qfloor (fsub (w_time w (S t)) q).
Proof.
  intros R I F Hs. rewrite (get_boot_time_run w t c u _ R I F). unfold py_gmtime, pf_sub.
  set (s := Qfloor _) in *. pose proof (gmtime_secs_year s ltac:(lia)) as Y.
  assert (T : time_t_ok s = true) by (unfold time_t_ok; zcase; lia).
  assert (I32 : int_ok (tm_year (gmtime_secs s) - 1900) = true).
  { unfold int_ok; zcase; lia. }
  rewrite T, I32. exists (gmtime_secs s). split; [done|].
  split; [apply strftime_iso_parse; [apply gmtime_secs_valid|lia]|].
  split; [apply gmtime_secs_valid|]. apply gmtime_secs_posix_eq. lia.
Qed.

(** An uptime of [nan] makes [get_boot_time] raise [ValueError] and
    an infinite one [OverflowError] ([time.gmtime] rejects both): no text is
    produced. *)
Theorem get_boot_time_not_finite `{FloatModel} w t c u v e :
  w_read w "/proc/uptime" t = inr c -> py_index (split_ws c) 0 = Ok u -> py_float u = Ok v ->
  (v = PNaN /\ e = ValueError) \/ (exists neg, v = PInf neg /\ e = OverflowError) ->
  outcome (get_boot_time w) t = Raise e.
Proof.
  intros R I F Hv. rewrite (get_boot_time_run w t c u v R I F).
  by destruct Hv as [[-> ->]|(neg & -> & ->)].
Qed.

(** (C28) The readers the spec calls fatal propagate a failing read:
    [get_hostname], [get_uptime], [get_boot_time] and [get_load_avg] raise
    the exception of the [open] or [read] that failed. *)
Theorem fatal_readers_propagate `{FloatModel} w t e :
  (w_read w "/etc/hostname" t = inl e -> outcome (get_hostname w) t = Raise (io_exn e)) /\
  (w_read w "/proc/uptime" t = inl e ->
     outcome (get_uptime w) t = Raise (io_exn e) /\ outcome (get_boot_time w) t = Raise (io_exn e)) /\
  (w_read w "/proc/loadavg" t = inl e -> outcome (get_load_avg w) t = Raise (io_exn e)).
Proof.
  unfold outcome, get_hostname, get_boot_time, get_uptime, get_load_avg, bind.
  cbn [read_file call event]. split; [|split]; intros R; [| split |]; by rewrite R.
Qed.

(** [load_avg] is the first three fields of [/proc/loadavg] as
    floats, in their order. *)
Theorem get_load_avg_value `{FloatModel} w t c a b d rest x y z :
  w_read w "/proc/loadavg" t = inr c -> split_ws c = a :: b :: d :: rest ->
  py_float a = Ok x -> py_float b = Ok y -> py_float d = Ok z ->
  outcome (get_load_avg w) t = Ok [x; y; z].
Proof.
  intros R S A B D. unfold outcome, get_load_avg, bind. cbn [read_file call event]. rewrite R.
  cbn [lift]. rewrite S. cbn. by rewrite A, B, D.
Qed.

(** A [/proc/loadavg] with fewer than three fields, each a float,
    makes [get_load_avg] raise [IndexError]. *)
Theorem get_load_avg_short `{FloatModel} w t c :
  w_read w "/proc/loadavg" t = inr c -> (length (split_ws c) < 3)%nat ->
  Forall (fun p => exists v, py_float p = Ok v) (split_ws c) ->
  outcome (get_load_avg w) t = Raise IndexError.
Proof.
  intros R L F. unfold outcome, get_load_avg, bind. cbn [read_file call event]. rewrite R.
  cbn [lift]. destruct (split_ws c) as [|a [|b [|d rest]]]; cbn in L; [done| | |lia];
    inversion F as [|? ? [x Hx] F1]; subst; cbn; rewrite Hx; [done|].
  inversion F1 as [|? ? [y Hy] _]; subst. cbn. by rewrite Hy.
Qed.

(** ** Scenario and witnesses *)

(** [/proc/uptime] holds [uptime], [/proc/loadavg] holds [loadavg], the
    clock reads [now]. *)
Definition host_world (uptime loadavg : string) (now : Q) : world := {|
  w_read p _ :=
    if String.eqb p "/proc/uptime" then inr uptime
    else if String.eqb p "/proc/loadavg" then inr loadavg
    else if String.eqb p "/etc/hostname" then inr "gpu-node-1
"%string
    else inl (IOFail ENOENT);
  w_glob _ _ := [];
  w_run _ _ _ := inl (RunFail ENOENT);
  w_statvfs _ _ := inl ENOENT;
  w_time _ := now |}.

Definition scenario_uptime : string := "12345.50 98765.43
".

(** A scenario: booted 12345.5 s before [1700000000.25] (the clock
    of 2023-11-14T22:13:20.25Z), the agent reports [2023-11-14T18:47:34Z],
    whatever the rounding model (the values are small dyadic rationals). *)
Theorem get_boot_time_scenario `{FloatModel} :
  outcome (get_boot_time (host_world scenario_uptime "" (6800000001 # 4))) 0
  = Ok "2023-11-14T18:47:34Z"%string.
Proof.
  rewrite (get_boot_time_run _ 0 scenario_uptime "12345.50" (PFin (frnd (1234550 # 100))))
    by reflexivity.
  unfold py_gmtime, pf_sub. cbn [w_time host_world].
  assert (E : (fsub (6800000001 # 4) (frnd (1234550 # 100)) == 6799950619 # 4)%Q).
  { rewrite (frnd_exact_at (1234550 # 100) 24691 1) by (reflexivity || lia).
    unfold fsub. rewrite (frnd_exact_at _ 6799950619 2); [reflexivity|reflexivity|lia|lia]. }
  rewrite (Qfloor_comp _ _ E). vm_compute. reflexivity.
Qed.


Lemma get_boot_time_posix_witness :
  exists tm, outcome (get_boot_time (host_world scenario_uptime "" (6800000001 # 4))) 0
               = Ok (strftime_iso tm) /\
    parse_iso (strftime_iso tm) = Some tm /\ valid_tm tm /\
    posix_seconds tm = Qfloor (fsub (6800000001 # 4) (1234550 # 100)).
Proof.
  apply (get_boot_time_posix (host_world scenario_uptime "" (6800000001 # 4)) 0
           scenario_uptime "12345.50" (1234550 # 100)); try reflexivity.
  vm_compute. split; [discriminate|reflexivity].
Defined.

Lemma get_boot_time_not_finite_witness :
  outcome (get_boot_time (host_world "nan 12.0
" "" 0)) 0 = Raise ValueError.
Proof.
  apply (get_boot_time_not_finite _ 0 "nan 12.0
" "nan" PNaN); [reflexivity|reflexivity|reflexivity|left; split; reflexivity].
Defined.

Lemma fatal_readers_propagate_witness :
  outcome (get_load_avg empty_world) 0 = Raise (io_exn (IOFail ENOENT)).
Proof. apply (fatal_readers_propagate empty_world 0 (IOFail ENOENT)). reflexivity. Defined.

Lemma get_load_avg_value_witness :
  outcome (get_load_avg (host_world "" "0.52 0.58 0.59 1/345 6789
" 0)) 0 = Ok [PFin (52 # 100); PFin (58 # 100); PFin (59 # 100)].
Proof.
  apply (get_load_avg_value _ 0 "0.52 0.58 0.59 1/345 6789
" "0.52" "0.58" "0.59" ["1/345"; "6789"]%string); reflexivity.
Defined.

Lemma get_load_avg_short_witness :
  outcome (get_load_avg (host_world "" "0.52 0.58
" 0)) 0 = Raise IndexError.
Proof.
  apply (get_load_avg_short _ 0 "0.52 0.58
"); [reflexivity|simpl; lia|].
  repeat constructor; eexists; reflexivity.
Defined.

End Host.
