(* ===== verification/Cpu.v ===== *)
(** * CpuSampler: [get_cpu_percent] (lines 92-111)

    Two reads of the first line of [/proc/stat] separated by
    [time.sleep(0.1)]; the idle counter is the fourth number after the
    [cpu] label and the total is the sum of all of them.  Every exception
    is caught by [except Exception] and gives [None]. *)

From S2P Require Import Prelude PyStr PyNum Os.
From Stdlib Require Import QArith Lqa.
Import PyStr PyNum Os.
Local Close Scope Q_scope.

Module Cpu.

Section CpuOps.
Context `{FloatModel} (w : world).

(** [list(map(int, line.split()[1:]))] of the first line (lines 95-96). *)
Definition stat_vals (contents : string) : result (list Z) :=
  map_int (drop 1 (split_ws (readline contents))).

(** Lines 95-98: the idle counter [vals[3]] and the total [sum(vals)]. *)
Definition stat_sample (contents : string) : result (Z * Z) :=
  let? vals := stat_vals contents in
  let? idle := py_index vals 3 in
  Ok (idle, py_sum vals).

(** Lines 105-109: the two deltas and the percentage. *)
Definition cpu_core (s1 s2 : Z * Z) : result (option rounded) :=
  let delta_idle := (s2.1 - s1.1)%Z in
  let delta_total := (s2.2 - s1.2)%Z in
  if Z.eqb delta_total 0 then Ok None
  else let? q := fdiv (inject_Z delta_idle) (inject_Z delta_total) in
       Ok (Some (py_round1 (fmul (fsub 1 q) 100))).

Definition get_cpu_percent : PyM (option rounded) :=
  try_except
    (c1 <- read_file w "/proc/stat" ;;
     s1 <- lift (stat_sample c1) ;;
     sleep (1 # 10) ;;
     c2 <- read_file w "/proc/stat" ;;
     s2 <- lift (stat_sample c2) ;;
     lift (cpu_core s1 s2))
    [CException] (ret None).

(** What the sampler returns once both reads have succeeded. *)
Definition cpu_of (c1 c2 : string) : option rounded :=
  match stat_sample c1, stat_sample c2 with
  | Ok s1, Ok s2 => match cpu_core s1 s2 with Ok r => r | Raise _ => None end
  | _, _ => None
  end.

Lemma get_cpu_percent_run t c1 c2 :
  w_read w "/proc/stat" t = inr c1 ->
  w_read w "/proc/stat" (S (S t)) = inr c2 ->
  outcome get_cpu_percent t = Ok (cpu_of c1 c2).
Proof.
  intros R1 R2. unfold outcome, get_cpu_percent, try_except, cpu_of, bind.
  cbn [read_file call event sleep lift]. rewrite R1.
  destruct (stat_sample c1); [|done]. rewrite R2.
  destruct (stat_sample c2); [|done]. by destruct (cpu_core _ _).
Qed.

Lemma cpu_core_value i1 t1 i2 t2 :
  (t2 - t1 <> 0)%Z ->
  cpu_core (i1, t1) (i2, t2) =
  Ok (Some (py_round1 (fmul (fsub 1 (frnd (inject_Z (i2 - i1) / inject_Z (t2 - t1)))) 100))).
Proof.
  intros Hd. unfold cpu_core. cbn [fst snd].
  destruct (Z.eqb_spec (t2 - t1) 0) as [|_]; [done|].
  rewrite fdiv_nonzero; [done|].
  intros E. apply Hd. apply inject_Z_injective. exact E.
Qed.

(** The percentage of a nonnegative idle delta at most the total delta. *)
Lemma cpu_core_range i1 t1 i2 t2 :
  (0 <= i2 - i1 <= t2 - t1)%Z -> (t2 - t1 <> 0)%Z ->
  exists r, cpu_core (i1, t1) (i2, t2) = Ok (Some r) /\ (0 <= r_tenths r <= 1000)%Z.
Proof.
  intros [L U] Hd. rewrite cpu_core_value by done. eexists; split; [done|].
  set (di := (i2 - i1)%Z) in *. set (dt := (t2 - t1)%Z) in *.
  assert (Hq : (inject_Z 0 <= inject_Z di / inject_Z dt <= inject_Z 1)%Q).
  { assert (P : (0 < inject_Z dt)%Q) by (unfold Qlt; simpl; lia).
    split.
    - apply Qle_shift_div_l; [done|]. rewrite Qmult_0_l. unfold Qle; simpl; lia.
    - apply Qle_shift_div_r; [done|]. rewrite Qmult_1_l. unfold Qle; simpl; lia. }
  apply frnd_between in Hq; [|done|done].
  assert (H1 : (inject_Z 0 <= fsub 1 (frnd (inject_Z di / inject_Z dt)) <= inject_Z 1)%Q).
  { apply frnd_between; [done|done|]. unfold inject_Z in *. lra. }
  assert (H2 : (inject_Z 0 <= fmul (fsub 1 (frnd (inject_Z di / inject_Z dt))) 100 <= inject_Z 100)%Q).
  { apply frnd_between; [done|done|]. unfold inject_Z in *. lra. }
  destruct H2 as [A B]. apply round1_mono in A, B. simpl. split; [exact A|exact B].
Qed.

(** (C1) [get_cpu_percent] never raises: whatever [/proc/stat] holds or
    whether it can be read, the result is a value ([None] or a float). *)
Theorem get_cpu_percent_never_raises t : exists r, outcome get_cpu_percent t = Ok r.
Proof.
  unfold outcome, get_cpu_percent, try_except.
  destruct (bind _ _ t) as [[r|e] t']; [by eauto|].
  rewrite caught_by_Exception by (left; done). unfold ret. eauto.
Qed.

(** (C16) When the two samples have the same total, the result is [None]
    (no division by zero). *)
Theorem get_cpu_percent_zero_delta t c1 c2 i1 i2 T :
  w_read w "/proc/stat" t = inr c1 ->
  w_read w "/proc/stat" (S (S t)) = inr c2 ->
  stat_sample c1 = Ok (i1, T) -> stat_sample c2 = Ok (i2, T) ->
  outcome get_cpu_percent t = Ok None.
Proof.
  intros R1 R2 S1 S2. rewrite (get_cpu_percent_run t c1 c2 R1 R2).
  unfold cpu_of. rewrite S1, S2. unfold cpu_core. cbn [fst snd].
  by rewrite Z.sub_diag.
Qed.

(** (C2) With counters that did not decrease between the two reads, at
    least four of them and a total that moved, the result is a percentage
    in [0, 100] (at most 1000 tenths), for every rounding model. *)
Theorem get_cpu_percent_bounds t c1 c2 v1 v2 :
  w_read w "/proc/stat" t = inr c1 ->
  w_read w "/proc/stat" (S (S t)) = inr c2 ->
  stat_vals c1 = Ok v1 -> stat_vals c2 = Ok v2 ->
  Forall2 Z.le v1 v2 -> 4 <= length v1 -> py_sum v1 <> py_sum v2 ->
  exists r, outcome get_cpu_percent t = Ok (Some r) /\ (0 <= r_tenths r <= 1000)%Z.
Proof.
  intros R1 R2 V1 V2 HF Hlen Hsum.
  rewrite (get_cpu_percent_run t c1 c2 R1 R2).
  pose proof (Forall2_length _ _ _ HF) as Hl.
  destruct (py_index_lt v1 3 ltac:(lia)) as (x1 & I1 & L1).
  destruct (py_index_lt v2 3 ltac:(lia)) as (x2 & I2 & L2).
  pose proof (py_sum_delta_ge v1 v2 3 HF) as D.
  rewrite (nth_lookup_Some _ _ _ _ L1), (nth_lookup_Some _ _ _ _ L2) in D.
  destruct (cpu_core_range x1 (py_sum v1) x2 (py_sum v2)) as (r & E & B); [lia|lia|].
  exists r. split; [|done].
  unfold cpu_of, stat_sample. rewrite V1, V2. simpl. rewrite I1, I2. simpl. by rewrite E.
Qed.

(** A first line with fewer than four numbers after the label
    ([vals[3]] raises [IndexError]) gives [None]. *)
Theorem get_cpu_percent_short_line t c1 v1 :
  w_read w "/proc/stat" t = inr c1 -> stat_vals c1 = Ok v1 -> length v1 < 4 ->
  outcome get_cpu_percent t = Ok None.
Proof.
  intros R1 V1 Hlen. unfold outcome, get_cpu_percent, try_except, bind.
  cbn [read_file call event lift]. rewrite R1.
  unfold stat_sample. rewrite V1. simpl. by rewrite py_index_ge by lia.
Qed.
End CpuOps.

(** ** The scenarios *)

Definition stat_world (c1 c2 : string) : world :=
  with_files (fun p t => if String.eqb p "/proc/stat" then
                           (if Nat.eqb t 0 then inr c1 else inr c2)
                         else inl (IOFail ENOENT)) empty_world.

(** The spec's scenario: idle 1000 of 5000, then 1050 of 5200. *)
Definition scenario_stat1 : string := "cpu  2000 100 1500 1000 200 100 100 0 0 0
cpu0 1000 50 750 500 100 50 50 0 0 0
".
Definition scenario_stat2 : string := "cpu  2100 100 1550 1050 200 100 100 0 0 0
cpu0 1050 50 775 525 100 50 50 0 0 0
".

(** (C17) The spec's scenario: the idle delta 50 of a total delta 200 gives
    [75.0], whatever the rounding model (every intermediate value is a
    small dyadic rational). *)
Theorem get_cpu_percent_scenario `{FloatModel} :
  outcome (get_cpu_percent (stat_world scenario_stat1 scenario_stat2)) 0
  = Ok (Some (mk_rounded 750 false)).
Proof.
  rewrite (get_cpu_percent_run _ 0 scenario_stat1 scenario_stat2) by reflexivity.
  unfold cpu_of. change (stat_sample scenario_stat1) with (Ok (1000, 5000)%Z).
  change (stat_sample scenario_stat2) with (Ok (1050, 5200)%Z).
  cbv beta iota. rewrite cpu_core_value by lia. do 2 f_equal.
  assert (E1 : (frnd (inject_Z (1050 - 1000) / inject_Z (5200 - 5000)) == 1 # 4)%Q).
  { rewrite (frnd_exact_at _ 1 2); [reflexivity|reflexivity|lia|lia]. }
  assert (E2 : (fsub 1 (frnd (inject_Z (1050 - 1000) / inject_Z (5200 - 5000))) == 3 # 4)%Q).
  { rewrite E1. unfold fsub. rewrite (frnd_exact_at _ 3 2); [reflexivity|reflexivity|lia|lia]. }
  rewrite E2. unfold fmul. rewrite (frnd_exact_at _ 75 0); [reflexivity|reflexivity|lia|lia].
Qed.

(** Two reads between which [iowait] (the fifth number) went down by 5
    while [idle] went up by 10. *)
Definition iowait_stat1 : string := "cpu  2000 100 1500 1000 300 100 100 0 0 0
".
Definition iowait_stat2 : string := "cpu  2000 100 1500 1010 295 100 100 0 0 0
".

(** (C18) The result is not clamped to [0, 100]: Linux's [iowait] counter
    may decrease, and when the idle delta then exceeds the total delta the
    agent reports [-100.0], for every rounding model. *)
Theorem get_cpu_percent_iowait_drop `{FloatModel} :
  outcome (get_cpu_percent (stat_world iowait_stat1 iowait_stat2)) 0
  = Ok (Some (mk_rounded (-1000) true)).
Proof.
  rewrite (get_cpu_percent_run _ 0 iowait_stat1 iowait_stat2) by reflexivity.
  unfold cpu_of. change (stat_sample iowait_stat1) with (Ok (1000, 5100)%Z).
  change (stat_sample iowait_stat2) with (Ok (1010, 5105)%Z).
  cbv beta iota. rewrite cpu_core_value by lia. do 2 f_equal.
  assert (E1 : (frnd (inject_Z (1010 - 1000) / inject_Z (5105 - 5100)) == 2)%Q).
  { rewrite (frnd_exact_at _ 2 0); [reflexivity|reflexivity|lia|lia]. }
  rewrite E1. unfold fmul, fsub.
  rewrite (frnd_exact_at (1 - 2) (-1) 0); [|reflexivity|lia|lia].
  rewrite (frnd_exact_at _ (-100) 0); [reflexivity|reflexivity|lia|lia].
Qed.

(** ** Witnesses *)

Lemma get_cpu_percent_zero_delta_witness :
  outcome (get_cpu_percent (stat_world scenario_stat1 scenario_stat1)) 0 = Ok None.
Proof.
  apply (get_cpu_percent_zero_delta _ 0 scenario_stat1 scenario_stat1 1000 1000 5000);
    reflexivity.
Defined.

Lemma get_cpu_percent_bounds_witness :
  exists r, outcome (get_cpu_percent (stat_world scenario_stat1 scenario_stat2)) 0
            = Ok (Some r) /\ (0 <= r_tenths r <= 1000)%Z.
Proof.
  apply (get_cpu_percent_bounds _ 0 scenario_stat1 scenario_stat2
           [2000; 100; 1500; 1000; 200; 100; 100; 0; 0; 0]%Z
           [2100; 100; 1550; 1050; 200; 100; 100; 0; 0; 0]%Z);
    [reflexivity|reflexivity|reflexivity|reflexivity|repeat constructor; lia|simpl; lia|simpl; lia].
Defined.

Lemma get_cpu_percent_short_line_witness :
  outcome (get_cpu_percent (stat_world "cpu 1 2 3
" "cpu 1 2 3
")) 0 = Ok None.
Proof.
  apply (get_cpu_percent_short_line _ 0 "cpu 1 2 3
" [1; 2; 3]%Z); [reflexivity|reflexivity|simpl; lia].
Defined.

End Cpu.
