(* ===== verification/Memory.v ===== *)
(** * SourceReader [get_memory] (lines 64-83)

    [/proc/meminfo] is read line by line into a dict from the first token
    (without its trailing colons) to [int] of the second; the five fields
    are the kB counts divided by 1024 and rounded to one decimal.  The dict
    is a [gmap string Z]; nothing is caught, so an unreadable file or a
    second token that is not an int ends the request. *)

From S2P Require Import Prelude PyStr PyNum Os.
From Stdlib Require Import QArith Lqa.
Import PyStr PyNum Os.
Local Close Scope Q_scope.

Module Memory.

Record memory := mk_memory {
  total_mb : rounded;
  used_mb : rounded;
  available_mb : rounded;
  swap_total_mb : rounded;
  swap_used_mb : rounded
}.

(** Lines 68-70 for one line: [parts = line.split()] and, when it has at
    least two parts, [info[parts[0].rstrip(":")] = int(parts[1])]. *)
Definition meminfo_line (info : gmap string Z) (line : string) : result (gmap string Z) :=
  match split_ws line with
  | k :: v :: _ => let? n := py_int v in Ok (<[rstrip_char ":" k := n]> info)
  | _ => Ok info
  end.

(** Lines 65-70: the loop over the lines of the file. *)
Fixpoint meminfo_lines (info : gmap string Z) (lines : list string) : result (gmap string Z) :=
  match lines with
  | [] => Ok info
  | l :: ls => let? info' := meminfo_line info l in meminfo_lines info' ls
  end.

Definition parse_meminfo (contents : string) : result (gmap string Z) :=
  meminfo_lines ∅ (file_lines contents).

(** The reference reading of the file: the key/value pairs of the lines
    with at least two tokens, in file order, and their parse. *)
Definition line_entry (line : string) : option (string * string) :=
  match split_ws line with
  | k :: v :: _ => Some (rstrip_char ":" k, v)
  | _ => None
  end.

Fixpoint parse_entries (es : list (string * string)) : result (list (string * Z)) :=
  match es with
  | [] => Ok []
  | (k, v) :: es' => let? n := py_int v in let? kvs := parse_entries es' in Ok ((k, n) :: kvs)
  end.

(** [info.get(k, 0)] *)
Definition dict_get (info : gmap string Z) (k : string) : Z := default 0%Z (info !! k).

Section MemoryOps.
Context `{FloatModel} (w : world).

(** Lines 72-83. *)
Definition memory_of (info : gmap string Z) : result memory :=
  let? total := fdiv (inject_Z (dict_get info "MemTotal")) (inject_Z 1024) in
  let? available := fdiv (inject_Z (dict_get info "MemAvailable")) (inject_Z 1024) in
  let? swap_total := fdiv (inject_Z (dict_get info "SwapTotal")) (inject_Z 1024) in
  let? swap_free := fdiv (inject_Z (dict_get info "SwapFree")) (inject_Z 1024) in
  Ok {| total_mb := py_round1 total;
        used_mb := py_round1 (fsub total available);
        available_mb := py_round1 available;
        swap_total_mb := py_round1 swap_total;
        swap_used_mb := py_round1 (fsub swap_total swap_free) |}.

Definition get_memory : PyM memory :=
  contents <- read_file w "/proc/meminfo" ;;
  info <- lift (parse_meminfo contents) ;;
  lift (memory_of info).

(** The four counts a snapshot needs are small enough for binary64. *)
Definition counts_small (info : gmap string Z) : Prop :=
  Forall (fun k => (Z.abs (dict_get info k) < 2 ^ 52)%Z)
    ["MemTotal"; "MemAvailable"; "SwapTotal"; "SwapFree"]%string.

(** The five fields are the exact quotients by 1024, rounded once. *)
Lemma memory_of_exact info :
  counts_small info ->
  memory_of info = Ok {|
    total_mb := py_round1 (dict_get info "MemTotal" # 1024);
    used_mb := py_round1 ((dict_get info "MemTotal" - dict_get info "MemAvailable") # 1024);
    available_mb := py_round1 (dict_get info "MemAvailable" # 1024);
    swap_total_mb := py_round1 (dict_get info "SwapTotal" # 1024);
    swap_used_mb := py_round1 ((dict_get info "SwapTotal" - dict_get info "SwapFree") # 1024) |}.
Proof.
  unfold counts_small. rewrite !Forall_cons. intros (HT & HA & HS & HF & _).
  destruct (fdiv_pow2 (dict_get info "MemTotal") 1024 10) as (qt & Et & Qt); [done|lia|lia|].
  destruct (fdiv_pow2 (dict_get info "MemAvailable") 1024 10) as (qa & Ea & Qa); [done|lia|lia|].
  destruct (fdiv_pow2 (dict_get info "SwapTotal") 1024 10) as (qs & Es & Qs); [done|lia|lia|].
  destruct (fdiv_pow2 (dict_get info "SwapFree") 1024 10) as (qf & Ef & Qf); [done|lia|lia|].
  unfold memory_of. rewrite Et, Ea, Es, Ef. simpl. f_equal. f_equal.
  - by rewrite Qt.
  - apply py_round1_proper, (fsub_pow2 _ _ _ 10); [done|lia|lia|done|done].
  - by rewrite Qa.
  - by rewrite Qs.
  - apply py_round1_proper, (fsub_pow2 _ _ _ 10); [done|lia|lia|done|done].
Qed.

End MemoryOps.

(** The loop over the lines from a dict [info]: the parsed pairs, the last
    one of a key winning, over [info]. *)
Lemma meminfo_lines_spec info lines :
  meminfo_lines info lines =
  (let? kvs := parse_entries (omap line_entry lines) in Ok (list_to_map (rev kvs) ∪ info)).
Proof.
  revert info. induction lines as [|l ls IH]; intros info; simpl.
  - by rewrite (left_id_L ∅ (∪)).
  - unfold meminfo_line, line_entry.
    destruct (split_ws l) as [|k [|v rest]]; simpl; try apply IH.
    destruct (py_int v) as [n|e]; simpl; [|done].
    rewrite IH. destruct (parse_entries _) as [kvs|e]; simpl; [|done].
    f_equal. rewrite list_to_map_app, insert_union_singleton_l, (assoc_L (∪)). done.
Qed.

(** Any entry whose value is not an int makes the parse raise
    [ValueError]. *)
Lemma parse_entries_bad es k v :
  In (k, v) es -> parse_int v = None -> parse_entries es = Raise ValueError.
Proof.
  induction es as [|[k' v'] es IH]; simpl; [done|].
  intros [[= -> ->]|Hin] Hv; unfold py_int.
  - by rewrite Hv.
  - destruct (parse_int v'); simpl; [|done]. by rewrite IH.
Qed.

(** Reading the file. *)
Lemma get_memory_run `{FloatModel} w t c :
  w_read w "/proc/meminfo" t = inr c ->
  outcome (get_memory w) t = (let? info := parse_meminfo c in memory_of info).
Proof.
  intros R. unfold outcome, get_memory, bind. cbn [read_file call event lift]. rewrite R.
  by destruct (parse_meminfo c).
Qed.

Lemma get_memory_exact `{FloatModel} w t c info :
  w_read w "/proc/meminfo" t = inr c -> parse_meminfo c = Ok info -> counts_small info ->
  outcome (get_memory w) t = Ok {|
    total_mb := py_round1 (dict_get info "MemTotal" # 1024);
    used_mb := py_round1 ((dict_get info "MemTotal" - dict_get info "MemAvailable") # 1024);
    available_mb := py_round1 (dict_get info "MemAvailable" # 1024);
    swap_total_mb := py_round1 (dict_get info "SwapTotal" # 1024);
    swap_used_mb := py_round1 ((dict_get info "SwapTotal" - dict_get info "SwapFree") # 1024) |}.
Proof.
  intros R P Hs. rewrite (get_memory_run w t c R), P. simpl. by apply memory_of_exact.
Qed.

(** (C4) The dict built by the loop over [/proc/meminfo] is the map of
    the parsed [key: value] lines in which the last line of a key wins
    (Python's dict assignment), or the [ValueError] of the first value
    that is not an int. *)
Theorem parse_meminfo_last_wins c :
  parse_meminfo c =
  (let? kvs := parse_entries (omap line_entry (file_lines c)) in Ok (list_to_map (rev kvs))).
Proof.
  unfold parse_meminfo. rewrite meminfo_lines_spec.
  destruct (parse_entries _); simpl; [|done]. by rewrite (right_id_L ∅ (∪)).
Qed.

(** (C5) With counts below [2^52] kB, the five fields are the exact
    quotients by 1024 rounded once to a tenth, a missing key counting as
    0, under every rounding model. *)
Theorem get_memory_value `{FloatModel} w t c info :
  w_read w "/proc/meminfo" t = inr c -> parse_meminfo c = Ok info -> counts_small info ->
  outcome (get_memory w) t = Ok {|
    total_mb := py_round1 (dict_get info "MemTotal" # 1024);
    used_mb := py_round1 ((dict_get info "MemTotal" - dict_get info "MemAvailable") # 1024);
    available_mb := py_round1 (dict_get info "MemAvailable" # 1024);
    swap_total_mb := py_round1 (dict_get info "SwapTotal" # 1024);
    swap_used_mb := py_round1 ((dict_get info "SwapTotal" - dict_get info "SwapFree") # 1024) |}.
Proof. apply get_memory_exact. Qed.

(** (C19) [used_mb] differs from [total_mb - available_mb] by at most
    0.1 (each is rounded separately), and [swap_used_mb] from
    [swap_total_mb] minus the rounded [SwapFree] likewise. *)
Theorem get_memory_used_close `{FloatModel} w t c info :
  w_read w "/proc/meminfo" t = inr c -> parse_meminfo c = Ok info -> counts_small info ->
  exists m, outcome (get_memory w) t = Ok m /\
    (Z.abs (r_tenths (used_mb m) - (r_tenths (total_mb m) - r_tenths (available_mb m))) <= 1)%Z /\
    (Z.abs (r_tenths (swap_used_mb m) -
            (r_tenths (swap_total_mb m) - round1 (dict_get info "SwapFree" # 1024))) <= 1)%Z.
Proof.
  intros R P Hs. rewrite (get_memory_exact w t c info R P Hs). eexists; split; [done|].
  simpl. split.
  - rewrite (round1_sub_frac (dict_get info "MemTotal") (dict_get info "MemAvailable")).
    apply round1_sub_close.
  - rewrite (round1_sub_frac (dict_get info "SwapTotal") (dict_get info "SwapFree")).
    apply round1_sub_close.
Qed.

(** A line with at least two tokens whose second token is not an
    int makes [get_memory] raise [ValueError]: nothing catches it, so the
    request fails. *)
Theorem get_memory_bad_number `{FloatModel} w t c line :
  w_read w "/proc/meminfo" t = inr c -> In line (file_lines c) ->
  (exists k v rest, split_ws line = k :: v :: rest /\ parse_int v = None) ->
  outcome (get_memory w) t = Raise ValueError.
Proof.
  intros R Hin (k & v & rest & Hs & Hv). rewrite (get_memory_run w t c R).
  unfold parse_meminfo. rewrite meminfo_lines_spec.
  rewrite (parse_entries_bad _ (rstrip_char ":" k) v); [done| |done].
  apply list_elem_of_In, list_elem_of_omap. exists line.
  split; [by apply list_elem_of_In|]. unfold line_entry. by rewrite Hs.
Qed.

(** A [/proc/meminfo] that cannot be opened makes [get_memory]
    raise the same [OSError]: the reader has no fallback. *)
Theorem get_memory_read_error `{FloatModel} w t e :
  w_read w "/proc/meminfo" t = inl e -> outcome (get_memory w) t = Raise (io_exn e).
Proof. intros R. unfold outcome, get_memory, bind. cbn [read_file call event]. by rewrite R. Qed.

(** ** The scenario and the witnesses *)

Definition meminfo_world (c : string) : world :=
  with_files (fun p _ => if String.eqb p "/proc/meminfo" then inr c
                         else inl (IOFail ENOENT)) empty_world.

Definition scenario_meminfo : string := "MemTotal:       16384000 kB
MemFree:         1024000 kB
MemAvailable:    8192000 kB
Buffers:          102400 kB
SwapTotal:       2048000 kB
SwapFree:        2048000 kB
HugePages_Total:       0
".

Definition scenario_info : gmap string Z :=
  Eval vm_compute in
    match parse_meminfo scenario_meminfo with Ok i => i | Raise _ => ∅ end.

Definition scenario_memory : memory := {|
  total_mb := mk_rounded 160000 false;
  used_mb := mk_rounded 80000 false;
  available_mb := mk_rounded 80000 false;
  swap_total_mb := mk_rounded 20000 false;
  swap_used_mb := mk_rounded 0 false |}.

(** (C20) The spec's scenario: 16384000, 8192000, 2048000 and 2048000 kB
    give 16000.0, 8000.0, 8000.0, 2000.0 and 0.0 MB, under every rounding
    model. *)
Theorem get_memory_scenario `{FloatModel} :
  outcome (get_memory (meminfo_world scenario_meminfo)) 0 = Ok scenario_memory.
Proof.
  rewrite (get_memory_exact _ 0 scenario_meminfo scenario_info);
    [reflexivity|reflexivity|vm_compute; reflexivity|].
  unfold counts_small. repeat constructor.
Qed.

Lemma get_memory_value_witness :
  outcome (get_memory (meminfo_world scenario_meminfo)) 0 = Ok {|
    total_mb := py_round1 (dict_get scenario_info "MemTotal" # 1024);
    used_mb := py_round1 ((dict_get scenario_info "MemTotal" - dict_get scenario_info "MemAvailable") # 1024);
    available_mb := py_round1 (dict_get scenario_info "MemAvailable" # 1024);
    swap_total_mb := py_round1 (dict_get scenario_info "SwapTotal" # 1024);
    swap_used_mb := py_round1 ((dict_get scenario_info "SwapTotal" - dict_get scenario_info "SwapFree") # 1024) |}.
Proof.
  apply (get_memory_value _ 0 scenario_meminfo scenario_info);
    [reflexivity|vm_compute; reflexivity|unfold counts_small; repeat constructor].
Defined.

Lemma get_memory_used_close_witness :
  exists m, outcome (get_memory (meminfo_world scenario_meminfo)) 0 = Ok m /\
    (Z.abs (r_tenths (used_mb m) - (r_tenths (total_mb m) - r_tenths (available_mb m))) <= 1)%Z /\
    (Z.abs (r_tenths (swap_used_mb m) -
            (r_tenths (swap_total_mb m) - round1 (dict_get scenario_info "SwapFree" # 1024))) <= 1)%Z.
Proof.
  apply (get_memory_used_close _ 0 scenario_meminfo scenario_info);
    [reflexivity|vm_compute; reflexivity|unfold counts_small; repeat constructor].
Defined.

Lemma get_memory_bad_number_witness :
  outcome (get_memory (meminfo_world "MemTotal: 16x4 kB
")) 0 = Raise ValueError.
Proof.
  apply (get_memory_bad_number _ 0 "MemTotal: 16x4 kB
" "MemTotal: 16x4 kB
");
    [reflexivity|simpl; left; reflexivity|exists "MemTotal:"%string, "16x4"%string, ["kB"%string]; split; reflexivity].
Defined.

Lemma get_memory_read_error_witness :
  outcome (get_memory empty_world) 0 = Raise (io_exn (IOFail ENOENT)).
Proof. apply get_memory_read_error. reflexivity. Defined.

End Memory.
