(* ===== verification/Disk.v ===== *)
(** * SourceReader [get_disk] (lines 179-188)

    [os.statvfs("/")]; the byte counts are Python ints ([f_blocks] and
    [f_bfree] times [f_frsize], and their difference), so only the three
    divisions by [1024**3] round, once each, before [round(x, 1)].  A
    failing [statvfs] is not caught. *)

From S2P Require Import Prelude PyStr PyNum Os.
From Stdlib Require Import QArith Lqa.
Import PyNum Os.
Local Close Scope Q_scope.

Module Disk.

Record disk := mk_disk { total_gb : rounded; used_gb : rounded; free_gb : rounded }.

(** [1024**3] *)
Definition gib : positive := 1073741824.

Section DiskOps.
Context `{FloatModel} (w : world).

(** Lines 181-188. *)
Definition disk_of (st : statvfs_result) : result disk :=
  let total := (f_blocks st * f_frsize st)%Z in
  let free := (f_bfree st * f_frsize st)%Z in
  let used := (total - free)%Z in
  let? t := fdiv (inject_Z total) (inject_Z (Zpos gib)) in
  let? u := fdiv (inject_Z used) (inject_Z (Zpos gib)) in
  let? f := fdiv (inject_Z free) (inject_Z (Zpos gib)) in
  Ok {| total_gb := py_round1 t; used_gb := py_round1 u; free_gb := py_round1 f |}.

Definition get_disk : PyM disk :=
  st <- statvfs w "/" ;;
  lift (disk_of st).

(** The byte counts are small enough for binary64. *)
Definition bytes_small (st : statvfs_result) : Prop :=
  (Z.abs (f_blocks st * f_frsize st) < 2 ^ 53)%Z /\
  (Z.abs (f_bfree st * f_frsize st) < 2 ^ 53)%Z /\
  (Z.abs (f_blocks st * f_frsize st - f_bfree st * f_frsize st) < 2 ^ 53)%Z.

Lemma disk_of_exact st :
  bytes_small st ->
  disk_of st = Ok {|
    total_gb := py_round1 (f_blocks st * f_frsize st # gib);
    used_gb := py_round1 (f_blocks st * f_frsize st - f_bfree st * f_frsize st # gib);
    free_gb := py_round1 (f_bfree st * f_frsize st # gib) |}.
Proof.
  intros (HT & HF & HU). unfold disk_of.
  destruct (fdiv_pow2 (f_blocks st * f_frsize st) gib 30) as (qt & Et & Qt); [done|lia|lia|].
  destruct (fdiv_pow2 (f_blocks st * f_frsize st - f_bfree st * f_frsize st) gib 30)
    as (qu & Eu & Qu); [done|lia|lia|].
  destruct (fdiv_pow2 (f_bfree st * f_frsize st) gib 30) as (qf & Ef & Qf); [done|lia|lia|].
  rewrite Et, Eu, Ef. simpl. by rewrite Qt, Qu, Qf.
Qed.

Lemma get_disk_run t st :
  w_statvfs w "/" t = inr st -> outcome get_disk t = disk_of st.
Proof. intros R. unfold outcome, get_disk, bind. cbn [statvfs call event lift]. by rewrite R. Qed.

End DiskOps.

(** (C6) With byte counts below [2^53], the three fields are the exact
    byte counts divided by [1024**3] and rounded once to a tenth, under
    every rounding model. *)
Theorem get_disk_value `{FloatModel} w t st :
  w_statvfs w "/" t = inr st -> bytes_small st ->
  outcome (get_disk w) t = Ok {|
    total_gb := py_round1 (f_blocks st * f_frsize st # gib);
    used_gb := py_round1 (f_blocks st * f_frsize st - f_bfree st * f_frsize st # gib);
    free_gb := py_round1 (f_bfree st * f_frsize st # gib) |}.
Proof. intros R Hs. rewrite (get_disk_run w t st R). by apply disk_of_exact. Qed.

(** (C21) [used_gb] differs from [total_gb - free_gb] by at most 0.1. *)
Theorem get_disk_used_close `{FloatModel} w t st :
  w_statvfs w "/" t = inr st -> bytes_small st ->
  exists d, outcome (get_disk w) t = Ok d /\
    (Z.abs (r_tenths (used_gb d) - (r_tenths (total_gb d) - r_tenths (free_gb d))) <= 1)%Z.
Proof.
  intros R Hs. rewrite (get_disk_run w t st R), (disk_of_exact st Hs). eexists; split; [done|]. simpl.
  rewrite round1_sub_frac. apply round1_sub_close.
Qed.

(** A failing [os.statvfs("/")] makes [get_disk] raise the same
    exception. *)
Theorem get_disk_error `{FloatModel} w t e :
  w_statvfs w "/" t = inl e -> outcome (get_disk w) t = Raise (OSError e).
Proof. intros R. unfold outcome, get_disk, bind. cbn [statvfs call event]. by rewrite R. Qed.

(** ** Scenarios and witnesses *)

Definition statvfs_world (st : statvfs_result) : world :=
  {| w_read := w_read empty_world; w_glob := w_glob empty_world;
     w_run := w_run empty_world;
     w_statvfs p _ := if String.eqb p "/" then inr st else inl ENOENT;
     w_time := w_time empty_world |}.

(** The spec's scenario (100 blocks, 40 free, 4096-byte fragments,
    409600 bytes in all) reports 0.0 GB for all three fields, under every
    rounding model. *)
Theorem get_disk_scenario `{FloatModel} :
  outcome (get_disk (statvfs_world (mk_statvfs 100 40 4096))) 0 =
  Ok {| total_gb := mk_rounded 0 false; used_gb := mk_rounded 0 false;
        free_gb := mk_rounded 0 false |}.
Proof.
  rewrite (get_disk_run _ 0 (mk_statvfs 100 40 4096)) by reflexivity.
  rewrite disk_of_exact; [reflexivity|unfold bytes_small; simpl; lia].
Qed.

(** A 931.5 GiB disk with a quarter free. *)
Definition disk_1tb : statvfs_result := mk_statvfs 244190646 61047661 4096.

Lemma get_disk_value_witness :
  outcome (get_disk (statvfs_world disk_1tb)) 0 =
  Ok {| total_gb := mk_rounded 9315 false; used_gb := mk_rounded 6986 false;
        free_gb := mk_rounded 2329 false |}.
Proof.
  apply (get_disk_value _ 0 disk_1tb); [reflexivity|unfold bytes_small; simpl; lia].
Defined.

Lemma get_disk_used_close_witness :
  exists d, outcome (get_disk (statvfs_world disk_1tb)) 0 = Ok d /\
    (Z.abs (r_tenths (used_gb d) - (r_tenths (total_gb d) - r_tenths (free_gb d))) <= 1)%Z.
Proof.
  apply (get_disk_used_close _ 0 disk_1tb); [reflexivity|unfold bytes_small; simpl; lia].
Defined.

Lemma get_disk_error_witness :
  outcome (get_disk empty_world) 0 = Raise (OSError ENOENT).
Proof. apply get_disk_error. reflexivity. Defined.

End Disk.
