(* ===== verification/Boots.v ===== *)
(** * SourceReaders [get_recent_boots] (lines 139-157) and
      [get_reboot_causes] (lines 160-176)

    Both run [last reboot -F] (timeout 5 s) and scan the lines of its
    standard output, stripped, for lines starting with [reboot].  The
    first keeps the date tokens 4 to 8 of every such line, at most ten; the
    second keeps the first such line as the detail of a cause that is
    always ["unknown"].  Only [FileNotFoundError] and [TimeoutExpired] are
    caught around the run; the return code is not looked at.  Each reader
    runs the tool itself, so the two may see different outputs. *)

From S2P Require Import Prelude PyStr PyNum Os.
Import PyStr Os.

Module Boots.

Definition last_argv : list string := ["last"; "reboot"; "-F"]%string.

(** [" ".join(line.split()[4:9])] (line 151; slicing never raises, so the
    [except IndexError] of lines 150-154 never fires). *)
Definition boot_date (line : string) : string :=
  join " " (take 5 (drop 4 (split_ws line))).

(** The loop of lines 146-154. *)
Fixpoint collect_boots (lines : list string) : list string :=
  match lines with
  | [] => []
  | line :: ls =>
      if startswith line "reboot" then boot_date line :: collect_boots ls
      else collect_boots ls
  end.

(** [result.stdout.strip().split("\n")] *)
Definition out_lines (c : completed) : list string :=
  split_on "010"%char (strip (stdout c)).

Record reboot_cause := mk_cause { cause : string; detail : string }.

(** The loop of lines 167-173: the first line starting with [reboot]. *)
Fixpoint find_reboot (lines : list string) : option string :=
  match lines with
  | [] => None
  | line :: ls => if startswith line "reboot" then Some line else find_reboot ls
  end.

Lemma find_reboot_none ls : find_reboot ls = None <-> collect_boots ls = [].
Proof.
  induction ls as [|l ls IH]; simpl; [done|].
  by destruct (startswith l "reboot").
Qed.

Lemma find_reboot_some ls line :
  find_reboot ls = Some line ->
  startswith line "reboot" = true /\ head (collect_boots ls) = Some (boot_date line).
Proof.
  induction ls as [|l ls IH]; simpl; [done|].
  destruct (startswith l "reboot") eqn:E; [|done]. by intros [= <-].
Qed.

Lemma boot_date_strip line : boot_date (strip line) = boot_date line.
Proof. unfold boot_date. by rewrite split_ws_strip. Qed.

Section BootsOps.
Context (w : world).

Definition get_recent_boots : PyM (list string) :=
  try_except
    (result <- run w last_argv 5 ;;
     ret (take 10 (collect_boots (out_lines result))))
    [CFileNotFoundError; CTimeoutExpired]
    (ret []).

Definition get_reboot_causes : PyM (list (string * reboot_cause)) :=
  let causes := [] in
  try_except
    (result <- run w last_argv 5 ;;
     ret (match find_reboot (out_lines result) with
          | Some line => dict_set causes "last" (mk_cause "unknown" (strip line))
          | None => causes
          end))
    [CFileNotFoundError; CTimeoutExpired]
    (ret causes).

Lemma get_recent_boots_run t :
  outcome get_recent_boots t =
  match w_run w last_argv 5 t with
  | inr c => Ok (take 10 (collect_boots (out_lines c)))
  | inl e => if caught_by [CFileNotFoundError; CTimeoutExpired] (run_exn e) then Ok []
             else Raise (run_exn e)
  end.
Proof.
  unfold outcome, get_recent_boots, try_except, bind. cbn [run call event].
  destruct (w_run w last_argv 5 t) as [e|c]; [|done].
  by destruct (caught_by [CFileNotFoundError; CTimeoutExpired] (run_exn e)).
Qed.

Lemma get_reboot_causes_run t :
  outcome get_reboot_causes t =
  match w_run w last_argv 5 t with
  | inr c => Ok (match find_reboot (out_lines c) with
                 | Some line => [("last", mk_cause "unknown" (strip line))]%string
                 | None => []
                 end)
  | inl e => if caught_by [CFileNotFoundError; CTimeoutExpired] (run_exn e) then Ok []
             else Raise (run_exn e)
  end.
Proof.
  unfold outcome, get_reboot_causes, try_except, bind. cbn [run call event].
  destruct (w_run w last_argv 5 t) as [e|c]; [|done].
  by destruct (caught_by [CFileNotFoundError; CTimeoutExpired] (run_exn e)).
Qed.

(** The reader takes one event, the run of [last], whatever its
    outcome. *)
Lemma get_recent_boots_clock t : snd (get_recent_boots t) = S t.
Proof.
  unfold get_recent_boots, try_except, bind. cbn [run call event].
  destruct (w_run w last_argv 5 t); [destruct (caught_by _ _)|]; reflexivity.
Qed.

End BootsOps.

(** (C3) [recent_boots] never has more than ten entries, whatever [last]
    prints. *)
Theorem get_recent_boots_at_most_10 w t bs :
  outcome (get_recent_boots w) t = Ok bs -> length bs <= 10.
Proof.
  rewrite get_recent_boots_run. destruct (w_run w last_argv 5 t) as [e|c].
  - destruct (caught_by _ _); intros [= <-]. simpl. lia.
  - intros [= <-]. apply length_take_le.
Qed.

(** A missing [last] binary or a run past the 5 s timeout gives an
    empty [recent_boots]. *)
Theorem get_recent_boots_unavailable w t e :
  w_run w last_argv 5 t = inl e -> e = RunFail ENOENT \/ e = RunTimeout ->
  outcome (get_recent_boots w) t = Ok [].
Proof. intros R [-> | ->]; rewrite get_recent_boots_run, R; reflexivity. Qed.

(** (C22) Any other failure of the run, such as a [PermissionError] for a
    [last] that is not executable, is not caught and escapes the reader. *)
Theorem get_recent_boots_permission_error w t :
  w_run w last_argv 5 t = inl (RunFail EACCES) ->
  outcome (get_recent_boots w) t = Raise (OSError EACCES).
Proof. intros R. rewrite get_recent_boots_run, R. reflexivity. Qed.

(** (C23) A [reboot] line with at most four tokens is kept as an empty
    date: the slice [parts[4:9]] is empty and never raises, so the
    [except IndexError] of line 153 is dead code. *)
Theorem collect_boots_short_line line ls :
  startswith line "reboot" = true -> length (split_ws line) <= 4 ->
  collect_boots (line :: ls) = "" :: collect_boots ls.
Proof.
  intros Hs Hl. simpl. rewrite Hs. f_equal.
  unfold boot_date. by rewrite drop_ge.
Qed.

(** [reboot_causes] is empty or has the single key ["last"], whose
    cause is ["unknown"] and whose detail is a stripped line of [last]
    that starts with [reboot]. *)
Theorem get_reboot_causes_shape w t cs :
  outcome (get_reboot_causes w) t = Ok cs ->
  cs = [] \/ exists line, startswith line "reboot" = true /\
                          cs = [("last", mk_cause "unknown" (strip line))]%string.
Proof.
  rewrite get_reboot_causes_run. destruct (w_run w last_argv 5 t) as [e|c].
  - destruct (caught_by _ _); intros [= <-]. by left.
  - intros [= <-]. destruct (find_reboot (out_lines c)) as [line|] eqn:F; [|by left].
    right. exists line. split; [apply (find_reboot_some _ _ F)|done].
Qed.

(** When the two runs of [last] print the same output, the readers
    agree: [reboot_causes] is empty exactly when [recent_boots] is, and
    the date tokens of its detail are the first entry of
    [recent_boots]. *)
Theorem reboot_causes_agree_with_boots w t t' c bs cs :
  w_run w last_argv 5 t = inr c -> w_run w last_argv 5 t' = inr c ->
  outcome (get_recent_boots w) t = Ok bs -> outcome (get_reboot_causes w) t' = Ok cs ->
  (bs = [] <-> cs = []) /\
  (forall b r, head bs = Some b -> cs = [("last", r)]%string -> boot_date (detail r) = b).
Proof.
  intros R1 R2. rewrite get_recent_boots_run, R1, get_reboot_causes_run, R2.
  intros [= <-] [= <-].
  destruct (find_reboot (out_lines c)) as [line|] eqn:F.
  - destruct (find_reboot_some _ _ F) as [_ Hh].
    destruct (collect_boots (out_lines c)) as [|b0 bs0]; [done|].
    split; [done|]. intros b r [= <-] [= <-]. simpl in *. rewrite boot_date_strip. congruence.
  - apply find_reboot_none in F. rewrite F. split; [done|]. done.
Qed.

(** ** Scenarios and witnesses *)

Definition last_world (out : nat -> run_error + completed) : world :=
  {| w_read := w_read empty_world; w_glob := w_glob empty_world;
     w_run argv _ t := if decide (argv = last_argv) then out t else inl (RunFail ENOENT);
     w_statvfs := w_statvfs empty_world; w_time := w_time empty_world |}.

Definition last_output : string := "reboot   system boot  6.8.0-45-generic Mon Oct  7 09:12:03 2024   still running
reboot   system boot  6.8.0-45-generic Sun Oct  6 21:00:11 2024 - Mon Oct  7 09:11:40 2024  (12:11)

wtmp begins Tue Oct  1 10:00:00 2024
".

Lemma get_recent_boots_at_most_10_witness :
  length ["Mon Oct 7 09:12:03 2024"; "Sun Oct 6 21:00:11 2024"]%string <= 10.
Proof.
  apply (get_recent_boots_at_most_10 (last_world (fun _ => inr (mk_completed 0 last_output))) 0).
  reflexivity.
Defined.

Lemma get_recent_boots_unavailable_witness :
  outcome (get_recent_boots empty_world) 0 = Ok [].
Proof. apply (get_recent_boots_unavailable _ 0 (RunFail ENOENT)); [reflexivity|left; reflexivity]. Defined.

Lemma get_recent_boots_permission_error_witness :
  outcome (get_recent_boots (last_world (fun _ => inl (RunFail EACCES)))) 0
  = Raise (OSError EACCES).
Proof. apply get_recent_boots_permission_error. reflexivity. Defined.

Lemma collect_boots_short_line_witness :
  collect_boots ["reboot  system boot"; "reboot   system boot  6.8.0 Mon Oct  7 09:12:03 2024"]%string
  = ["" ; "Mon Oct 7 09:12:03 2024"]%string.
Proof. rewrite collect_boots_short_line; [reflexivity|reflexivity|simpl; lia]. Defined.

Lemma get_reboot_causes_shape_witness :
  [("last", mk_cause "unknown" (strip "reboot   system boot  6.8.0-45-generic Mon Oct  7 09:12:03 2024   still running"))]%string = []
  \/ exists line, startswith line "reboot" = true /\
      [("last", mk_cause "unknown" (strip "reboot   system boot  6.8.0-45-generic Mon Oct  7 09:12:03 2024   still running"))]%string
      = [("last", mk_cause "unknown" (strip line))]%string.
Proof.
  apply (get_reboot_causes_shape (last_world (fun _ => inr (mk_completed 0 last_output))) 0).
  reflexivity.
Defined.

Lemma reboot_causes_agree_with_boots_witness :
  let r := mk_cause "unknown" "reboot   system boot  6.8.0-45-generic Mon Oct  7 09:12:03 2024   still running" in
  (["Mon Oct 7 09:12:03 2024"; "Sun Oct 6 21:00:11 2024"]%string = [] <-> [("last", r)]%string = []) /\
  (forall b r', head ["Mon Oct 7 09:12:03 2024"; "Sun Oct 6 21:00:11 2024"]%string = Some b ->
     [("last", r)]%string = [("last", r')]%string -> boot_date (detail r') = b).
Proof.
  apply (reboot_causes_agree_with_boots (last_world (fun _ => inr (mk_completed 0 last_output))) 0 1
           (mk_completed 0 last_output)); reflexivity.
Defined.

End Boots.
