(* ===== verification/Temps.v ===== *)
(** * SourceReader [get_temperatures] (lines 35-61)

    The thermal zones are the sorted [glob] of
    [/sys/class/thermal/thermal_zone*/temp]; each is read under
    [except (ValueError, IOError)] and, when its stripped text is not
    empty, recorded under the name of its directory as [int(val) / 1000.0].
    When no recorded name contains [gpu] (in any case), [nvidia-smi] is run
    (timeout 3 s) under [except (FileNotFoundError, TimeoutExpired)] and,
    if it exits with 0, every non-blank line [i] of its output is recorded
    as [gpu{i}] = [float(line)].  The dict keeps insertion order, as the
    JSON output does. *)

From S2P Require Import Prelude PyStr PyNum PyFloat Os.
From Stdlib Require Import QArith.
Import PyStr PyNum PyFloat Os.
Local Close Scope Q_scope.

Module Temps.

Definition thermal_glob : string := "/sys/class/thermal/thermal_zone*/temp".

Definition smi_temp_argv : list string :=
  ["nvidia-smi"; "--query-gpu=temperature.gpu"; "--format=csv,noheader,nounits"]%string.

(** [any("gpu" in k.lower() for k in temps)] *)
Definition has_gpu_key (temps : list (string * pyfloat)) : bool :=
  existsb (fun kv => contains "gpu" (lower kv.1)) temps.

(** The path of a thermal zone whose directory is [thermal_zone<d>]. *)
Definition zone_path (d : string) : string := ("/sys/class/thermal/thermal_zone" ++ d ++ "/temp")%string.

(** What [glob] returns on Linux: zones numbered in decimal. *)
Definition std_zone (z : string) : Prop := exists d, z = zone_path d /\ all_digits d = true.

Definition no_gpu_key (k : string) : Prop := contains "gpu" (lower k) = false.

Lemma zone_name_std d :
  all_digits d = true -> py_index_neg (split_on "/" (zone_path d)) 2 = Ok ("thermal_zone" ++ d)%string.
Proof.
  intros Hd. unfold zone_path.
  change ("/sys/class/thermal/thermal_zone" ++ d ++ "/temp")%string with
    (String "/" ("sys" ++ String "/" ("class" ++ String "/" ("thermal" ++ String "/"
       (("thermal_zone" ++ d) ++ String "/" "temp")))))%string.
  rewrite split_on_sep, !split_on_field; [reflexivity|..|done|done|done].
  rewrite no_char_app. by apply all_digits_no_slash.
Qed.

Lemma zone_name_no_gpu d : all_digits d = true -> no_gpu_key ("thermal_zone" ++ d)%string.
Proof.
  intros Hd. unfold no_gpu_key. rewrite lower_app. apply contains_no_char.
  rewrite no_char_app. by apply all_digits_lower_no_g.
Qed.

Lemma has_gpu_key_false temps :
  Forall (fun kv => no_gpu_key kv.1) temps -> has_gpu_key temps = false.
Proof. induction 1 as [|kv l Hk _ IH]; simpl; [done|]. by rewrite Hk, IH. Qed.

Section TempsOps.
Context `{FloatModel} (w : world).

(** Lines 38-45 for one zone path. *)
Definition read_zone (temps : list (string * pyfloat)) (zone : string)
    : PyM (list (string * pyfloat)) :=
  zone_name <- lift (py_index_neg (split_on "/" zone) 2) ;;
  try_except
    (contents <- read_file w zone ;;
     let val := strip contents in
     if String.eqb val "" then ret temps
     else n <- lift (py_int val) ;;
          ret (dict_set temps zone_name (fdiv_const (PFin (fint n)) 1000)))
    [CValueError; COSError]
    (ret temps).

(** The loop of line 37. *)
Fixpoint read_zones (temps : list (string * pyfloat)) (zones : list string)
    : PyM (list (string * pyfloat)) :=
  match zones with
  | [] => ret temps
  | z :: zs => temps' <- read_zone temps z ;; read_zones temps' zs
  end.

(** Lines 55-57: [enumerate] counts the blank lines too. *)
Fixpoint gpu_temps (temps : list (string * pyfloat)) (i : nat) (lines : list string)
    : result (list (string * pyfloat)) :=
  match lines with
  | [] => Ok temps
  | line :: ls =>
      if String.eqb (strip line) "" then gpu_temps temps (S i) ls
      else let? v := py_float (strip line) in
           gpu_temps (dict_set temps ("gpu" ++ str_of_nat i) v) (S i) ls
  end%string.

Lemma gpu_temps_bad temps i lines line :
  In line lines -> strip line <> "" -> py_float (strip line) = Raise ValueError ->
  gpu_temps temps i lines = Raise ValueError.
Proof.
  revert temps i. induction lines as [|l ls IH]; intros temps i; simpl; [done|].
  intros [->|Hin] Hne Hv.
  - destruct (String.eqb_spec (strip line) ""); [done|]. by rewrite Hv.
  - destruct (String.eqb (strip l) ""); [by apply IH|].
    destruct (py_float (strip l)) as [v|e] eqn:E; simpl; [by apply IH|].
    by rewrite (py_float_raise _ _ E).
Qed.

(** Lines 48-59. *)
Definition smi_fallback (temps : list (string * pyfloat)) : PyM (list (string * pyfloat)) :=
  try_except
    (result <- run w smi_temp_argv 3 ;;
     if Z.eqb (returncode result) 0 then
       lift (gpu_temps temps 0 (split_on "010"%char (strip (stdout result))))
     else ret temps)
    [CFileNotFoundError; CTimeoutExpired]
    (ret temps).

Definition get_temperatures : PyM (list (string * pyfloat)) :=
  zones <- glob w thermal_glob ;;
  temps <- read_zones [] (sort_str zones) ;;
  if has_gpu_key temps then ret temps else smi_fallback temps.

Lemma read_zone_std temps d t :
  all_digits d = true ->
  exists temps', read_zone temps (zone_path d) t = (Ok temps', S t) /\
    (temps' = temps \/ exists v, temps' = dict_set temps ("thermal_zone" ++ d)%string v).
Proof.
  intros Hd. unfold read_zone, bind at 1. cbn [lift]. rewrite zone_name_std by done.
  unfold try_except, bind. cbn [read_file call event].
  destruct (w_read w (zone_path d) t) as [e|c]; [destruct e; simpl; eauto|].
  destruct (String.eqb (strip c) ""); [simpl; eauto|].
  destruct (py_int (strip c)) eqn:E; simpl; [eauto|].
  rewrite (py_int_raise _ _ E). simpl. eauto.
Qed.

Lemma read_zones_std temps zones t :
  Forall std_zone zones -> Forall (fun kv => no_gpu_key kv.1) temps ->
  exists temps', read_zones temps zones t = (Ok temps', t + length zones) /\
    Forall (fun kv => no_gpu_key kv.1) temps'.
Proof.
  revert temps t. induction zones as [|z zs IH]; intros temps t Hz Ht.
  - exists temps. split; [simpl; by rewrite Nat.add_0_r|done].
  - inversion Hz as [|? ? [d [-> Hd]] Hzs]; subst.
    destruct (read_zone_std temps d t Hd) as (t1 & E & Hor).
    assert (Ht1 : Forall (fun kv => no_gpu_key kv.1) t1).
    { destruct Hor as [->|[v ->]]; [done|]. apply dict_set_Forall; [done|by apply zone_name_no_gpu]. }
    destruct (IH t1 (S t) Hzs Ht1) as (t2 & E2 & H2).
    exists t2. split; [|done]. simpl. unfold bind at 1. rewrite E, E2. f_equal. lia.
Qed.

Lemma smi_fallback_events temps t : snd (smi_fallback temps t) = S t.
Proof.
  unfold smi_fallback, try_except, bind. cbn [run call event].
  destruct (w_run w smi_temp_argv 3 t) as [e|c].
  - by destruct e as [[]| |].
  - simpl. destruct (Z.eqb (returncode c) 0); simpl; [|done].
    destruct (gpu_temps temps 0 (split_on "010"%char (strip (stdout c)))) as [a|e]; [done|].
    by destruct e as [| | | |[]|].
Qed.

(** On standard zones the reader ends with the [nvidia-smi] fallback. *)
Lemma get_temperatures_std t :
  Forall std_zone (w_glob w thermal_glob t) ->
  exists temps, Forall (fun kv => no_gpu_key kv.1) temps /\
    get_temperatures t = smi_fallback temps (S t + length (w_glob w thermal_glob t)).
Proof.
  intros Hz. unfold get_temperatures, bind at 1. cbn [glob event].
  destruct (read_zones_std [] (sort_str (w_glob w thermal_glob t)) (S t)) as (temps & E & Ht).
  - by rewrite sort_str_perm.
  - constructor.
  - exists temps. split; [done|]. unfold bind. rewrite E, has_gpu_key_false by done.
    by rewrite sort_str_perm.
Qed.

End TempsOps.

(** (C7) On a machine whose zones are the usual [thermal_zone<N>]
    directories, no recorded name can contain [gpu], so [nvidia-smi] is
    always run: the reader performs the glob, one read per zone and one
    run.  (The test looks at directory names, not at the zones' [type]
    files, so a GPU zone is never recognised.) *)
Theorem get_temperatures_always_runs_smi `{FloatModel} w t :
  Forall std_zone (w_glob w thermal_glob t) ->
  snd (get_temperatures w t) = t + 2 + length (w_glob w thermal_glob t).
Proof.
  intros Hz. destruct (get_temperatures_std w t Hz) as (temps & _ & E).
  rewrite E, smi_fallback_events. lia.
Qed.

(** A non-blank [nvidia-smi] line that is not a float (such as
    [[N/A]]) raises [ValueError] out of [get_temperatures]: the [except]
    clause only names [FileNotFoundError] and [TimeoutExpired]. *)
Theorem get_temperatures_smi_garbage `{FloatModel} w t c line :
  Forall std_zone (w_glob w thermal_glob t) ->
  w_run w smi_temp_argv 3 (S t + length (w_glob w thermal_glob t)) = inr c ->
  returncode c = 0%Z ->
  In line (split_on "010"%char (strip (stdout c))) -> strip line <> ""%string ->
  py_float (strip line) = Raise ValueError ->
  outcome (get_temperatures w) t = Raise ValueError.
Proof.
  intros Hz R Rc Hin Hne Hv. destruct (get_temperatures_std w t Hz) as (temps & _ & E).
  unfold outcome. rewrite E. unfold smi_fallback, try_except, bind. cbn [run call event].
  rewrite R. simpl. rewrite Rc. simpl. by rewrite (gpu_temps_bad temps 0 _ line).
Qed.

(** Without [nvidia-smi] (missing, or past its 3 s timeout), the
    result holds the zones only: no key contains [gpu]. *)
Theorem get_temperatures_no_tool `{FloatModel} w t e :
  Forall std_zone (w_glob w thermal_glob t) ->
  w_run w smi_temp_argv 3 (S t + length (w_glob w thermal_glob t)) = inl e ->
  e = RunFail ENOENT \/ e = RunTimeout ->
  exists temps, outcome (get_temperatures w) t = Ok temps /\
                Forall (fun kv => no_gpu_key kv.1) temps.
Proof.
  intros Hz R He. destruct (get_temperatures_std w t Hz) as (temps & Ht & E).
  exists temps. split; [|done]. unfold outcome. rewrite E.
  unfold smi_fallback, try_except, bind. cbn [run call event]. rewrite R.
  by destruct He as [-> | ->].
Qed.

(** (C8) A zone holding an int [n] of millidegrees below [2^53] is
    recorded under its directory name as [n / 1000] rounded once. *)
Theorem read_zone_value `{FloatModel} w temps d t c n :
  all_digits d = true -> w_read w (zone_path d) t = inr c ->
  parse_int (strip c) = Some n -> (Z.abs n < 2 ^ 53)%Z ->
  exists q, read_zone w temps (zone_path d) t =
              (Ok (dict_set temps ("thermal_zone" ++ d)%string (PFin q)), S t) /\
            (q == frnd (n # 1000))%Q.
Proof.
  intros Hd R P Hn. unfold read_zone, bind at 1. cbn [lift]. rewrite zone_name_std by done.
  unfold try_except, bind. cbn [read_file call event]. rewrite R.
  assert (Hs : String.eqb (strip c) "" = false).
  { destruct (String.eqb_spec (strip c) ""); [|done]. by rewrite e in P. }
  rewrite Hs. unfold py_int. rewrite P. simpl.
  eexists; split; [done|]. unfold fint. rewrite (frnd_int n Hn).
  apply frnd_proper. rewrite (Qdiv_int_pos n 1000). reflexivity.
Qed.

(** A zone that cannot be read, is empty or does not hold an int is
    left out; the exception does not escape. *)
Theorem read_zone_swallows `{FloatModel} w temps d t :
  all_digits d = true ->
  (exists e, w_read w (zone_path d) t = inl e) \/
  (exists c, w_read w (zone_path d) t = inr c /\
             (strip c = ""%string \/ parse_int (strip c) = None)) ->
  read_zone w temps (zone_path d) t = (Ok temps, S t).
Proof.
  intros Hd Hr. unfold read_zone, bind at 1. cbn [lift]. rewrite zone_name_std by done.
  unfold try_except, bind. cbn [read_file call event].
  destruct Hr as [[e R]|(c & R & [Hc|Hc])]; rewrite R.
  - by destruct e.
  - by rewrite Hc.
  - destruct (String.eqb (strip c) ""); [done|]. unfold py_int. by rewrite Hc.
Qed.

(** ** Witnesses *)

(** Zones 2, 0, 10 and 3 (in directory order): 45.0, 51.25, a bad value
    and a missing file; [nvidia-smi] prints [out]. *)
Definition thermal_world (out : run_error + completed) : world := {|
  w_read p _ :=
    if String.eqb p (zone_path "0") then inr "45000
"%string
    else if String.eqb p (zone_path "10") then inr "oops"%string
    else if String.eqb p (zone_path "2") then inr "51250
"%string
    else inl (IOFail ENOENT);
  w_glob pat _ := if String.eqb pat thermal_glob
                  then [zone_path "2"; zone_path "0"; zone_path "10"; zone_path "3"] else [];
  w_run argv _ _ := if decide (argv = smi_temp_argv) then out else inl (RunFail ENOENT);
  w_statvfs _ _ := inl ENOENT;
  w_time _ := 0%Q |}.

Lemma thermal_world_std out : Forall std_zone (w_glob (thermal_world out) thermal_glob 0).
Proof.
  simpl. repeat constructor; [exists "2"%string|exists "0"%string|exists "10"%string|exists "3"%string];
    split; reflexivity.
Qed.

Lemma get_temperatures_always_runs_smi_witness :
  snd (get_temperatures (thermal_world (inl RunTimeout)) 0) =
  0 + 2 + length (w_glob (thermal_world (inl RunTimeout)) thermal_glob 0).
Proof. apply (get_temperatures_always_runs_smi _ 0), thermal_world_std. Defined.

Lemma get_temperatures_smi_garbage_witness :
  outcome (get_temperatures (thermal_world (inr (mk_completed 0 "[N/A]
")))) 0 = Raise ValueError.
Proof.
  apply (get_temperatures_smi_garbage _ 0 (mk_completed 0 "[N/A]
") "[N/A]");
    [apply thermal_world_std|reflexivity|reflexivity|simpl; left; reflexivity|discriminate|reflexivity].
Defined.

Lemma get_temperatures_no_tool_witness :
  exists temps, outcome (get_temperatures (thermal_world (inl (RunFail ENOENT)))) 0 = Ok temps /\
                Forall (fun kv => no_gpu_key kv.1) temps.
Proof.
  apply (get_temperatures_no_tool _ 0 (RunFail ENOENT));
    [apply thermal_world_std|reflexivity|left; reflexivity].
Defined.

Lemma read_zone_value_witness :
  exists q, read_zone (thermal_world (inl RunTimeout)) [] (zone_path "2") 3 =
              (Ok (dict_set [] "thermal_zone2"%string (PFin q)), 4) /\
            (q == frnd (51250 # 1000))%Q.
Proof. apply (read_zone_value _ [] "2" 3 "51250
" 51250); [reflexivity|reflexivity|reflexivity|lia]. Defined.

Lemma read_zone_swallows_witness :
  read_zone (thermal_world (inl RunTimeout)) [] (zone_path "10") 4 = (Ok [], 5).
Proof.
  apply read_zone_swallows; [reflexivity|]. right. exists "oops"%string. split; [reflexivity|].
  right. reflexivity.
Defined.

End Temps.
