(* ===== verification/Gpu.v ===== *)
(** * SourceReader [get_gpu_percent] (lines 114-136)

    First [nvidia-smi --query-gpu=utilization.gpu] (timeout 3 s): when it
    exits with 0 and prints something, the float of its first line is
    returned; only [FileNotFoundError] and [TimeoutExpired] are caught.
    Then the Jetson fallback: for each path of the [glob] of
    [/sys/devices/gpu.0/load], a non-empty stripped content gives
    [float(val) / 10.0]; [ValueError] and [IOError] abandon the fallback.
    Otherwise [None].  The first stage's result is [Some v] when it
    returned and [None] when it fell through. *)

From S2P Require Import Prelude PyStr PyNum PyFloat Os Temps.
From Stdlib Require Import QArith.
Import PyStr PyNum PyFloat Os Temps.
Local Close Scope Q_scope.

Module Gpu.

Definition smi_util_argv : list string :=
  ["nvidia-smi"; "--query-gpu=utilization.gpu"; "--format=csv,noheader,nounits"]%string.

Definition gpu_load_glob : string := "/sys/devices/gpu.0/load".

Section GpuOps.
Context `{FloatModel} (w : world).

(** Lines 116-124. *)
Definition smi_util : PyM (option pyfloat) :=
  try_except
    (result <- run w smi_util_argv 3 ;;
     if Z.eqb (returncode result) 0 && negb (String.eqb (strip (stdout result)) "") then
       first <- lift (py_index (split_on "010"%char (strip (stdout result))) 0) ;;
       v <- lift (py_float first) ;;
       ret (Some v)
     else ret None)
    [CFileNotFoundError; CTimeoutExpired]
    (ret None).

(** The loop of lines 128-132. *)
Fixpoint read_loads (paths : list string) : PyM (option pyfloat) :=
  match paths with
  | [] => ret None
  | p :: ps =>
      contents <- read_file w p ;;
      let val := strip contents in
      if String.eqb val "" then read_loads ps
      else v <- lift (py_float val) ;; ret (Some (fdiv_const v 10))
  end.

Definition get_gpu_percent : PyM (option pyfloat) :=
  r <- smi_util ;;
  match r with
  | Some v => ret (Some v)
  | None =>
      try_except
        (paths <- glob w gpu_load_glob ;; read_loads paths)
        [CValueError; COSError]
        (ret None)
  end.

(** When [nvidia-smi] is missing, times out, fails or prints nothing, the
    first stage falls through. *)
Definition smi_declines (t : nat) : Prop :=
  w_run w smi_util_argv 3 t = inl (RunFail ENOENT) \/
  w_run w smi_util_argv 3 t = inl RunTimeout \/
  exists c, w_run w smi_util_argv 3 t = inr c /\
            (returncode c <> 0%Z \/ strip (stdout c) = ""%string).

Lemma smi_util_declines t : smi_declines t -> smi_util t = (Ok None, S t).
Proof.
  unfold smi_util, try_except, bind. cbn [run call event].
  intros [R|[R|(c & R & [Hc|Hc])]]; rewrite R; try done; simpl.
  - by rewrite (proj2 (Z.eqb_neq _ _) Hc).
  - rewrite Hc. simpl. by rewrite andb_false_r.
Qed.

Lemma get_gpu_percent_fallback t :
  smi_declines t ->
  get_gpu_percent t =
  try_except (paths <- glob w gpu_load_glob ;; read_loads paths) [CValueError; COSError]
             (ret None) (S t).
Proof. intros D. unfold get_gpu_percent, bind at 1. by rewrite smi_util_declines. Qed.

End GpuOps.

(** (C25) When [nvidia-smi] exits with 0 and prints something, the
    result is the float of its first line: on a machine with several GPUs
    only the first one is reported. *)
Theorem get_gpu_percent_smi `{FloatModel} w t c first rest v :
  w_run w smi_util_argv 3 t = inr c -> returncode c = 0%Z -> strip (stdout c) <> ""%string ->
  split_on "010"%char (strip (stdout c)) = first :: rest -> py_float first = Ok v ->
  outcome (get_gpu_percent w) t = Ok (Some v).
Proof.
  intros R Rc Hne Hs Hv. unfold outcome, get_gpu_percent, smi_util, try_except, bind.
  cbn [run call event]. rewrite R. simpl. rewrite Rc.
  destruct (String.eqb_spec (strip (stdout c)) ""); [done|]. simpl.
  rewrite Hs. simpl. by rewrite Hv.
Qed.

(** (C26) A first line that is not a float (such as [[N/A]]) raises
    [ValueError] out of [get_gpu_percent]: the first [except] only names
    [FileNotFoundError] and [TimeoutExpired], and the Jetson fallback is
    never tried. *)
Theorem get_gpu_percent_smi_garbage `{FloatModel} w t c first rest :
  w_run w smi_util_argv 3 t = inr c -> returncode c = 0%Z -> strip (stdout c) <> ""%string ->
  split_on "010"%char (strip (stdout c)) = first :: rest -> py_float first = Raise ValueError ->
  outcome (get_gpu_percent w) t = Raise ValueError.
Proof.
  intros R Rc Hne Hs Hv. unfold outcome, get_gpu_percent, smi_util, try_except, bind.
  cbn [run call event]. rewrite R. simpl. rewrite Rc.
  destruct (String.eqb_spec (strip (stdout c)) ""); [done|]. simpl.
  rewrite Hs. simpl. by rewrite Hv.
Qed.

(** (C9) When [nvidia-smi] declines, the Jetson load file gives its value
    divided by 10. *)
Theorem get_gpu_percent_sysfs `{FloatModel} w t p c v :
  smi_declines w t -> w_glob w gpu_load_glob (S t) = [p] -> w_read w p (S (S t)) = inr c ->
  strip c <> ""%string -> py_float (strip c) = Ok v ->
  outcome (get_gpu_percent w) t = Ok (Some (fdiv_const v 10)).
Proof.
  intros D G R Hne Hv. unfold outcome. rewrite get_gpu_percent_fallback by done.
  unfold try_except, bind. cbn [glob event]. rewrite G.
  cbn [read_loads]. unfold bind, read_file, call, event. rewrite R.
  destruct (String.eqb_spec (strip c) ""); [done|]. simpl. by rewrite Hv.
Qed.

(** (C27) A Jetson load between 0 and 1000 (per mille) gives a
    percentage between 0 and 100, for every rounding model. *)
Theorem get_gpu_percent_sysfs_bounds `{FloatModel} w t p c q :
  smi_declines w t -> w_glob w gpu_load_glob (S t) = [p] -> w_read w p (S (S t)) = inr c ->
  strip c <> ""%string -> py_float (strip c) = Ok (PFin q) -> (0 <= q <= 1000)%Q ->
  exists q', outcome (get_gpu_percent w) t = Ok (Some (PFin q')) /\ (0 <= q' <= 100)%Q.
Proof.
  intros D G R Hne Hv Hq. unfold outcome. rewrite get_gpu_percent_fallback by done.
  unfold try_except, bind. cbn [glob event]. rewrite G.
  cbn [read_loads]. unfold bind, read_file, call, event. rewrite R.
  destruct (String.eqb_spec (strip c) ""); [done|]. simpl. rewrite Hv. simpl.
  eexists; split; [done|].
  apply (frnd_between 0 100); [done|done|]. destruct Hq as [L U]. unfold inject_Z. split.
  - apply Qle_shift_div_l; [done|]. by rewrite Qmult_0_l.
  - apply Qle_shift_div_r; [done|]. eapply Qle_trans; [exact U|]. done.
Qed.

(** The spec's scenario: on a machine with the usual thermal zones,
    no [nvidia-smi] and no Jetson load file, [gpu_percent] is [None] and no
    temperature key contains [gpu]. *)
Theorem no_gpu_scenario `{FloatModel} w t t' :
  Forall std_zone (w_glob w thermal_glob t) ->
  (forall argv s u, w_run w argv s u = inl (RunFail ENOENT)) ->
  w_glob w gpu_load_glob (S t') = [] ->
  outcome (get_gpu_percent w) t' = Ok None /\
  exists temps, outcome (get_temperatures w) t = Ok temps /\
                Forall (fun kv => no_gpu_key kv.1) temps.
Proof.
  intros Hz Hrun Hg. split.
  - unfold outcome. rewrite get_gpu_percent_fallback by (left; apply Hrun).
    unfold try_except, bind. cbn [glob event]. by rewrite Hg.
  - destruct (get_temperatures_std w t Hz) as (temps & Ht & E).
    exists temps. split; [|done]. unfold outcome. rewrite E.
    unfold smi_fallback, try_except, bind. cbn [run call event]. by rewrite Hrun.
Qed.

(** ** Witnesses *)

(** [nvidia-smi] gives [smi]; the Jetson load file holds [load] if any. *)
Definition gpu_world (smi : run_error + completed) (load : option string) : world := {|
  w_read p _ := match load with
                | Some l => if String.eqb p gpu_load_glob then inr l else inl (IOFail ENOENT)
                | None => inl (IOFail ENOENT)
                end;
  w_glob pat _ := match load with
                  | Some _ => if String.eqb pat gpu_load_glob then [gpu_load_glob] else []
                  | None => []
                  end;
  w_run argv _ _ := if decide (argv = smi_util_argv) then smi else inl (RunFail ENOENT);
  w_statvfs _ _ := inl ENOENT;
  w_time _ := 0%Q |}.

Lemma get_gpu_percent_smi_witness :
  outcome (get_gpu_percent (gpu_world (inr (mk_completed 0 "37
12
")) None)) 0 = Ok (Some (PFin (frnd 37))).
Proof.
  apply (get_gpu_percent_smi _ 0 (mk_completed 0 "37
12
") "37" ["12"]%string);
    [reflexivity|reflexivity|discriminate|reflexivity|reflexivity].
Defined.

Lemma get_gpu_percent_smi_garbage_witness :
  outcome (get_gpu_percent (gpu_world (inr (mk_completed 0 "[N/A]
")) (Some "500"))) 0 = Raise ValueError.
Proof.
  apply (get_gpu_percent_smi_garbage _ 0 (mk_completed 0 "[N/A]
") "[N/A]" []);
    [reflexivity|reflexivity|discriminate|reflexivity|reflexivity].
Defined.

Lemma get_gpu_percent_sysfs_witness :
  outcome (get_gpu_percent (gpu_world (inl (RunFail ENOENT)) (Some "523
"))) 0 = Ok (Some (fdiv_const (PFin (frnd 523)) 10)).
Proof.
  apply (get_gpu_percent_sysfs _ 0 gpu_load_glob "523
");
    [left; reflexivity|reflexivity|reflexivity|discriminate|reflexivity].
Defined.

Lemma get_gpu_percent_sysfs_bounds_witness :
  exists q', outcome (get_gpu_percent (gpu_world (inl RunTimeout) (Some "523
"))) 0 = Ok (Some (PFin q')) /\ (0 <= q' <= 100)%Q.
Proof.
  apply (get_gpu_percent_sysfs_bounds _ 0 gpu_load_glob "523
" 523);
    [right; left; reflexivity|reflexivity|reflexivity|discriminate|reflexivity|].
  split; unfold Qle; simpl; lia.
Defined.

Lemma no_gpu_scenario_witness :
  outcome (get_gpu_percent (thermal_world (inl (RunFail ENOENT)))) 0 = Ok None /\
  exists temps, outcome (get_temperatures (thermal_world (inl (RunFail ENOENT)))) 0 = Ok temps /\
                Forall (fun kv => no_gpu_key kv.1) temps.
Proof.
  apply no_gpu_scenario; [apply thermal_world_std| |reflexivity].
  intros argv s u. simpl. by destruct (decide _).
Defined.

End Gpu.
