(* ===== verification/Metrics.v ===== *)
(** * MetricsAggregator [collect_metrics] (lines 191-204)

    The dict literal calls the eleven readers once each, in the order of
    its keys (Python evaluates a dict display left to right); the first
    exception a reader lets escape aborts the snapshot.  The values are
    the JSON values [json.dumps] later prints: a [round(x, 1)] is the
    float nearest its tenths ([rounded] with its sign bit), the dicts keep
    the order in which the readers filled them. *)

From S2P Require Import Prelude PyStr PyNum PyFloat Repr Json Calendar Os Host Cpu Memory Disk Boots Temps Gpu.
From Stdlib Require Import QArith.
Import PyStr PyNum PyFloat Json Os Host Cpu Memory Disk Boots Temps Gpu.
Local Close Scope Q_scope.

Module Metrics.

Section Values.
Context `{FloatModel}.

(** The float [round(x, 1)] returns. *)
Definition jround (r : rounded) : jvalue := JFloat (r_neg r) (PFin (frnd (r_tenths r # 10))).

(** [round(x, 1)] on a float: [nan] and the infinities are returned as
    they are. *)
Definition jround_float (x : pyfloat) : jvalue :=
  match x with
  | PFin q => jround (py_round1 q)
  | _ => JFloat false x
  end.

Definition jfloat (x : pyfloat) : jvalue := JFloat false x.

Definition jmemory (m : memory) : jvalue :=
  JObj [("total_mb", jround (total_mb m)); ("used_mb", jround (used_mb m));
        ("available_mb", jround (available_mb m)); ("swap_total_mb", jround (swap_total_mb m));
        ("swap_used_mb", jround (swap_used_mb m))]%string.

Definition jdisk (d : disk) : jvalue :=
  JObj [("total_gb", jround (total_gb d)); ("used_gb", jround (used_gb d));
        ("free_gb", jround (free_gb d))]%string.

Definition jcause (c : reboot_cause) : jvalue :=
  JObj [("cause", JStr (cause c)); ("detail", JStr (detail c))]%string.

Definition joption {A} (f : A -> jvalue) (o : option A) : jvalue :=
  match o with Some a => f a | None => JNull end.

End Values.

(** The keys of the snapshot, in the order of the dict display. *)
Definition snapshot_keys : list string :=
  ["hostname"; "uptime_seconds"; "boot_time"; "temperatures"; "memory"; "load_avg";
   "cpu_percent"; "gpu_percent"; "recent_boots"; "reboot_causes"; "disk"]%string.

Section Collect.
Context `{FloatModel} (w : world).

(** Lines 191-204. *)
Definition collect_metrics : PyM jvalue :=
  hostname <- get_hostname w ;;
  uptime <- get_uptime w ;;
  boot_time <- get_boot_time w ;;
  temps <- get_temperatures w ;;
  mem <- get_memory w ;;
  load <- get_load_avg w ;;
  cpu <- get_cpu_percent w ;;
  gpu <- get_gpu_percent w ;;
  boots <- get_recent_boots w ;;
  causes <- get_reboot_causes w ;;
  dsk <- get_disk w ;;
  ret (JObj [("hostname", JStr hostname);
             ("uptime_seconds", jround_float uptime);
             ("boot_time", JStr boot_time);
             ("temperatures", JObj (map (fun kv => (kv.1, jfloat kv.2)) temps));
             ("memory", jmemory mem);
             ("load_avg", JList (map jfloat load));
             ("cpu_percent", joption jround cpu);
             ("gpu_percent", joption jfloat gpu);
             ("recent_boots", JList (map JStr boots));
             ("reboot_causes", JObj (map (fun kv => (kv.1, jcause kv.2)) causes));
             ("disk", jdisk dsk)]%string).

End Collect.


(** ** Theorems *)

(** (C29) A snapshot that is collected is a dict whose keys are the
    spec's eleven fields, in the order of the dict display. *)
Theorem collect_metrics_keys `{FloatModel} w t v t' :
  collect_metrics w t = (Ok v, t') -> exists kvs, v = JObj kvs /\ map fst kvs = snapshot_keys.
Proof.
  unfold collect_metrics. intros E.
  repeat (apply bind_ok_inv in E as (? & ? & _ & E)).
  injection E as <- _. eexists; split; reflexivity.
Qed.

(** (C14) A degradable reader aborts the whole snapshot: on a host with
    the usual thermal zones, an [nvidia-smi] that prints a line that is not
    a float (such as [[N/A]]) makes [collect_metrics] raise [ValueError]
    once the host name, uptime and boot time have been read; the spec
    says temperature errors never abort the request. *)
Theorem collect_metrics_smi_garbage `{FloatModel} w t t1 t2 t3 h u b c line :
  get_hostname w t = (Ok h, t1) -> get_uptime w t1 = (Ok u, t2) ->
  get_boot_time w t2 = (Ok b, t3) ->
  Forall std_zone (w_glob w thermal_glob t3) ->
  w_run w smi_temp_argv 3 (S t3 + length (w_glob w thermal_glob t3)) = inr c ->
  returncode c = 0%Z ->
  In line (split_on "010"%char (strip (stdout c))) -> strip line <> ""%string ->
  py_float (strip line) = Raise ValueError ->
  outcome (collect_metrics w) t = Raise ValueError.
Proof.
  intros H1 H2 H3 Hz R Rc Hin Hne Hv.
  pose proof (get_temperatures_smi_garbage w t3 c line Hz R Rc Hin Hne Hv) as T.
  unfold outcome in T |- *. unfold collect_metrics.
  rewrite (bind_step _ _ _ _ _ H1), (bind_step _ _ _ _ _ H2), (bind_step _ _ _ _ _ H3).
  destruct (get_temperatures w t3) as [r t4] eqn:E. cbn in T. subst r.
  by rewrite (bind_step_raise _ _ _ _ _ E).
Qed.

(** (C24) The two readers of the reboot history run [last] twice: in
    every snapshot [collect_metrics] returns, [recent_boots] is what
    [get_recent_boots] makes of the run of [last] at some event [tb], and
    [reboot_causes] what [get_reboot_causes] makes of a second run at the
    next event, [S tb].  The spec has [reboot_causes] reuse the same
    invocation; here a log that changes between the two runs gives a
    snapshot whose boots and causes disagree. *)
Theorem collect_metrics_last_twice `{FloatModel} w t v t' :
  collect_metrics w t = (Ok v, t') ->
  exists tb bs cs kvs1 kvs2,
    outcome (get_recent_boots w) tb = Ok bs /\ outcome (get_reboot_causes w) (S tb) = Ok cs /\
    v = JObj (kvs1 ++ ("recent_boots"%string, JList (map JStr bs)) ::
              ("reboot_causes"%string, JObj (map (fun kv => (kv.1, jcause kv.2)) cs)) :: kvs2).
Proof.
  unfold collect_metrics. intros E.
  do 7 (apply bind_ok_inv in E as (? & ? & _ & E)).
  apply bind_ok_inv in E as (g & tb & _ & E).
  apply bind_ok_inv in E as (bs & tc & Eb & E). apply bind_ok_inv in E as (cs & td & Ec & E).
  apply bind_ok_inv in E as (d & te & _ & E).
  pose proof (get_recent_boots_clock w tb) as Ck. rewrite Eb in Ck. cbn in Ck. subst tc.
  exists tb, bs, cs. eexists [_; _; _; _; _; _; _; _], [_].
  unfold outcome. rewrite Eb, Ec. split; [done|]. split; [done|]. by injection E as <-.
Qed.

(** ** Witnesses *)

(** A host named [gpu-node-1], up for 12345.5 s, with zones 0 and 1 at
    45 and 51.25 degrees, 16 GB of memory, an idle CPU, a 1 TB disk, no
    [last] and no Jetson load file, whose [nvidia-smi] prints [smi]. *)
Definition demo_world (smi : run_error + completed) : world := {|
  w_read p _ :=
    if String.eqb p "/etc/hostname" then inr "gpu-node-1
"
    else if String.eqb p "/proc/uptime" then inr "12345.50 98765.43
"
    else if String.eqb p (zone_path "0") then inr "45000
"
    else if String.eqb p (zone_path "1") then inr "51250
"
    else if String.eqb p "/proc/meminfo" then inr "MemTotal: 16384000 kB
MemAvailable: 8192000 kB
SwapTotal: 0 kB
SwapFree: 0 kB
"
    else if String.eqb p "/proc/loadavg" then inr "0.52 0.58 0.59 1/345 6789
"
    else if String.eqb p "/proc/stat" then inr "cpu  2000 100 1500 1000 200 100 100 0 0 0
"
    else inl (IOFail ENOENT);
  w_glob pat _ := if String.eqb pat thermal_glob then [zone_path "1"; zone_path "0"] else [];
  w_run argv _ _ := if decide (argv = smi_temp_argv) then smi else inl (RunFail ENOENT);
  w_statvfs p _ := if String.eqb p "/" then inr (mk_statvfs 244190646 61047661 4096) else inl ENOENT;
  w_time _ := (6800000001 # 4)%Q |}%string.

Lemma collect_metrics_smi_garbage_witness :
  outcome (collect_metrics (demo_world (inr (mk_completed 0 "[N/A]
")))) 0 = Raise ValueError.
Proof.
  eapply (collect_metrics_smi_garbage _ 0 _ _ _ _ _ _ (mk_completed 0 "[N/A]
") "[N/A]");
    try reflexivity; [| |vm_compute; discriminate].
  - repeat constructor; [exists "1"%string|exists "0"%string]; split; reflexivity.
  - left. reflexivity.
Defined.

Lemma collect_metrics_last_twice_witness :
  exists v t', collect_metrics (demo_world (inl (RunFail ENOENT))) 0 = (Ok v, t') /\
  exists tb bs cs kvs1 kvs2,
    outcome (get_recent_boots (demo_world (inl (RunFail ENOENT)))) tb = Ok bs /\
    outcome (get_reboot_causes (demo_world (inl (RunFail ENOENT)))) (S tb) = Ok cs /\
    v = JObj (kvs1 ++ ("recent_boots"%string, JList (map JStr bs)) ::
              ("reboot_causes"%string, JObj (map (fun kv => (kv.1, jcause kv.2)) cs)) :: kvs2).
Proof.
  do 2 eexists. split; [vm_compute; reflexivity|].
  eapply (collect_metrics_last_twice (demo_world (inl (RunFail ENOENT))) 0). vm_compute. reflexivity.
Defined.

Lemma collect_metrics_keys_witness :
  exists v t', collect_metrics (demo_world (inl (RunFail ENOENT))) 0 = (Ok v, t') /\
  exists kvs, v = JObj kvs /\ map fst kvs = snapshot_keys.
Proof.
  do 2 eexists. split; [vm_compute; reflexivity|].
  eapply (collect_metrics_keys (demo_world (inl (RunFail ENOENT))) 0). vm_compute. reflexivity.
Defined.

End Metrics.
