(* ===== verification/Http.v ===== *)
(** * HttpResponder [MetricsHandler] (lines 207-221)

    [do_GET] answers [/metrics] with [200], a [Content-Type] and a
    [Content-Length] header and the UTF-8 bytes of [json.dumps] of the
    snapshot, and any other path with [404] and no body.  The handler's
    state is the event counter of the machine and the list of what it has
    sent ([send_response], [send_header], [end_headers], [wfile.write]);
    [handle] runs it as [BaseHTTPRequestHandler.handle_one_request]
    does: an exception escaping [do_GET] reaches [socketserver]'s
    [handle_error], which closes the connection with what was sent so far.
    [send_response] and [send_error] call the library's logging, which
    ends in [log_message]; [MetricsHandler] overrides it to do nothing.  The [Server] and [Date] headers that [send_response] adds
    are the library's and are not modelled. *)

From S2P Require Import Prelude PyStr PyNum PyFloat Repr Json Os Metrics.
Import PyStr PyNum PyFloat Json Os Metrics.
Local Close Scope Q_scope.

Module Http.

(** [SendError] is the library's [send_error], which writes a status
    line, its own headers and an HTML page.  [LogLine] is a line the
    library's [log_message] would write to [sys.stderr]. *)
Inductive http_event :=
| SendResponse (code : Z)
| SendHeader (keyword value : string)
| EndHeaders
| Write (bytes : list Z)
| SendError (code : Z)
| LogLine (line : string).

(** A handler: from the event counter and what was sent so far. *)
Definition HM (A : Type) := nat * list http_event -> result A * (nat * list http_event).

Definition hret {A} (a : A) : HM A := fun st => (Ok a, st).

Definition hbind {A B} (m : HM A) (k : A -> HM B) : HM B :=
  fun st => match m st with
            | (Ok a, st') => k a st'
            | (Raise e, st') => (Raise e, st')
            end.

(** A computation of the program inside the handler. *)
Definition hlift {A} (m : PyM A) : HM A :=
  fun '(t, out) => let '(r, t') := m t in (r, (t', out)).

Definition emit (e : http_event) : HM unit := fun '(t, out) => (Ok tt, (t, out ++ [e])).

Declare Scope http_scope.
Delimit Scope http_scope with http.
Notation "x <- m ;; k" := (hbind m (fun x => k)) (at level 100, m at next level, right associativity)
  : http_scope.
Notation "m ;; k" := (hbind m (fun _ => k)) (at level 100, right associativity) : http_scope.

(** Lines 221-222: [MetricsHandler.log_message] replaces the library's
    (which writes [format % args] to [sys.stderr], a [LogLine] here) and
    does nothing. *)
Definition log_message (format : string) (args : list string) : HM unit := hret tt.

(** [BaseHTTPRequestHandler.log_request(code)]: [log_message] with the
    request line, the code and the size [-]; the request line is left out,
    the override drops its arguments. *)
Definition log_request (code : Z) : HM unit :=
  log_message (String dquote "%s" ++ String dquote " %s %s")%string [str_of_Z code; "-"]%string.

(** [send_response(code)]: [log_request(code)], then the status line. *)
Definition send_response (code : Z) : HM unit := (log_request code ;; emit (SendResponse code))%http.

(** [send_error(code, message)]: [log_error], a call of [log_message];
    then [send_response(code, message)], whose [log_request] logs again;
    then the status line, the headers and the error page, one event. *)
Definition send_error (code : Z) (message : string) : HM unit :=
  (log_message "code %d, message %s" [str_of_Z code; message] ;; log_request code ;;
   emit (SendError code))%http.

(** The events of a reply; [is_log] tells a log line. *)
Definition is_log (e : http_event) : bool := match e with LogLine _ => true | _ => false end.

Section Handler.
Context `{FloatModel} (w : world).

(** Lines 208-218. *)
Definition do_GET (path : string) : HM unit :=
  (if String.eqb path "/metrics" then
     data <- hlift (collect_metrics w) ;;
     let body := utf8 (dumps data) in
     send_response 200 ;;
     emit (SendHeader "Content-Type" "application/json") ;;
     emit (SendHeader "Content-Length" (str_of_nat (length body))) ;;
     emit EndHeaders ;;
     emit (Write body)
   else
     send_response 404 ;;
     emit EndHeaders)%http.

End Handler.

(** What the client gets: the events sent, and whether the connection was
    closed by an exception. *)
Inductive reply := Responded (sent : list http_event) | Closed (e : exn) (sent : list http_event).

Definition sent_of (r : reply) : list http_event :=
  match r with Responded sent => sent | Closed _ sent => sent end.

Definition handle (m : HM unit) (t : nat) : reply :=
  match m (t, []) with
  | (Ok _, (_, sent)) => Responded sent
  | (Raise e, (_, sent)) => Closed e sent
  end.


(** ** Theorems *)

(** (C13) A snapshot that is collected is answered with [200], the JSON
    content type, a [Content-Length] equal to the number of characters of
    the JSON text, then that text as bytes: the header counts the bytes of
    the body, because [json.dumps] writes only ASCII, one byte a
    character. *)
Theorem do_GET_metrics `{FloatModel} w t data t' :
  collect_metrics w t = (Ok data, t') ->
  handle (do_GET w "/metrics") t =
  Responded [SendResponse 200; SendHeader "Content-Type" "application/json";
             SendHeader "Content-Length" (str_of_nat (String.length (dumps data)));
             EndHeaders; Write (utf8 (dumps data))]%string.
Proof.
  intros C. unfold handle, do_GET. cbn [String.eqb Ascii.eqb Bool.eqb]. unfold hbind, hlift.
  rewrite C. cbn. by rewrite utf8_printable by apply dumps_printable.
Qed.

(** Any other path gets [404] and no body, and the machine is not
    touched: no file is read and no tool is run. *)
Theorem do_GET_not_found `{FloatModel} w path t :
  path <> "/metrics"%string ->
  do_GET w path (t, []) = (Ok tt, (t, [SendResponse 404; EndHeaders])).
Proof.
  intros Hp. unfold do_GET. destruct (String.eqb_spec path "/metrics"); [done|]. reflexivity.
Qed.

(** (C15) When a reader lets an exception escape, nothing has been sent
    yet: the connection is closed without a status line.  The spec asks
    for a 5xx answer to a fatal error; [http.server] does not turn an
    exception into one. *)
Theorem do_GET_failure `{FloatModel} w t e t' :
  collect_metrics w t = (Raise e, t') -> handle (do_GET w "/metrics") t = Closed e [].
Proof.
  intros C. unfold handle, do_GET. cbn [String.eqb Ascii.eqb Bool.eqb]. unfold hbind, hlift.
  by rewrite C.
Qed.


(** ** Witnesses *)

Lemma do_GET_metrics_witness :
  exists data t', collect_metrics (demo_world (inl (RunFail ENOENT))) 0 = (Ok data, t') /\
  handle (do_GET (demo_world (inl (RunFail ENOENT))) "/metrics") 0 =
  Responded [SendResponse 200; SendHeader "Content-Type" "application/json";
             SendHeader "Content-Length" (str_of_nat (String.length (dumps data)));
             EndHeaders; Write (utf8 (dumps data))]%string.
Proof.
  do 2 eexists. split; [vm_compute; reflexivity|]. eapply do_GET_metrics. vm_compute. reflexivity.
Defined.

Lemma do_GET_not_found_witness :
  do_GET empty_world "/" (0, []) = (Ok tt, (0, [SendResponse 404; EndHeaders])).
Proof. apply do_GET_not_found. discriminate. Defined.

Lemma do_GET_failure_witness :
  handle (do_GET empty_world "/metrics") 0 = Closed (OSError ENOENT) [].
Proof. eapply (do_GET_failure empty_world 0 (OSError ENOENT)). reflexivity. Defined.

End Http.
