(* ===== verification/Server.v ===== *)
(** * ProcessConfig and the server loop (lines 17 and 225-228)

    [PORT = int(os.environ.get("PORT", 9100))] runs when the module is
    imported; the process then builds an [HTTPServer] bound to
    [("0.0.0.0", PORT)], prints one line and calls [serve_forever].

    - [get_port] is line 17 on the environment as a [gmap]; a [PORT] that
      [int] rejects raises [ValueError] before any socket exists.
    - [start] adds what [HTTPServer(...)] checks: [socket.bind] refuses a
      port outside [0 .. 65535] with [OverflowError] before asking the
      system, and the system's refusal ([EADDRINUSE], [EACCES] below 1024
      without privilege) is an [OSError]; [bind_os] is the system's answer.
    - [dispatch] is [BaseHTTPRequestHandler.handle_one_request] on the
      class [MetricsHandler]: the method [do_<command>] is looked up, and
      the class defines only [do_GET], so every other command is answered
      by [send_error(501)].
    - The server is the two-state machine of the spec: [Idle] waiting for a
      connection and [Handling] one request; [step] accepts a request or
      finishes one, logging the reply ([Closed] when an exception escaped
      the handler: [socketserver] calls [handle_error] and goes on).
      [serve] is [serve_forever] on a finite sequence of connections,
      answered one at a time ([HTTPServer] is not threaded). *)

From S2P Require Import Prelude PyStr PyNum PyFloat Repr Json Os Metrics Http.
Import PyStr PyNum PyFloat Json Os Metrics Http.
Local Close Scope Q_scope.

Module Server.

(** ** Configuration *)

(** Line 17: [os.environ.get] returns the string, or the int [9100] that
    [int] returns unchanged. *)
Definition get_port (environ : gmap string string) : result Z :=
  match environ !! "PORT"%string with
  | Some s => py_int s
  | None => Ok 9100%Z
  end.

(** [socket.bind] checks the port range itself. *)
Definition check_port (p : Z) : result Z :=
  if (0 <=? p)%Z && (p <=? 65535)%Z then Ok p else Raise OverflowError.

(** Lines 17 and 225-226: the port, then the bound socket. *)
Definition start (environ : gmap string string) (bind_os : Z -> option os_error) : result Z :=
  let? p := get_port environ in
  let? p := check_port p in
  match bind_os p with
  | Some e => Raise (OSError e)
  | None => Ok p
  end.

(** Line 227. *)
Definition banner (p : Z) : string := ("Fleet metrics agent listening on port " ++ str_of_Z p)%string.

(** ** One connection *)

Record request := mk_request { command : string; req_path : string }.

(** The handler and the event counter after it. *)
Definition run_handler (m : HM unit) (t : nat) : reply * nat :=
  match m (t, []) with
  | (Ok _, (t', sent)) => (Responded sent, t')
  | (Raise e, (t', sent)) => (Closed e sent, t')
  end.

Section Loop.
Context `{FloatModel} (w : world).

(** [handle_one_request] on [MetricsHandler] (lines 207-221). *)
Definition dispatch (rq : request) : HM unit :=
  if String.eqb (command rq) "GET" then do_GET w (req_path rq)
  else send_error 501 ("Unsupported method ('" ++ command rq ++ "')")%string.

Inductive phase := Idle | Handling (rq : request).

Record server := mk_server { phase_of : phase; clock : nat; answered : list (request * reply) }.

Definition initial (t : nat) : server := mk_server Idle t [].

Inductive step : server -> server -> Prop :=
| step_accept t log rq :
    step (mk_server Idle t log) (mk_server (Handling rq) t log)
| step_finish t log rq r t' :
    run_handler (dispatch rq) t = (r, t') ->
    step (mk_server (Handling rq) t log) (mk_server Idle t' (log ++ [(rq, r)])).

Inductive reachable (t0 : nat) : server -> Prop :=
| reach_init : reachable t0 (initial t0)
| reach_step s s' : reachable t0 s -> step s s' -> reachable t0 s'.

(** One connection accepted and answered. *)
Definition serve_one (s : server) (rq : request) : server :=
  let '(r, t') := run_handler (dispatch rq) (clock s) in
  mk_server Idle t' (answered s ++ [(rq, r)]).

(** [serve_forever] over the connections [rqs], in the order they come. *)
Definition serve (rqs : list request) (s : server) : server := fold_left serve_one rqs s.

End Loop.

(** ** What a client can receive *)

(** The replies [dispatch] can give: the metrics with a [Content-Length]
    that counts the bytes written, a [404] without a body, a [501], or a
    connection closed before anything was sent. *)
Inductive complete (rq : request) : reply -> Prop :=
| complete_metrics body :
    command rq = "GET"%string -> req_path rq = "/metrics"%string ->
    complete rq (Responded [SendResponse 200; SendHeader "Content-Type" "application/json";
                            SendHeader "Content-Length" (str_of_nat (length body));
                            EndHeaders; Write body])%string
| complete_not_found :
    command rq = "GET"%string -> req_path rq <> "/metrics"%string ->
    complete rq (Responded [SendResponse 404; EndHeaders])
| complete_unsupported :
    command rq <> "GET"%string -> complete rq (Responded [SendError 501])
| complete_closed e :
    command rq = "GET"%string -> req_path rq = "/metrics"%string -> complete rq (Closed e []).

(** ** Lemmas *)

Lemma get_port_set environ s : get_port (<["PORT" := s]> environ)%string = py_int s.
Proof. unfold get_port. by rewrite lookup_insert. Qed.

Lemma run_handler_handle m t : (run_handler m t).1 = handle m t.
Proof. unfold run_handler, handle. by destruct (m (t, [])) as [[] [? ?]]. Qed.

Section LoopLemmas.
Context `{FloatModel} (w : world).

(** (C12) The agent keeps no access log: in every reachable state of the
    server, no reply to any request holds a line of [log_message],
    although [send_response] and [send_error] call the library's logging
    on every answer; the override of lines 221-222 drops them. *)
Theorem reachable_never_logs t0 s : reachable w t0 s ->
  Forall (fun '(_, r) => forallb (fun e => negb (is_log e)) (sent_of r) = true) (answered s).
Proof.
  induction 1 as [|s s' R IH St]; [constructor|].
  destruct St as [t log rq|t log rq r t' Hr]; cbn in IH |- *; [done|].
  apply Forall_app. split; [done|]. constructor; [|done]. revert Hr.
  unfold run_handler, dispatch, do_GET, send_error, send_response, log_request, log_message.
  unfold hbind, hret, hlift, emit.
  destruct (String.eqb _ _); [destruct (String.eqb _ _)|];
    [destruct (collect_metrics w t) as [[d|e] t'']| |]; intros [= <- _]; reflexivity.
Qed.

(** Every reply [dispatch] gives is one of the [complete] ones. *)
Lemma dispatch_complete rq t : complete rq (run_handler (dispatch w rq) t).1.
Proof.
  unfold dispatch. destruct (String.eqb_spec (command rq) "GET") as [Hc|Hc];
    [|by apply complete_unsupported].
  unfold do_GET. destruct (String.eqb_spec (req_path rq) "/metrics") as [Hp|Hp];
    [|by apply complete_not_found].
  unfold run_handler, hbind, hlift. destruct (collect_metrics w t) as [[data|e] t'].
  - by apply complete_metrics.
  - by apply complete_closed.
Qed.

Lemma step_serve_one t0 s rq :
  reachable w t0 s -> phase_of s = Idle -> reachable w t0 (serve_one w s rq).
Proof.
  destruct s as [ph t log]; cbn. intros R ->. unfold serve_one. cbn.
  destruct (run_handler (dispatch w rq) t) as [r t'] eqn:E.
  eapply reach_step; [eapply reach_step; [exact R|apply step_accept]|].
  by apply step_finish.
Qed.

Lemma serve_one_answered s rq :
  answered (serve_one w s rq) = answered s ++ [(rq, (run_handler (dispatch w rq) (clock s)).1)].
Proof. unfold serve_one. by destruct (run_handler _ _). Qed.

Lemma serve_one_idle s rq : phase_of (serve_one w s rq) = Idle.
Proof. unfold serve_one. by destruct (run_handler _ _). Qed.

Lemma serve_cons rqs rq s : serve w (rq :: rqs) s = serve w rqs (serve_one w s rq).
Proof. reflexivity. Qed.

(** The loop is an execution of the machine that answers each connection. *)
Lemma serve_run t0 rqs s :
  reachable w t0 s -> phase_of s = Idle ->
  reachable w t0 (serve w rqs s) /\ phase_of (serve w rqs s) = Idle /\
  map fst (answered (serve w rqs s)) = map fst (answered s) ++ rqs.
Proof.
  revert s. induction rqs as [|rq rqs IH]; intros s R Hi.
  - cbn. by rewrite app_nil_r.
  - rewrite serve_cons. destruct (IH (serve_one w s rq)) as (R' & I' & A');
      [by apply step_serve_one|apply serve_one_idle|].
    split; [done|split; [done|]]. rewrite A', serve_one_answered, map_app, <- app_assoc. done.
Qed.

End LoopLemmas.

(** ** Theorems *)

(** (C11) Whatever the machine and the requests, every reply in the log of
    a reachable server state is complete: a [200] whose [Content-Length]
    is the number of bytes written after it, a [404] or a [501] without a
    body, or a connection closed before any byte was sent.  No client ever
    gets a partial response. *)
Theorem reachable_replies_complete `{FloatModel} w t0 s :
  reachable w t0 s -> Forall (fun a => complete a.1 a.2) (answered s).
Proof.
  induction 1 as [|s s' R IH S]; [constructor|].
  inversion S as [|t log rq r t' E]; subst; cbn in *; [done|].
  apply Forall_app; split; [done|]. repeat constructor.
  pose proof (dispatch_complete w rq t) as D. by rewrite E in D.
Qed.

(** A port given in the environment is the port the server binds:
    [int(str(p))] is [p] for every [p], and a port in range that the
    system grants is returned. *)
Theorem start_port_roundtrip environ bind_os p :
  (0 <= p <= 65535)%Z -> bind_os p = None ->
  start (<["PORT" := str_of_Z p]> environ)%string bind_os = Ok p.
Proof.
  intros Hp Hb. unfold start. rewrite get_port_set, py_int_str_of_Z. cbn.
  unfold check_port. replace ((0 <=? p)%Z && (p <=? 65535)%Z)%bool with true by lia.
  cbn. by rewrite Hb.
Qed.

(** Without [PORT] the server listens on [9100] and says so. *)
Theorem start_default environ bind_os :
  environ !! "PORT"%string = None -> bind_os 9100%Z = None ->
  start environ bind_os = Ok 9100%Z /\
  banner 9100 = "Fleet metrics agent listening on port 9100"%string.
Proof. intros He Hb. unfold start, get_port. rewrite He. cbn. by rewrite Hb. Qed.

(** (C30) A [PORT] that is an int but not a port stops the process with
    [OverflowError] at the bind, before the system is asked; the spec
    does not say what happens to such a port. *)
Theorem start_port_out_of_range environ bind_os p :
  ~ (0 <= p <= 65535)%Z ->
  start (<["PORT" := str_of_Z p]> environ)%string bind_os = Raise OverflowError.
Proof.
  intros Hp. unfold start. rewrite get_port_set, py_int_str_of_Z. cbn.
  unfold check_port. by replace ((0 <=? p)%Z && (p <=? 65535)%Z)%bool with false by lia.
Qed.

(** ** Witnesses *)

Lemma reachable_replies_complete_witness :
  Forall (fun a => complete a.1 a.2)
    (answered (serve empty_world [mk_request "GET" "/metrics"; mk_request "HEAD" "/"] (initial 0)))%string.
Proof.
  apply (reachable_replies_complete empty_world 0).
  apply (serve_run empty_world 0 _ (initial 0) (reach_init _ _) eq_refl).
Defined.

Lemma reachable_never_logs_witness :
  Forall (fun '(_, r) => forallb (fun e => negb (is_log e)) (sent_of r) = true)
    (answered (serve empty_world [mk_request "GET" "/"; mk_request "POST" "/metrics"] (initial 0)))%string.
Proof.
  apply (reachable_never_logs empty_world 0).
  apply (serve_run empty_world 0 _ (initial 0) (reach_init _ _) eq_refl).
Defined.

Lemma start_port_roundtrip_witness :
  start (<["PORT" := "8080"]> ∅)%string (fun _ => None) = Ok 8080%Z.
Proof. apply (start_port_roundtrip ∅ (fun _ => None) 8080); [lia|reflexivity]. Defined.

Lemma start_default_witness :
  start ∅ (fun _ => None) = Ok 9100%Z /\
  banner 9100 = "Fleet metrics agent listening on port 9100"%string.
Proof. apply start_default; reflexivity. Defined.

Lemma start_port_out_of_range_witness :
  start (<["PORT" := "70000"]> ∅)%string (fun _ => None) = Raise OverflowError.
Proof. apply (start_port_out_of_range ∅ (fun _ => None) 70000). lia. Defined.

End Server.
